(** * Minted mUSD / Canton diagnostic scripts: a shallow embedding

    The scripts under [scripts/] are linear Python programs: they send one or
    two JSON requests to a ledger node, decode the answer, probe the decoded
    document and print a summary.  This development embeds

    - the Python values the scripts handle (decoded JSON documents), with the
      operations the scripts apply to them and the exceptions these raise;
    - the world a script runs in (the HTTP endpoint, the clock, the random
      generator, the console), threaded through a small state-and-exception
      monad;
    - the scripts, statement by statement: check-acs.py, query-acs.py and
      bootstrap-http.py and coverage_report.py as a whole, and of
      test-canton-api.py, check-bridge-contracts.py and
      check-canton-contracts.py the loop that walks the entries,

    and then states and proves the properties of the specification. *)

From Stdlib Require Import String Ascii List ZArith QArith Bool Arith Lia.
From Stdlib Require Import DecimalString.
From Stdlib Require DecimalZ.
From Stdlib Require Import Permutation Sorted.
Import ListNotations.

Close Scope Q_scope.
Open Scope string_scope.
Open Scope list_scope.
Open Scope nat_scope.

(* ================================================================== *)
(** * Python values and the operations the scripts use *)
(* ================================================================== *)

Module Py.

(** A decoded JSON document, as [json.loads] returns it: [None], [bool],
    a number ([int] or [float], kept as an exact rational), [str], [list]
    and [dict].  A [dict] keeps its insertion order, so it is the list of
    its items; the keys of one dict are pairwise different. *)
#[warnings="-register-all"]
Inductive json : Type :=
| JNull
| JBool (b : bool)
| JNum (q : Q)
| JStr (s : string)
| JArr (l : list json)
| JObj (m : list (string * json)).

(** The exceptions the modelled statements can raise.  In Python
    [HTTPError] is a subclass of [URLError], itself a subclass of [OSError];
    the other transport failures ([ConnectionResetError], a timeout, an
    interrupted read) are [OSError]s that are not [URLError]s. *)
Inductive exn : Type :=
| TypeError
| AttributeError
| KeyError (k : string)
| ZeroDivisionError
| JSONDecodeError
| UnicodeDecodeError
| HTTPError (code : Z) (body : string)
| URLError (reason : string)
| OSError (what : string).

(** The outcome of evaluating an expression: a value or a raised exception. *)
Inductive res (A : Type) : Type :=
| Ret (a : A)
| Raise (e : exn).
Arguments Ret {A} a.
Arguments Raise {A} e.

Definition rbind {A B : Type} (r : res A) (k : A -> res B) : res B :=
  match r with
  | Ret a => k a
  | Raise e => Raise e
  end.

Declare Scope res_scope.
Delimit Scope res_scope with res.
Notation "x <- r ;; k" := (rbind r (fun x => k))
  (at level 61, r at next level, right associativity) : res_scope.

(** ** Type tests and truth value *)

Definition is_list (v : json) : bool :=
  match v with JArr _ => true | _ => false end.

(** [bool(v)]: [None], [False], zero, and the empty string, list and dict
    are false. *)
Definition truthy (v : json) : bool :=
  match v with
  | JNull => false
  | JBool b => b
  | JNum q => negb (Qeq_bool q 0%Q)
  | JStr s => negb (String.eqb s "")
  | JArr l => match l with [] => false | _ => true end
  | JObj m => match m with [] => false | _ => true end
  end.

(** ** Strings *)

(** [needle in hay] for two strings. *)
Fixpoint contains (needle hay : string) : bool :=
  String.prefix needle hay
  || match hay with
     | EmptyString => false
     | String _ rest => contains needle rest
     end.

(** [s.split(sep)] for a one-character separator: never empty. *)
Fixpoint split (sep : ascii) (s : string) : list string :=
  match s with
  | EmptyString => [EmptyString]
  | String c rest =>
      if Ascii.eqb c sep then EmptyString :: split sep rest
      else match split sep rest with
           | [] => [String c EmptyString]
           | part :: parts => String c part :: parts
           end
  end.

(** [str.isspace] on the characters below 128. *)
Definition is_space (c : ascii) : bool :=
  let n := nat_of_ascii c in
  ((9 <=? n) && (n <=? 13)) || ((28 <=? n) && (n <=? 32)).

Fixpoint lstrip (s : string) : string :=
  match s with
  | String c rest => if is_space c then lstrip rest else s
  | EmptyString => EmptyString
  end.

Fixpoint rstrip (s : string) : string :=
  match s with
  | EmptyString => EmptyString
  | String c rest =>
      match rstrip rest with
      | EmptyString => if is_space c then EmptyString else String c EmptyString
      | kept => String c kept
      end
  end.

(** [s.strip()]. *)
Definition strip (s : string) : string := rstrip (lstrip s).

(** [s.replace(old, "")] for a non-empty [old]: every occurrence found
    scanning from the left is dropped.  [skip] counts the characters of an
    occurrence still to drop. *)
Fixpoint remove_from (old : string) (skip : nat) (s : string) : string :=
  match s with
  | EmptyString => EmptyString
  | String c rest =>
      match skip with
      | S k => remove_from old k rest
      | O =>
          if String.prefix old s
          then remove_from old (String.length old - 1) rest
          else String c (remove_from old 0 rest)
      end
  end.

Definition remove_all (old s : string) : string := remove_from old 0 s.

(** [sep.join(parts)]. *)
Definition join (sep : string) (parts : list string) : string :=
  String.concat sep parts.

(** The last element of a non-empty list ([parts[-1]]). *)
Definition last_part (parts : list string) : string := List.last parts "".

(** The decimal numeral of an integer ([str(n)] for an [int]). *)
Definition str_of_int (n : Z) : string := NilZero.string_of_int (Z.to_int n).

(** ** Dictionaries *)

Fixpoint lookup (k : string) (m : list (string * json)) : option json :=
  match m with
  | [] => None
  | (k', v) :: rest => if String.eqb k' k then Some v else lookup k rest
  end.

Definition has_key (k : string) (m : list (string * json)) : bool :=
  match lookup k m with Some _ => true | None => false end.

(** [v.get(k, default)]: only a dict has the method. *)
Definition get (v : json) (k : string) (default : json) : res json :=
  match v with
  | JObj m => Ret (match lookup k m with Some x => x | None => default end)
  | _ => Raise AttributeError
  end.

(** [v.get(k)], whose default is [None]. *)
Definition get_none (v : json) (k : string) : res json := get v k JNull.

(** [v[k]] for a string [k]: a missing key is a [KeyError]; a list or a
    string wants an integer index, and the other values are not
    subscriptable. *)
Definition getitem (v : json) (k : string) : res json :=
  match v with
  | JObj m => match lookup k m with Some x => Ret x | None => Raise (KeyError k) end
  | _ => Raise TypeError
  end.

(** [k in v] for a string [k]: a key of a dict, a substring of a string,
    an element of a list; the other values are not iterable. *)
Definition str_in (k : string) (v : json) : res bool :=
  match v with
  | JObj m => Ret (has_key k m)
  | JStr s => Ret (contains k s)
  | JArr l => Ret (existsb (fun x => match x with JStr s => String.eqb s k | _ => false end) l)
  | _ => Raise TypeError
  end.

(** [len(v)]. *)
Definition len (v : json) : res nat :=
  match v with
  | JObj m => Ret (List.length m)
  | JArr l => Ret (List.length l)
  | JStr s => Ret (String.length s)
  | _ => Raise TypeError
  end.

(** [v.values()]: only a dict has the method. *)
Definition values (v : json) : res (list json) :=
  match v with
  | JObj m => Ret (map snd m)
  | _ => Raise AttributeError
  end.

(** The elements [for x in v] visits: the items of a list, the keys of a
    dict, the characters of a string. *)
Definition iter (v : json) : res (list json) :=
  match v with
  | JArr l => Ret l
  | JObj m => Ret (map (fun kv => JStr (fst kv)) m)
  | JStr s => Ret (map (fun c => JStr (String c EmptyString)) (list_ascii_of_string s))
  | _ => Raise TypeError
  end.

(** [v > 0]: defined on numbers and booleans ([True] is 1). *)
Definition gt0 (v : json) : res bool :=
  match v with
  | JNum q => Ret (negb (Qle_bool q 0%Q))
  | JBool b => Ret b
  | _ => Raise TypeError
  end.

(** ** Values as dictionary keys *)

(** Lists and dicts are unhashable. *)
Definition hashable (v : json) : bool :=
  match v with JArr _ | JObj _ => false | _ => true end.

Definition num_of_bool (b : bool) : Q := if b then 1%Q else 0%Q.

(** [a == b] on hashable values: numbers and booleans compare by value. *)
Definition key_eqb (a b : json) : bool :=
  match a, b with
  | JNull, JNull => true
  | JStr s, JStr t => String.eqb s t
  | JNum p, JNum q => Qeq_bool p q
  | JNum p, JBool c => Qeq_bool p (num_of_bool c)
  | JBool c, JNum q => Qeq_bool (num_of_bool c) q
  | JBool c, JBool d => Bool.eqb c d
  | _, _ => false
  end.

(** A dict from hashable values to counters, in insertion order. *)
Definition counter : Type := list (json * nat).

(** [d[k] = d.get(k, 0) + 1]. *)
Fixpoint bump_at (k : json) (d : counter) : counter :=
  match d with
  | [] => [(k, 1)]
  | (k', n) :: rest =>
      if key_eqb k' k then (k', n + 1) :: rest else (k', n) :: bump_at k rest
  end.

Definition bump (k : json) (d : counter) : res counter :=
  if hashable k then Ret (bump_at k d) else Raise TypeError.

(** [Counter(keys)]. *)
Fixpoint Counter_from (keys : list json) (d : counter) : res counter :=
  match keys with
  | [] => Ret d
  | k :: rest => (d' <- bump k d ;; Counter_from rest d')%res
  end.

Definition Counter (keys : list json) : res counter := Counter_from keys [].

(** The sum of the counters of a dict. *)
Definition total (d : counter) : nat := list_sum (map snd d).

(** ** Sorting the items of a counter *)

Definition key_num (k : json) : option Q :=
  match k with
  | JNum q => Some q
  | JBool b => Some (num_of_bool b)
  | _ => None
  end.

(** [a < b] between two keys: strings compare by code point, numbers and
    booleans by value; any other pair is a [TypeError]. *)
Definition key_ltb (a b : json) : res bool :=
  match a, b with
  | JStr s, JStr t => Ret (String.ltb s t)
  | _, _ =>
      match key_num a, key_num b with
      | Some p, Some q => Ret (negb (Qle_bool q p))
      | _, _ => Raise TypeError
      end
  end.

Fixpoint insert_item (x : json * nat) (sorted : counter) : res counter :=
  match sorted with
  | [] => Ret [x]
  | y :: rest =>
      (lt <- key_ltb (fst x) (fst y) ;;
       if lt then Ret (x :: y :: rest)
       else (rest' <- insert_item x rest ;; Ret (y :: rest')))%res
  end.

(** [sorted(d.items())]: the keys of a dict differ, so the items are
    ordered by key alone; a comparison between keys of different kinds
    raises. *)
Fixpoint sorted_items (d : counter) : res counter :=
  match d with
  | [] => Ret []
  | x :: rest => (rest' <- sorted_items rest ;; insert_item x rest')%res
  end.

(** ** [repr] of strings and [str] of a list of strings *)

Definition dquote : ascii := "034"%char.
Definition squote : ascii := "'"%char.
Definition backslash : ascii := "\"%char.

Definition hex_digit (n : nat) : ascii :=
  nth n (list_ascii_of_string "0123456789abcdef") "0"%char.

Definition escape (quote c : ascii) : string :=
  let n := nat_of_ascii c in
  if Ascii.eqb c backslash then String backslash (String backslash EmptyString)
  else if Ascii.eqb c quote then String backslash (String quote EmptyString)
  else if n =? 9 then "\t"
  else if n =? 10 then "\n"
  else if n =? 13 then "\r"
  else if (n <? 32) || (n =? 127)
       then String backslash
              (String "x"%char
                 (String (hex_digit (n / 16)) (String (hex_digit (n mod 16)) EmptyString)))
  else String c EmptyString.

Fixpoint escape_all (quote : ascii) (s : string) : string :=
  match s with
  | EmptyString => EmptyString
  | String c rest => (escape quote c ++ escape_all quote rest)%string
  end.

(** [repr(s)] for a string of characters below 128: single quotes unless
    the string holds a single quote and no double quote. *)
Definition repr_str (s : string) : string :=
  let quote :=
    if contains (String squote EmptyString) s && negb (contains (String dquote EmptyString) s)
    then dquote else squote in
  String quote (escape_all quote s ++ String quote EmptyString)%string.

(** [str(list(d.keys()))]. *)
Definition str_of_keys (keys : list string) : string :=
  ("[" ++ join ", " (map repr_str keys) ++ "]")%string.

(** ** Decoding *)

(** The library functions between the bytes of a body and a document:
    [bytes.decode()] and [json.loads] on text, each of which returns or
    raises ([UnicodeDecodeError], [JSONDecodeError]), and the numeral
    [str] gives a number. *)
Record codec : Type := mkCodec {
  decode : string -> res string;
  loads : string -> res json;
  numeral : Q -> string
}.

(** [json.loads] given the bytes of a UTF-8 body decodes them first. *)
Definition loads_bytes (lib : codec) (bytes : string) : res json :=
  (text <- decode lib bytes ;; loads lib text)%res.

(** [v[:n]]: the first [n] characters of a string or items of a list; the
    other values cannot be sliced. *)
Definition slice_to (n : nat) (v : json) : res json :=
  match v with
  | JStr t => Ret (JStr (String.substring 0 n t))
  | JArr l => Ret (JArr (firstn n l))
  | _ => Raise TypeError
  end.

(** [v.items()]: only a dict has the method. *)
Definition items (v : json) : res (list (string * json)) :=
  match v with
  | JObj m => Ret m
  | _ => Raise AttributeError
  end.

(** [repr(v)] and [str(v)]; the numeral of a number is the library's
    ([num]). *)
Fixpoint repr (num : Q -> string) (v : json) : string :=
  match v with
  | JNull => "None"
  | JBool true => "True"
  | JBool false => "False"
  | JNum q => num q
  | JStr s => repr_str s
  | JArr l => ("[" ++ join ", " (map (repr num) l) ++ "]")%string
  | JObj m =>
      let member (kv : string * json) : string :=
        let (k, x) := kv in (repr_str k ++ ": " ++ repr num x)%string in
      ("{" ++ join ", " (map member m) ++ "}")%string
  end.

Definition str (num : Q -> string) (v : json) : string :=
  match v with
  | JStr s => s
  | _ => repr num v
  end.

(** [s.split(":")] as a method call: only a string has it. *)
Definition split_colon (v : json) : res (list string) :=
  match v with
  | JStr s => Ret (split ":"%char s)
  | _ => Raise AttributeError
  end.

End Py.

Import Py.

(* ================================================================== *)
(** * The world a script runs in *)
(* ================================================================== *)

Module World.

(** What [urllib.request.urlopen(req)] followed by [read()] comes to: the
    bytes of the body of a 2xx answer, or the exception raised (an
    [HTTPError] carrying status and body for another status, a [URLError]
    when no connection could be made, an [OSError] otherwise). *)
Inductive response : Type :=
| Body (bytes : string)
| Fails (e : exn).

(** What a script does to the outside: an HTTP request (the URL and the
    JSON document sent, if any) and a printed line.  A printed line is the
    text of its f-string with the values of its fields beside it, in
    order; slicing and number formats written inside a field stay in the
    text. *)
Inductive event : Type :=
| Req (url : string) (payload : option json)
| Print (text : string) (fields : list json).

(** The endpoint, the clock and the random generator answer by the rank
    of the call; the counters say how many calls were made, and [out] is
    everything done so far, oldest first. *)
Record world : Type := mkWorld {
  net : nat -> response;
  clock : nat -> Z;
  rng : nat -> nat;
  n_req : nat;
  n_clock : nat;
  n_rng : nat;
  out : list event
}.

Definition boot (net : nat -> response) (clock : nat -> Z) (rng : nat -> nat) : world :=
  mkWorld net clock rng 0 0 0 [].

(** A statement: it changes the world and returns a value or raises. *)
Definition M (A : Type) : Type := world -> res A * world.

Definition ret {A : Type} (a : A) : M A := fun w => (Ret a, w).

Definition raise {A : Type} (e : exn) : M A := fun w => (Raise e, w).

Definition bind {A B : Type} (m : M A) (k : A -> M B) : M B :=
  fun w =>
    match m w with
    | (Ret a, w') => k a w'
    | (Raise e, w') => (Raise e, w')
    end.

(** An expression evaluated inside a statement. *)
Definition lift {A : Type} (r : res A) : M A := fun w => (r, w).

Declare Scope script_scope.
Delimit Scope script_scope with script.
Notation "x <- m ;; k" := (bind m (fun x => k))
  (at level 61, m at next level, right associativity) : script_scope.
Notation "m ;; k" := (bind m (fun _ => k))
  (at level 61, right associativity) : script_scope.

Definition emit (e : event) : M unit :=
  fun w => (Ret tt, mkWorld (net w) (clock w) (rng w)
                      (n_req w) (n_clock w) (n_rng w) (out w ++ [e])).

(** [print(f"...")]. *)
Definition print (text : string) (fields : list json) : M unit :=
  emit (Print text fields).

(** [urllib.request.urlopen(req).read()]: the request goes out, the
    endpoint answers. *)
Definition urlopen_read (url : string) (payload : option json) : M string :=
  fun w =>
    let w' := mkWorld (net w) (clock w) (rng w)
                (S (n_req w)) (n_clock w) (n_rng w) (out w ++ [Req url payload]) in
    match net w (n_req w) with
    | Body b => (Ret b, w')
    | Fails e => (Raise e, w')
    end.

(** [int(time.time())]. *)
Definition time_int : M Z :=
  fun w => (Ret (clock w (n_clock w)),
            mkWorld (net w) (clock w) (rng w)
              (n_req w) (S (n_clock w)) (n_rng w) (out w)).

(** One draw of the generator. *)
Definition draw : M nat :=
  fun w => (Ret (rng w (n_rng w)),
            mkWorld (net w) (clock w) (rng w)
              (n_req w) (n_clock w) (S (n_rng w)) (out w)).

(** [try: body except <sel>: handler]. *)
Definition try_except {A : Type} (body : M A) (sel : exn -> bool) (handler : exn -> M A) : M A :=
  fun w =>
    match body w with
    | (Raise e, w') => if sel e then handler e w' else (Raise e, w')
    | done => done
    end.

(** The requests among the events. *)
Definition requests (evs : list event) : list string :=
  flat_map (fun e => match e with Req url _ => [url] | Print _ _ => [] end) evs.

End World.

Import World.

(* ================================================================== *)
(** * scripts/check-acs.py *)
(* ================================================================== *)

Module CheckAcs.

Definition BASE : string := "http://localhost:7575".
Definition PARTY : string :=
  "minted-validator-1::12203f16a8f4b26778d5c8c6847dc055acf5db91e0c5b0846de29ba5ea272ab2a0e4".

(** The query sent to [/v2/state/active-contracts] (lines 15-24). *)
Definition body (offset : json) : json :=
  JObj [("filter",
         JObj [("filtersByParty",
                JObj [(PARTY,
                       JObj [("identifierFilter", JObj [("wildcardFilter", JObj [])])])])]);
        ("activeAtOffset", offset)].

(** What the loop over [ce.items()] (lines 42-50) settles on: the dict
    whose [templateId] is read, or nothing when the loop runs to its
    [else]. *)
Inductive probe : Type :=
| Located (ev : json)
| Unlocated.

Fixpoint probe_items (items : list (string * json)) : probe :=
  match items with
  | [] => Unlocated
  | (key, val) :: rest =>
      match val with
      | JObj inner =>
          match lookup "createdEvent" inner with
          | Some ev => Located ev                      (* val["createdEvent"] *)
          | None =>
              if String.eqb key "createdEvent" then Located val
              else probe_items rest
          end
      | _ =>
          if String.eqb key "createdEvent" then Located val
          else probe_items rest
      end
  end.

(** The body of [for c in contracts] (lines 39-52). *)
Definition count_entry (c : json) (templates : counter) : res counter :=
  (ce <- getitem c "contractEntry" ;;
   match ce with
   | JObj items =>
       match probe_items items with
       | Located ev =>
           tid <- get ev "templateId" (JStr "unknown") ;;
           bump tid templates
       | Unlocated => bump (JStr (str_of_keys (map fst items))) templates
       end
   | _ => Ret templates
   end)%res.

Fixpoint count_entries (contracts : list json) (templates : counter) : res counter :=
  match contracts with
  | [] => Ret templates
  | c :: rest => (t <- count_entry c templates ;; count_entries rest t)%res
  end.

(** [[e for e in data if "contractEntry" in e]] (line 35). *)
Fixpoint select (data : list json) : res (list json) :=
  match data with
  | [] => Ret []
  | e :: rest =>
      (keep <- str_in "contractEntry" e ;;
       kept <- select rest ;;
       Ret (if keep then e :: kept else kept))%res
  end.

Fixpoint print_counts (items : counter) : M unit :=
  match items with
  | [] => ret tt
  | (t, count) :: rest =>
      (print "  [{count}x] {t}" [JNum (inject_Z (Z.of_nat count)); t] ;;
       print_counts rest)%script
  end.

(** Lines 34-62. *)
Definition report (data : json) : M unit :=
  match data with
  | JArr entries =>
      (contracts <- lift (select entries) ;;
       print "Total active contracts: {len(contracts)}"
             [JNum (inject_Z (Z.of_nat (List.length contracts)))] ;;
       templates <- lift (count_entries contracts []) ;;
       items <- lift (sorted_items templates) ;;
       print_counts items)%script
  | JObj m =>
      if has_key "code" m
      then (code <- lift (get_none data "code") ;;
            cause <- lift (get data "cause" (JStr "")) ;;
            print "Error: {data.get('code')} - {data.get('cause','')}" [code; cause])%script
      else print "{json.dumps(data, indent=2)[:2000]}" [data]
  | _ =>
      (print "Unexpected response type: {type(data)}" [data] ;;
       print "{str(data)[:500]}" [data])%script
  end.

(** The whole script. *)
Definition main (lib : codec) : M unit :=
  (raw <- urlopen_read (BASE ++ "/v2/state/ledger-end")%string None ;;
   doc <- lift (loads_bytes lib raw) ;;
   offset <- lift (getitem doc "offset") ;;
   print "Ledger offset: {offset}" [offset] ;;
   raw <- urlopen_read (BASE ++ "/v2/state/active-contracts")%string (Some (body offset)) ;;
   data <- lift (loads_bytes lib raw) ;;
   report data)%script.

End CheckAcs.

(* ================================================================== *)
(** * scripts/query-acs.py *)
(* ================================================================== *)

Module QueryAcs.

Definition BASE : string := "http://localhost:7575".
Definition PARTY : string :=
  "minted-validator-1::12203f16a8f4b26778d5c8c6847dc055acf5db91e0c5b0846de29ba5ea272ab2a0e4".
Definition OPERATOR : string :=
  "minted-operator::12203f16a8f4b26778d5c8c6847dc055acf5db91e0c5b0846de29ba5ea272ab2a0e4".

Definition newline : ascii := "010"%char.

Definition body (party : string) (offset : json) : json :=
  JObj [("filter",
         JObj [("filtersByParty",
                JObj [(party,
                       JObj [("identifierFilter", JObj [("wildcardFilter", JObj [])])])])]);
        ("activeAtOffset", offset)].

(** Lines 41-47 for one decoded line [d]: the record appended to
    [contracts], if the line has a [contractEntry]. *)
Definition extract (d : json) : res (option json) :=
  (has <- str_in "contractEntry" d ;;
   if has : bool then
     ce <- getitem d "contractEntry" ;;
     evt <- get ce "createdEvent" (JObj []) ;;
     cid <- get evt "contractId" (JStr "?") ;;
     tid <- get evt "templateId" (JStr "?") ;;
     pkg <- get evt "packageName" (JStr "?") ;;
     Ret (Some (JObj [("cid", cid); ("tid", tid); ("pkg", pkg)]))
   else Ret None)%res.

(** Line 48: the slice [cid[:50]] is taken before anything is printed. *)
Definition print_contract (c : json) : M unit :=
  (cid <- lift (getitem c "cid") ;;
   tid <- lift (getitem c "tid") ;;
   pkg <- lift (getitem c "pkg") ;;
   short <- lift (slice_to 50 cid) ;;
   print "  {tid}  pkg={pkg}  CID={cid[:50]}..." [tid; pkg; short])%script.

(** One turn of the loop over the lines (lines 36-50).  Whatever the
    [try] block raises is dropped by [except Exception: pass]; a record
    appended before the exception stays in [contracts]. *)
Definition step (lib : codec) (line : string) (contracts : list json) : M (list json) :=
  if String.eqb (strip line) "" then ret contracts
  else
    match (d <- loads lib line ;; extract d)%res with
    | Ret (Some c) =>
        (try_except (print_contract c) (fun _ => true) (fun _ => ret tt) ;;
         ret (contracts ++ [c]))%script
    | Ret None => ret contracts
    | Raise _ => ret contracts
    end.

Fixpoint steps (lib : codec) (lines : list string) (contracts : list json) : M (list json) :=
  match lines with
  | [] => ret contracts
  | line :: rest => (cs <- step lib line contracts ;; steps lib rest cs)%script
  end.

Definition query_acs (lib : codec) (party label : string) : M (list json) :=
  (print "\n=== ACS for {label} ({party[:30]}...) ==="
         [JStr label; JStr (String.substring 0 30 party)] ;;
   raw <- urlopen_read (BASE ++ "/v2/state/ledger-end")%string None ;;
   doc <- lift (loads_bytes lib raw) ;;
   offset <- lift (getitem doc "offset") ;;
   print "Ledger offset: {offset}" [offset] ;;
   raw <- urlopen_read (BASE ++ "/v2/state/active-contracts")%string (Some (body party offset)) ;;
   data <- lift (decode lib raw) ;;
   contracts <- steps lib (split newline (strip data)) [] ;;
   (match contracts with
    | [] => print "  (no contracts found)" []
    | _ => ret tt
    end) ;;
   ret contracts)%script.

(** [a in mod or b in mod or ...] (line 67). *)
Fixpoint any_in (needles : list string) (v : json) : res bool :=
  match needles with
  | [] => Ret false
  | n :: rest => (hit <- str_in n v ;; if hit : bool then Ret true else any_in rest v)%res
  end.

(** The body of the loop of lines 61-68. *)
Definition ble_step (c : json) (ble_cids : list json) : res (list json) :=
  (tid <- getitem c "tid" ;;
   match tid with
   | JStr t =>
       if contains "Minted" t
       then cid <- getitem c "cid" ;; Ret (ble_cids ++ [cid])
       else Ret ble_cids
   | JObj _ =>
       mod_ <- get tid "moduleName" (JStr "") ;;
       hit <- any_in ["Minted"; "Compliance"; "CantonDirect"; "CantonCoin"] mod_ ;;
       if hit : bool
       then cid <- getitem c "cid" ;; Ret (ble_cids ++ [cid])
       else Ret ble_cids
   | _ => Ret ble_cids
   end)%res.

Fixpoint ble_steps (cs : list json) (ble_cids : list json) : res (list json) :=
  match cs with
  | [] => Ret ble_cids
  | c :: rest => (acc <- ble_step c ble_cids ;; ble_steps rest acc)%res
  end.

Fixpoint print_cids (cids : list json) : M unit :=
  match cids with
  | [] => ret tt
  | cid :: rest => (print "  {cid}" [cid] ;; print_cids rest)%script
  end.

(** The whole script (lines 56-75). *)
Definition main (lib : codec) : M unit :=
  (c1 <- query_acs lib PARTY "validator-1" ;;
   c2 <- query_acs lib OPERATOR "operator" ;;
   ble_cids <- lift (ble_steps (c1 ++ c2) []) ;;
   match ble_cids with
   | [] => print "\nNo BLE protocol contracts found." []
   | _ =>
       (print "\n=== BLE Protocol Contracts to Purge: {len(ble_cids)} ==="
              [JNum (inject_Z (Z.of_nat (List.length ble_cids)))] ;;
        print_cids ble_cids)%script
   end)%script.

End QueryAcs.

(* ================================================================== *)
(** * scripts/test-canton-api.py *)
(* ================================================================== *)

Module TestCantonApi.

(** The variables the loop fills (lines 34-40). *)
Record status : Type := mkStatus {
  mUSD_tokens : list json;
  bridge : json;
  staking : json;
  ethpool : json;
  boostpool : json;
  lending : json;
  directmint : list json
}.

Definition initial : status := mkStatus [] JNull JNull JNull JNull JNull [].

(** Line 45: the event is looked for inside the value of an item, never
    at the item itself. *)
Definition locate (v : json) : option json :=
  match v with
  | JObj inner => lookup "createdEvent" inner
  | _ => None
  end.

(** Lines 46-62 for a located event. *)
Definition record (ev : json) (st : status) : res status :=
  (tid <- get ev "templateId" (JStr "") ;;
   args <- get ev "createArgument" (JObj []) ;;
   is_musd <- str_in "CantonDirectMint:CantonMUSD" tid ;;
   if is_musd : bool then
     owner <- get args "owner" (JStr "") ;;
     amount <- get args "amount" (JStr "") ;;
     Ret (mkStatus (mUSD_tokens st ++ [JObj [("owner", owner); ("amount", amount)]])
            (bridge st) (staking st) (ethpool st) (boostpool st) (lending st) (directmint st))
   else
   is_bridge <- str_in "V3:BridgeService" tid ;;
   if is_bridge : bool then
     operator <- get args "operator" (JStr "") ;;
     operator40 <- slice_to 40 operator ;;
     paused <- get args "paused" (JStr "") ;;
     Ret (mkStatus (mUSD_tokens st) (JObj [("operator", operator40); ("paused", paused)])
            (staking st) (ethpool st) (boostpool st) (lending st) (directmint st))
   else
   is_staking <- str_in "CantonSMUSD:CantonStakingService" tid ;;
   if is_staking : bool then
     shares <- get args "totalShares" (JStr "") ;;
     Ret (mkStatus (mUSD_tokens st) (bridge st) (JObj [("totalShares", shares)])
            (ethpool st) (boostpool st) (lending st) (directmint st))
   else
   is_ethpool <- str_in "CantonETHPool:CantonETHPoolService" tid ;;
   if is_ethpool : bool then
     cap <- get args "poolCap" (JStr "") ;;
     Ret (mkStatus (mUSD_tokens st) (bridge st) (staking st) (JObj [("poolCap", cap)])
            (boostpool st) (lending st) (directmint st))
   else
   is_boost <- str_in "CantonBoostPool:CantonBoostPoolService" tid ;;
   if is_boost : bool then
     lp <- get args "totalLPShares" (JStr "") ;;
     Ret (mkStatus (mUSD_tokens st) (bridge st) (staking st) (ethpool st)
            (JObj [("totalLPShares", lp)]) (lending st) (directmint st))
   else
   is_lending <- str_in "CantonLending:CantonLendingService" tid ;;
   if is_lending : bool then
     Ret (mkStatus (mUSD_tokens st) (bridge st) (staking st) (ethpool st)
            (boostpool st) (JBool true) (directmint st))
   else
   is_mint <- str_in "CantonDirectMint:CantonDirectMintService" tid ;;
   if is_mint : bool then
     cid <- get ev "contractId" (JStr "") ;;
     cid30 <- slice_to 30 cid ;;
     Ret (mkStatus (mUSD_tokens st) (bridge st) (staking st) (ethpool st)
            (boostpool st) (lending st) (directmint st ++ [cid30]))
   else Ret st)%res.

(** The loop over [ce.items()] (lines 44-62): every item is visited. *)
Fixpoint visit_items (its : list (string * json)) (st : status) : res status :=
  match its with
  | [] => Ret st
  | (_, v) :: rest =>
      match locate v with
      | Some ev => (st' <- record ev st ;; visit_items rest st')%res
      | None => visit_items rest st
      end
  end.

(** Lines 43-62 for one entry. *)
Definition visit (entry : json) (st : status) : res status :=
  (ce <- get entry "contractEntry" (JObj []) ;;
   its <- items ce ;;
   visit_items its st)%res.

Fixpoint visit_all (entries : list json) (st : status) : res status :=
  match entries with
  | [] => Ret st
  | entry :: rest => (st' <- visit entry st ;; visit_all rest st')%res
  end.

(** Lines 34-62. *)
Definition scan (data : json) : res status :=
  (entries <- iter data ;; visit_all entries initial)%res.

End TestCantonApi.

(* ================================================================== *)
(** * scripts/check-bridge-contracts.py *)
(* ================================================================== *)

Module CheckBridgeContracts.

(** Lines 42-47. *)
Definition entries_of (data : json) : res json :=
  match data with
  | JObj _ => get data "result" (JArr [])
  | JArr _ => Ret data
  | _ => Ret (JArr [])
  end.

(** Lines 56-63 for one entry: nothing when the entry is passed over
    ([continue]), else [tid], [args] and [cid]. *)
Definition extract (entry : json) : res (option (json * json * json)) :=
  (ce_wrapper <- get entry "contractEntry" (JObj []) ;;
   ac <- get ce_wrapper "JsActiveContract" (JObj []) ;;
   if negb (truthy ac) then Ret None
   else
     ce <- get ac "createdEvent" (JObj []) ;;
     tid <- get ce "templateId" (JStr "?") ;;
     args <- get ce "createArgument" (JObj []) ;;
     cid <- get ce "contractId" (JStr "?") ;;
     Ret (Some (tid, args, cid)))%res.

(** The three lists the loop fills (lines 51-53). *)
Record lists : Type := mkLists {
  bridge_ins : list (json * json * json);
  musd_tokens : list (json * json * json);
  all_templates : list json
}.

(** Lines 55-70 for one entry. *)
Definition step (lib : codec) (entry : json) (acc : lists) : res lists :=
  (found <- extract entry ;;
   match found with
   | None => Ret acc
   | Some (tid, args, cid) =>
       let shown := str (numeral lib) tid in
       let templates := all_templates acc ++ [tid] in
       if contains "BridgeInRequest" shown
       then Ret (mkLists (bridge_ins acc ++ [(tid, args, cid)]) (musd_tokens acc) templates)
       else if contains "MUSD" shown || contains "MintedMUSD" shown || contains "CantonMUSD" shown
       then Ret (mkLists (bridge_ins acc) (musd_tokens acc ++ [(tid, args, cid)]) templates)
       else Ret (mkLists (bridge_ins acc) (musd_tokens acc) templates)
   end)%res.

Fixpoint steps (lib : codec) (entries : list json) (acc : lists) : res lists :=
  match entries with
  | [] => Ret acc
  | entry :: rest => (acc' <- step lib entry acc ;; steps lib rest acc')%res
  end.

(** Lines 49-73: the number printed as [Total entries] and the counter
    of line 73. *)
Definition tally (lib : codec) (entries : json) : res (nat * counter) :=
  (n <- len entries ;;
   seq <- iter entries ;;
   acc <- steps lib seq (mkLists [] [] []) ;;
   counts <- Counter (all_templates acc) ;;
   Ret (n, counts))%res.

(** Lines 74-75. *)
Definition short (tid : json) : res json :=
  (parts <- split_colon tid ;;
   if 3 <=? List.length parts
   then Ret (JStr (join ":" (skipn (List.length parts - 2) parts)))
   else Ret tid)%res.

End CheckBridgeContracts.

(* ================================================================== *)
(** * scripts/check-canton-contracts.py *)
(* ================================================================== *)

Module CheckCantonContracts.

Definition CANTON_URL : string := "http://localhost:7575".
Definition PARTY : string :=
  "minted-validator-1::12203f16a8f4b26778d5c8c6847dc055acf5db91e0c5b0846de29ba5ea272ab2a0e4".

Definition get_offset (lib : codec) : M json :=
  (raw <- urlopen_read (CANTON_URL ++ "/v2/state/ledger-end")%string None ;;
   data <- lift (loads_bytes lib raw) ;;
   lift (getitem data "offset"))%script.

Definition query_contracts (lib : codec) (offset : json) : M json :=
  (raw <- urlopen_read (CANTON_URL ++ "/v2/state/active-contracts")%string
            (Some (JObj [("filter",
                          JObj [("filtersByParty",
                                 JObj [(PARTY,
                                        JObj [("identifierFilter",
                                               JObj [("wildcardFilter", JObj [])])])])]);
                         ("activeAtOffset", offset)])) ;;
   lift (loads_bytes lib raw))%script.

(** The dict [by_template]: the events under each short template name,
    in insertion order. *)
Definition groups : Type := list (string * list json).

(** Lines 68-70. *)
Fixpoint add_event (short : string) (evt : json) (g : groups) : groups :=
  match g with
  | [] => [(short, [evt])]
  | (k, evts) :: rest =>
      if String.eqb k short then (k, evts ++ [evt]) :: rest
      else (k, evts) :: add_event short evt rest
  end.

(** Lines 56-70 for one entry. *)
Definition step (entry : json) (by_template : groups) : res groups :=
  (ce <- get entry "contractEntry" (JObj []) ;;
   ac <- get_none ce "JsActiveContract" ;;
   if negb (truthy ac) then Ret by_template
   else
     evt <- getitem ac "createdEvent" ;;
     tid <- getitem evt "templateId" ;;
     parts <- split_colon tid ;;
     let short :=
       if 3 <=? List.length parts
       then (nth (List.length parts - 2) parts "" ++ ":" ++ last_part parts)%string
       else match tid with JStr t => t | _ => "" end in
     Ret (add_event short evt by_template))%res.

(** Lines 54-70. *)
Fixpoint group (contracts : list json) (by_template : groups) : res groups :=
  match contracts with
  | [] => Ret by_template
  | entry :: rest => (g <- step entry by_template ;; group rest g)%res
  end.

(** The numbers line 74 prints, one per template. *)
Definition sizes (g : groups) : list nat := map (fun kv => List.length (snd kv)) g.

(** Lines 62-66: the short name of a template id [pkgId:Module:Entity]. *)
Definition short_name (tid : string) : string :=
  let parts := split ":"%char tid in
  if 3 <=? List.length parts
  then (nth (List.length parts - 2) parts "" ++ ":" ++ last_part parts)%string
  else tid.

(** The payload fields shown for a contract (line 80). *)
Definition summary_keys : list string :=
  ["nonce"; "amount"; "user"; "operator"; "owner"; "status";
   "ethAddress"; "cantonRecipient"; "ethTxHash"].

(** Lines 83-84: a string of more than 40 characters is cut to its first
    20 and last 10 characters. *)
Definition shorten (val : json) : json :=
  match val with
  | JStr s =>
      if 40 <? String.length s
      then JStr (String.substring 0 20 s ++ "..."
                 ++ String.substring (String.length s - 10) 10 s)%string
      else val
  | _ => val
  end.

(** The loop of lines 80-85 over the keys still to look at. *)
Fixpoint summarize (keys : list string) (payload : json) : res (list (string * json)) :=
  match keys with
  | [] => Ret []
  | key :: rest =>
      (has <- str_in key payload ;;
       if has : bool then
         val <- getitem payload key ;;
         fields <- summarize rest payload ;;
         Ret ((key, shorten val) :: fields)
       else summarize rest payload)%res
  end.

(** [list(payload.keys())]: only a dict has the method. *)
Definition keys_of (payload : json) : res (list json) :=
  match payload with
  | JObj m => Ret (map (fun kv => JStr (fst kv)) m)
  | _ => Raise AttributeError
  end.

(** [s + "..."]: a list cannot be added to a string. *)
Definition add_dots (v : json) : res json :=
  match v with
  | JStr s => Ret (JStr (s ++ "...")%string)
  | _ => Raise TypeError
  end.

(** Lines 76-90 for one event. *)
Definition detail (evt : json) : M unit :=
  (raw <- lift (getitem evt "contractId") ;;
   head <- lift (slice_to 20 raw) ;;
   cid <- lift (add_dots head) ;;
   payload <- lift (get evt "createArgument" (JObj [])) ;;
   fields <- lift (summarize summary_keys payload) ;;
   match fields with
   | _ :: _ => print "    {cid}  {summary_fields}" [cid; JObj fields]
   | [] =>
       (keys <- lift (keys_of payload) ;;
        print "    {cid}  keys={keys}" [cid; JArr (firstn 8 keys)])
   end)%script.

Fixpoint details (events : list json) : M unit :=
  match events with
  | [] => ret tt
  | evt :: rest => (detail evt ;; details rest)%script
  end.

Definition count (n : nat) : json := JNum (inject_Z (Z.of_nat n)).

(** Lines 74-92 for one template. *)
Definition print_group (g : string * list json) : M unit :=
  let (tpl, events) := g in
  (print "\n  [{tpl}] — {len(events)} contract(s)" [JStr tpl; count (List.length events)] ;;
   details (firstn 5 events) ;;
   if 5 <? List.length events
   then print "    ... and {len(events) - 5} more" [count (List.length events - 5)]
   else ret tt)%script.

Fixpoint print_groups (gs : groups) : M unit :=
  match gs with
  | [] => ret tt
  | g :: rest => (print_group g ;; print_groups rest)%script
  end.

(** [sorted(by_template.items())]: the names differ, so the items are
    ordered by name. *)
Fixpoint insert_group (x : string * list json) (sorted : groups) : groups :=
  match sorted with
  | [] => [x]
  | y :: rest =>
      if String.ltb (fst x) (fst y) then x :: y :: rest
      else y :: insert_group x rest
  end.

Definition sorted_groups (g : groups) : groups := fold_right insert_group [] g.

(** [main] (lines 44-94). *)
Definition main (lib : codec) : M unit :=
  (offset <- get_offset lib ;;
   print "Ledger offset: {offset}" [offset] ;;
   contracts <- query_contracts lib offset ;;
   match contracts with
   | JArr entries =>
       (print "\nTotal active contracts: {len(contracts)}" [count (List.length entries)] ;;
        by_template <- lift (group entries []) ;;
        print "\nTemplates found: {len(by_template)}" [count (List.length by_template)] ;;
        print_groups (sorted_groups by_template))
   | _ => print "Unexpected response: {json.dumps(contracts, indent=2)[:2000]}" [contracts]
   end)%script.

End CheckCantonContracts.

(* ================================================================== *)
(** * scripts/bootstrap-http.py *)
(* ================================================================== *)

Module BootstrapHttp.

Definition BASE : string := "http://localhost:7575".
Definition PACKAGE_ID : string :=
  "eff3bf30edb508b2d052f969203db972e59c66e974344ed43016cfccfa618f06".
Definition OPERATOR : string :=
  "minted-operator::12203f16a8f4b26778d5c8c6847dc055acf5db91e0c5b0846de29ba5ea272ab2a0e4".
Definition GOVERNANCE : string :=
  "minted-governance::12203f16a8f4b26778d5c8c6847dc055acf5db91e0c5b0846de29ba5ea272ab2a0e4".
Definition VALIDATOR1 : string :=
  "validator-1::12203f16a8f4b26778d5c8c6847dc055acf5db91e0c5b0846de29ba5ea272ab2a0e4".
Definition USER_ID : string := "administrator".

(** [string.ascii_lowercase]. *)
Definition ascii_lowercase : string := "abcdefghijklmnopqrstuvwxyz".

(** The character of a population a draw selects: [random.choices] takes
    the item at the integer part of [random() * len(population)], here the
    draw reduced below the size of the population. *)
Definition pick (population : string) (d : nat) : ascii :=
  match String.get (d mod String.length population) population with
  | Some c => c
  | None => " "%char
  end.

(** [''.join(random.choices(population, k=k))]. *)
Fixpoint choices (population : string) (k : nat) : M string :=
  match k with
  | O => ret EmptyString
  | S k' =>
      (d <- draw ;;
       rest <- choices population k' ;;
       ret (String (pick population d) rest))%script
  end.

(** The text of the identifier (line 16). *)
Definition cmd_id_text (seconds : Z) (suffix : string) : string :=
  ("init-" ++ str_of_int seconds ++ "-" ++ suffix)%string.

Definition cmd_id : M string :=
  (seconds <- time_int ;;
   suffix <- choices ascii_lowercase 6 ;;
   ret (cmd_id_text seconds suffix))%script.

(** The dict [body] of [submit] (lines 19-25). *)
Definition envelope (act_as read_as commands : json) (command_id : string) : json :=
  JObj [("userId", JStr USER_ID);
        ("actAs", if is_list act_as then act_as else JArr [act_as]);
        ("readAs", if is_list read_as then read_as else JArr []);
        ("commandId", JStr command_id);
        ("commands", commands)].

Definition is_HTTPError (e : exn) : bool :=
  match e with HTTPError _ _ => true | _ => false end.

(** [submit] returns the pair [(True, result)] or [(False, err)], [err]
    being a string. *)
Definition submit (lib : codec) (act_as read_as commands : json) : M (bool * json) :=
  (command_id <- cmd_id ;;
   let body := envelope act_as read_as commands command_id in
   try_except
     (raw <- urlopen_read (BASE ++ "/v2/commands/submit-and-wait")%string (Some body) ;;
      text <- lift (decode lib raw) ;;
      result <- lift (loads lib text) ;;
      ret (true, result))
     is_HTTPError
     (fun e =>
        match e with
        | HTTPError _ bytes => (err <- lift (decode lib bytes) ;; ret (false, JStr err))
        | _ => raise e
        end))%script.

(** [read_as] is [None] when the caller leaves it out. *)
Definition create_contract (lib : codec) (module_ entity : string)
    (payload act_as read_as : json) : M (bool * json) :=
  let cmd :=
    JObj [("createCommand",
           JObj [("templateId",
                  JObj [("packageId", JStr PACKAGE_ID);
                        ("moduleName", JStr module_);
                        ("entityName", JStr entity)]);
                 ("createArgument", payload)])] in
  submit lib act_as (if truthy read_as then read_as else JArr []) (JArr [cmd]).

Definition num (n : Z) : json := JNum (inject_Z n).

(** The outcome of one creation, as [main] prints it (lines 75-78). *)
Definition announce (what : string) (outcome : bool * json) : M unit :=
  let (ok, result) := outcome in
  if ok then print ("  ✓ " ++ what ++ " created")%string []
  else (shown <- lift (slice_to 200 result) ;;
        print ("  ✗ " ++ what ++ " failed: {result[:200]}")%string [shown])%script.

Definition main (lib : codec) : M unit :=
  (print "=== Canton Protocol Bootstrap via HTTP API ===\n" [] ;;
   print "Creating BridgeService..." [] ;;
   outcome <- create_contract lib "Minted.Protocol.V3" "BridgeService"
     (JObj [("operator", JStr OPERATOR);
            ("governance", JStr GOVERNANCE);
            ("validators", JArr [JStr VALIDATOR1]);
            ("requiredSignatures", num 1);
            ("totalBridgedIn", JStr "0.0");
            ("totalBridgedOut", JStr "0.0");
            ("lastBridgeOutNonce", num 0);
            ("lastBridgeInNonce", num 0);
            ("paused", JBool false);
            ("observers", JArr [JStr VALIDATOR1]);
            ("minValidators", JObj [("Some", num 1)])])
     (JArr [JStr OPERATOR; JStr GOVERNANCE]) JNull ;;
   announce "BridgeService" outcome ;;
   print "Creating LiquidityPool..." [] ;;
   outcome <- create_contract lib "Minted.Protocol.V3" "LiquidityPool"
     (JObj [("operator", JStr OPERATOR);
            ("baseSymbol", JStr "mUSD");
            ("quoteSymbol", JStr "ETH");
            ("baseReserve", JStr "1000000.0");
            ("quoteReserve", JStr "333.33");
            ("exchangeRate", JStr "3000.0");
            ("oracleCid", JNull);
            ("spreadBps", JObj [("Some", num 30)])])
     (JArr [JStr OPERATOR]) JNull ;;
   announce "LiquidityPool" outcome ;;
   print "\n=== Done ===" [])%script.

End BootstrapHttp.

(* ================================================================== *)
(** * scripts/coverage_report.py *)
(* ================================================================== *)

Module CoverageReport.

Definition core : list string :=
  ["BLEBridgeV9"; "BorrowModule"; "CollateralVault"; "DirectMintV2"; "MUSD";
   "TreasuryV2"; "LeverageVault"; "LiquidationEngine"; "PriceOracle";
   "SMUSD"; "RedemptionQueue"; "InterestRateModel"].

(** [name in core]. *)
Definition in_core (name : string) : bool := existsb (String.eqb name) core.

(** [a / b] between two counts: a zero divisor raises.  The quotient is
    kept exact; Python rounds it to the nearest float. *)
Definition truediv (a b : nat) : res Q :=
  match b with
  | O => Raise ZeroDivisionError
  | S _ => Ret (Z.of_nat a # Pos.of_nat b)%Q
  end.

(** [(hit / total * 100) if total else 0] (lines 34-36). *)
Definition pct (hit total : nat) : res Q :=
  match total with
  | O => Ret 0%Q
  | S _ => (ratio <- truediv hit total ;; Ret (ratio * 100)%Q)%res
  end.

(** [sum(1 for v in vs if v > 0)]. *)
Fixpoint count_hit (vs : list json) : res nat :=
  match vs with
  | [] => Ret 0
  | v :: rest =>
      (hit <- gt0 v ;;
       n <- count_hit rest ;;
       Ret (if hit : bool then S n else n))%res
  end.

(** [sum(len(v) for v in vs)]. *)
Fixpoint sum_len (vs : list json) : res nat :=
  match vs with
  | [] => Ret 0
  | v :: rest => (n <- len v ;; m <- sum_len rest ;; Ret (n + m))%res
  end.

(** [sum(1 for blist in blists for v in blist if v > 0)]. *)
Fixpoint count_hit_nested (blists : list json) : res nat :=
  match blists with
  | [] => Ret 0
  | blist :: rest =>
      (vs <- iter blist ;;
       n <- count_hit vs ;;
       m <- count_hit_nested rest ;;
       Ret (n + m))%res
  end.

(** The totals and hits of one component (lines 23-32). *)
Record tallies : Type := mkTallies {
  total_s : nat; hit_s : nat;
  total_b : nat; hit_b : nat;
  total_f : nat; hit_f : nat
}.

Definition tally (info : json) : res tallies :=
  (s <- get info "s" (JObj []) ;;
   b <- get info "b" (JObj []) ;;
   f <- get info "f" (JObj []) ;;
   total_s <- len s ;;
   hit_s <- match total_s with
            | O => Ret 0
            | S _ => vs <- values s ;; count_hit vs
            end ;;
   blists <- values b ;;
   total_b <- sum_len blists ;;
   hit_b <- match total_b with
            | O => Ret 0
            | S _ => blists' <- values b ;; count_hit_nested blists'
            end ;;
   total_f <- len f ;;
   hit_f <- match total_f with
            | O => Ret 0
            | S _ => vs <- values f ;; count_hit vs
            end ;;
   Ret (mkTallies total_s hit_s total_b hit_b total_f hit_f))%res.

(** The three percentages of one component (lines 34-36). *)
Record percentages : Type := mkPercentages {
  pct_s : Q;
  pct_b : Q;
  pct_f : Q
}.

Definition percentages_of (t : tallies) : res percentages :=
  (ps <- pct (hit_s t) (total_s t) ;;
   pb <- pct (hit_b t) (total_b t) ;;
   pf <- pct (hit_f t) (total_f t) ;;
   Ret (mkPercentages ps pb pf))%res.

(** Lines 23-36 for the [info] of one path. *)
Definition component (info : json) : res percentages :=
  (t <- tally info ;; percentages_of t)%res.

(** Line 19: the file name without [.sol]. *)
Definition name_of (path : string) : string :=
  remove_all ".sol" (last_part (split "/"%char path)).

(** Line 20. *)
Definition skipped (name : string) : bool :=
  contains "Mock" name || contains "Test" name.

(** A row of [results] (line 39). *)
Definition row : Type := (string * percentages * string * bool)%type.

(** [sorted(data.items())]: the paths of a dict differ, so the items are
    ordered by path. *)
Fixpoint insert_path (x : string * json) (sorted : list (string * json)) : list (string * json) :=
  match sorted with
  | [] => [x]
  | y :: rest =>
      if String.ltb (fst x) (fst y) then x :: y :: rest
      else y :: insert_path x rest
  end.

Definition sorted_paths (m : list (string * json)) : list (string * json) :=
  fold_right insert_path [] m.

(** The loop of lines 18-40: each row is printed as soon as it is
    computed. *)
Fixpoint rows (its : list (string * json)) (results : list row) : M (list row) :=
  match its with
  | [] => ret results
  | (path, info) :: rest =>
      let name := name_of path in
      if skipped name then rows rest results
      else
        (p <- lift (component info) ;;
         let marker := if in_core name then " <<<" else "" in
         print "{name:<50} {pct_s:>6.1f}% {pct_b:>7.1f}% {pct_f:>7.1f}%{marker}"
               [JStr name; JNum (pct_s p); JNum (pct_b p); JNum (pct_f p); JStr marker] ;;
         rows rest (results ++ [(name, p, marker, in_core name)]))%script
  end.

Fixpoint print_core (results : list row) : M unit :=
  match results with
  | [] => ret tt
  | (name, p, _, is_core) :: rest =>
      if is_core : bool
      then (print "  {name:<45} {pct_s:>6.1f}% {pct_b:>7.1f}% {pct_f:>7.1f}%"
                  [JStr name; JNum (pct_s p); JNum (pct_b p); JNum (pct_f p)] ;;
            print_core rest)%script
      else print_core rest
  end.

(** The whole script, given the document read from [coverage.json]. *)
Definition main (data : json) : M (list row) :=
  (print "{'Contract':<50} {'Stmts':>8} {'Branch':>8} {'Funcs':>8}" [] ;;
   print "{'-' * 78}" [] ;;
   its <- lift (items data) ;;
   results <- rows (sorted_paths its) [] ;;
   print "{'-' * 78}" [] ;;
   print "\n=== 12 CORE CONTRACTS (was 0% before) ===\n" [] ;;
   print_core results ;;
   ret results)%script.

End CoverageReport.

(* ================================================================== *)
(** * scripts/check-canton-wallet.py *)
(* ================================================================== *)

Module CheckCantonWallet.

Definition BASE : string := "http://localhost:7575".
Definition PARTY : string :=
  "minted-validator-1::12203f16a8f4b26778d5c8c6847dc055acf5db91e0c5b0846de29ba5ea272ab2a0e4".
Definition PKG : string :=
  "0489a86388cc81e3e0bee8dc8f6781229d0e01451c1f2d19deea594255e5993b".

(** [api]: a body is sent only when it is given and not empty. *)
Definition api (lib : codec) (path : string) (body : json) : M json :=
  (raw <- urlopen_read (BASE ++ path)%string (if truthy body then Some body else None) ;;
   lift (loads_bytes lib raw))%script.

(** The dict [by_type]: the items under each [Module:Entity], in
    insertion order. *)
Definition types : Type := list (string * list json).

(** [by_type.setdefault(name, []).append(item)]. *)
Fixpoint add_item (name : string) (item : json) (t : types) : types :=
  match t with
  | [] => [(name, [item])]
  | (k, its) :: rest =>
      if String.eqb k name then (k, its ++ [item]) :: rest
      else (k, its) :: add_item name item rest
  end.

(** [a or b]. *)
Definition or_else (a b : json) : json := if truthy a then a else b.

(** Lines 40-63 for one entry. *)
Definition step (entry : json) (by_type : types) : res types :=
  (ce <- get entry "contractEntry" (JObj []) ;;
   ac <- get_none ce "JsActiveContract" ;;
   if negb (truthy ac) then Ret by_type
   else
     evt <- get ac "createdEvent" (JObj []) ;;
     tid <- get evt "templateId" (JStr "") ;;
     parts <- split_colon tid ;;
     if List.length parts <? 3 then Ret by_type
     else
       let pkg_id := nth 0 parts "" in
       let mod_ := nth (List.length parts - 2) parts "" in
       let ent := last_part parts in
       if negb (String.eqb pkg_id PKG) then Ret by_type
       else
         first <- get evt "createArgument" (JObj []) ;;
         payload <- (if truthy first then Ret first
                     else get evt "createArguments" (JObj [])) ;;
         raw <- get evt "contractId" (JStr "") ;;
         cid <- slice_to 20 raw ;;
         amount <- get_none payload "amount" ;;
         Ret (add_item (mod_ ++ ":" ++ ent)%string
                (JObj [("amount", amount); ("cid", cid); ("payload", payload)])
                by_type))%res.

Fixpoint steps (entries : list json) (by_type : types) : res types :=
  match entries with
  | [] => Ret by_type
  | entry :: rest => (t <- step entry by_type ;; steps rest t)%res
  end.

(** Lines 38-63. *)
Definition collect (result : json) : res types :=
  (entries <- iter result ;; steps entries [])%res.

(** Lines 74-78: the fields shown for a service contract. *)
Fixpoint extras (lib : codec) (keys : list string) (p : list (string * json)) : list string :=
  match keys with
  | [] => []
  | k :: rest =>
      match lookup k p with
      | Some v => (k ++ "=" ++ str (numeral lib) v)%string :: extras lib rest p
      | None => extras lib rest p
      end
  end.

(** Lines 68-79 for one item. *)
Definition print_item (lib : codec) (it : json) : M unit :=
  (amount <- lift (getitem it "amount") ;;
   cid <- lift (getitem it "cid") ;;
   match amount with
   | JNull =>
       (p <- lift (getitem it "payload") ;;
        fields <- lift (items p) ;;
        let extra := extras lib ["totalShares"; "poolCap"; "paused"; "totalMusdStaked"] fields in
        let desc := match extra with [] => "service" | _ => join ", " extra end in
        print "  {desc}  (cid: {it['cid']}...)" [JStr desc; cid])
   | _ => print "  Amount: {it['amount']}  (cid: {it['cid']}...)" [amount; cid]
   end)%script.

Fixpoint print_items (lib : codec) (its : list json) : M unit :=
  match its with
  | [] => ret tt
  | it :: rest => (print_item lib it ;; print_items lib rest)%script
  end.

Definition count (n : nat) : json := JNum (inject_Z (Z.of_nat n)).

(** Lines 66-81: the groups are printed in the order given and their
    sizes added up. *)
Fixpoint print_types (lib : codec) (t : types) (total : nat) : M nat :=
  match t with
  | [] => ret total
  | (tname, its) :: rest =>
      (print "=== {tname} ({len(items)} contracts) ===" [JStr tname; count (List.length its)] ;;
       print_items lib its ;;
       print "" [] ;;
       print_types lib rest (total + List.length its))%script
  end.

(** [sorted(by_type.items())]. *)
Fixpoint insert_type (x : string * list json) (sorted : types) : types :=
  match sorted with
  | [] => [x]
  | y :: rest =>
      if String.ltb (fst x) (fst y) then x :: y :: rest
      else y :: insert_type x rest
  end.

Definition sorted_types (t : types) : types := fold_right insert_type [] t.

(** The query of lines 24-35 for a given offset. *)
Definition query_at (offset : json) : json :=
  JObj [("filter",
         JObj [("filtersByParty",
                JObj [(PARTY,
                       JObj [("identifierFilter", JObj [("noFilter", JObj [])])])])]);
        ("activeAtOffset", offset)].

(** The whole script. *)
Definition main (lib : codec) : M unit :=
  (doc <- api lib "/v2/state/ledger-end" JNull ;;
   offset <- lift (getitem doc "offset") ;;
   print "Ledger offset: {offset}" [offset] ;;
   print "Party: {PARTY[:40]}..." [JStr (String.substring 0 40 PARTY)] ;;
   print "" [] ;;
   result <- api lib "/v2/state/active-contracts" (query_at offset) ;;
   by_type <- lift (collect result) ;;
   total <- print_types lib (sorted_types by_type) 0 ;;
   print "Total: {total} ble-protocol contracts in wallet" [count total])%script.

End CheckCantonWallet.

(* ================================================================== *)
(** * check-frontend.py *)
(* ================================================================== *)

Module CheckFrontend.

Definition URL : string := "http://localhost:3000/api/canton-balances".

Definition count (n : nat) : json := JNum (inject_Z (Z.of_nat n)).

(** The whole script.  The values inside each f-string are read from
    left to right before the line is printed. *)
Definition main (lib : codec) : M unit :=
  (raw <- urlopen_read URL None ;;
   d <- lift (loads_bytes lib raw) ;;
   print "=== Canton Balances API Response ===" [] ;;
   tokens <- lift (get d "tokens" (JArr [])) ;;
   n <- lift (len tokens) ;;
   print "Tokens: {len(d.get('tokens', []))}" [count n] ;;
   bs <- lift (get_none d "bridgeService") ;;
   (if truthy bs
    then (paused <- lift (get_none bs "paused") ;;
          print "BridgeService: paused={bs.get('paused')}" [paused])
    else ret tt) ;;
   ss <- lift (get_none d "stakingService") ;;
   (if truthy ss
    then (shares <- lift (get_none ss "totalShares") ;;
          pooled <- lift (get_none ss "pooledMusd") ;;
          print "StakingService: totalShares={ss.get('totalShares')}, pooledMusd={ss.get('pooledMusd')}"
                [shares; pooled])
    else ret tt) ;;
   ep <- lift (get_none d "ethPoolService") ;;
   (if truthy ep
    then (cap <- lift (get_none ep "poolCap") ;;
          paused <- lift (get_none ep "paused") ;;
          print "ETHPoolService: poolCap={ep.get('poolCap')}, paused={ep.get('paused')}"
                [cap; paused])
    else ret tt) ;;
   bp <- lift (get_none d "boostPoolService") ;;
   (if truthy bp
    then (lp <- lift (get_none bp "totalLPShares") ;;
          print "BoostPoolService: totalLP={bp.get('totalLPShares')}" [lp])
    else ret tt) ;;
   ls <- lift (get_none d "lendingService") ;;
   (if truthy ls then print "LendingService: present" [] else ret tt) ;;
   dm <- lift (get_none d "directMintService") ;;
   (if truthy dm then print "DirectMintService: present" [] else ret tt) ;;
   cr <- lift (get_none d "complianceRegistry") ;;
   (if truthy cr then print "ComplianceRegistry: present" [] else ret tt) ;;
   sup <- lift (get d "supplyService" (JObj [])) ;;
   (if truthy sup
    then (supply <- lift (get_none sup "currentSupply") ;;
          cap <- lift (get_none sup "supplyCap") ;;
          print "SupplyService: currentSupply={sup.get('currentSupply')}, cap={sup.get('supplyCap')}"
                [supply; cap])
    else ret tt) ;;
   print "" [] ;;
   print "STATUS: Canton side is AVAILABLE!" [])%script.

End CheckFrontend.

(* ================================================================== *)
(** * A codec for test documents *)
(* ================================================================== *)

(** The scripts are parametric in the codec.  To run them on concrete
    bodies this module gives one for a fragment of JSON: bodies made of
    characters below 128; the literals [null], [true] and [false];
    integers; strings without escape sequences; arrays and objects.  On
    that fragment it returns what [json.loads] and [bytes.decode] return;
    outside of it [loads] raises. *)
Module Lite.

Definition is_ws (c : ascii) : bool :=
  let n := nat_of_ascii c in
  (n =? 32) || (n =? 9) || (n =? 10) || (n =? 13).

Fixpoint skip_ws (s : string) : string :=
  match s with
  | String c rest => if is_ws c then skip_ws rest else s
  | EmptyString => s
  end.

Definition is_digit (c : ascii) : bool :=
  let n := nat_of_ascii c in (48 <=? n) && (n <=? 57).

(** The characters of a string literal up to its closing quote. *)
Fixpoint read_chars (s : string) : option (string * string) :=
  match s with
  | EmptyString => None
  | String c rest =>
      if Ascii.eqb c dquote then Some (EmptyString, rest)
      else if Ascii.eqb c backslash || (nat_of_ascii c <? 32) then None
      else match read_chars rest with
           | Some (text, rest') => Some (String c text, rest')
           | None => None
           end
  end.

(** The digits at the head of [s], as a number, and what follows. *)
Fixpoint read_digits (acc : Z) (s : string) : Z * string :=
  match s with
  | String c rest =>
      if is_digit c
      then read_digits (acc * 10 + Z.of_nat (nat_of_ascii c - 48)) rest
      else (acc, s)
  | EmptyString => (acc, s)
  end.

(** An integer: digits without a leading zero, and no fraction or
    exponent behind them. *)
Definition read_nat (s : string) : option (Z * string) :=
  match s with
  | String c rest =>
      if is_digit c then
        let (n, rest') := read_digits 0 s in
        let leading_zero :=
          Ascii.eqb c "0"%char
          && match rest with String d _ => is_digit d | EmptyString => false end in
        let goes_on :=
          match rest' with
          | String d _ => Ascii.eqb d "."%char || Ascii.eqb d "e"%char || Ascii.eqb d "E"%char
          | EmptyString => false
          end in
        if leading_zero || goes_on then None else Some (n, rest')
      else None
  | EmptyString => None
  end.

(** [d[k] = v] on the items of a dict: a later value replaces an earlier
    one in place. *)
Fixpoint set_item (k : string) (v : json) (m : list (string * json)) : list (string * json) :=
  match m with
  | [] => [(k, v)]
  | (k', v') :: rest =>
      if String.eqb k' k then (k', v) :: rest else (k', v') :: set_item k v rest
  end.

(** What the parser is reading: a value, the rest of an array or the
    rest of an object. *)
Inductive mode : Type :=
| Value
| Elements (done : list json)
| Members (done : list (string * json)).

Fixpoint parse (fuel : nat) (m : mode) (s : string) : option (json * string) :=
  match fuel with
  | O => None
  | S fuel' =>
      match m with
      | Value =>
          match skip_ws s with
          | EmptyString => None
          | String c rest as t =>
              if String.prefix "null" t then Some (JNull, String.substring 4 (String.length t) t)
              else if String.prefix "true" t
                   then Some (JBool true, String.substring 4 (String.length t) t)
              else if String.prefix "false" t
                   then Some (JBool false, String.substring 5 (String.length t) t)
              else if Ascii.eqb c dquote then
                match read_chars rest with
                | Some (text, rest') => Some (JStr text, rest')
                | None => None
                end
              else if Ascii.eqb c "["%char then
                match skip_ws rest with
                | String d rest' =>
                    if Ascii.eqb d "]"%char then Some (JArr [], rest')
                    else parse fuel' (Elements []) rest
                | EmptyString => None
                end
              else if Ascii.eqb c "{"%char then
                match skip_ws rest with
                | String d rest' =>
                    if Ascii.eqb d "}"%char then Some (JObj [], rest')
                    else parse fuel' (Members []) rest
                | EmptyString => None
                end
              else if Ascii.eqb c "-"%char then
                match read_nat rest with
                | Some (n, rest') => Some (JNum (inject_Z (- n)), rest')
                | None => None
                end
              else
                match read_nat t with
                | Some (n, rest') => Some (JNum (inject_Z n), rest')
                | None => None
                end
          end
      | Elements done =>
          match parse fuel' Value s with
          | Some (v, rest) =>
              match skip_ws rest with
              | String c rest' =>
                  if Ascii.eqb c ","%char then parse fuel' (Elements (done ++ [v])) rest'
                  else if Ascii.eqb c "]"%char then Some (JArr (done ++ [v]), rest')
                  else None
              | EmptyString => None
              end
          | None => None
          end
      | Members done =>
          match skip_ws s with
          | String q rest =>
              if Ascii.eqb q dquote then
                match read_chars rest with
                | Some (k, rest1) =>
                    match skip_ws rest1 with
                    | String colon rest2 =>
                        if Ascii.eqb colon ":"%char then
                          match parse fuel' Value rest2 with
                          | Some (v, rest3) =>
                              match skip_ws rest3 with
                              | String c rest4 =>
                                  if Ascii.eqb c ","%char
                                  then parse fuel' (Members (set_item k v done)) rest4
                                  else if Ascii.eqb c "}"%char
                                  then Some (JObj (set_item k v done), rest4)
                                  else None
                              | EmptyString => None
                              end
                          | None => None
                          end
                        else None
                    | EmptyString => None
                    end
                | None => None
                end
              else None
          | EmptyString => None
          end
      end
  end.

(** [json.loads(text)] on the fragment: one document, with nothing but
    white space around it. *)
Definition loads (text : string) : res json :=
  match parse (2 * String.length text + 2) Value text with
  | Some (v, rest) =>
      match skip_ws rest with
      | EmptyString => Ret v
      | String _ _ => Raise JSONDecodeError
      end
  | None => Raise JSONDecodeError
  end.

(** [bytes.decode()] for bytes below 128, which stand for themselves. *)
Fixpoint all_below_128 (bytes : string) : bool :=
  match bytes with
  | EmptyString => true
  | String c rest => (nat_of_ascii c <? 128) && all_below_128 rest
  end.

Definition decode (bytes : string) : res string :=
  if all_below_128 bytes then Ret bytes else Raise UnicodeDecodeError.

(** [str(n)] for a whole number. *)
Definition numeral (q : Q) : string := str_of_int (Qnum q).

Definition codec : Py.codec := mkCodec decode loads numeral.

(** The text of a document of the fragment, as a server would send it. *)
Definition quoted (s : string) : string :=
  String dquote (s ++ String dquote EmptyString)%string.

Fixpoint dumps (v : json) : string :=
  match v with
  | JNull => "null"
  | JBool true => "true"
  | JBool false => "false"
  | JNum q => str_of_int (Qnum q)
  | JStr s => quoted s
  | JArr l => ("[" ++ join ", " (map dumps l) ++ "]")%string
  | JObj m =>
      let member (kv : string * json) : string :=
        let (k, x) := kv in (quoted k ++ ": " ++ dumps x)%string in
      ("{" ++ join ", " (map member m) ++ "}")%string
  end.

(** Records one to a line. *)
Definition ndjson (records : list json) : string :=
  join (String QueryAcs.newline EmptyString) (map dumps records).

End Lite.

(* ================================================================== *)
(** * Envelopes and test documents *)
(* ================================================================== *)

Module Shapes.

(** The three envelopes observed around a [createdEvent]. *)

(** [{createdEvent: ev}]: the event directly under [contractEntry]. *)
Definition flat (ev : json) : json := JObj [("createdEvent", ev)].

(** [{k: {createdEvent: ev}}]: the event under a wrapper key, which is
    [JsActiveContract] or a key made up per party. *)
Definition wrapped (k : string) (ev : json) : json :=
  JObj [(k, JObj [("createdEvent", ev)])].

(** An entry of the active-contracts answer. *)
Definition entry (ce : json) : json := JObj [("contractEntry", ce)].

(** An event that carries no [createdEvent] key of its own. *)
Definition plain (ev : json) : Prop :=
  forall inner, ev = JObj inner -> lookup "createdEvent" inner = None.

(** A [createdEvent] record. *)
Definition event (templateId contractId : string) (createArgument : json) : json :=
  JObj [("templateId", JStr templateId);
        ("contractId", JStr contractId);
        ("createArgument", createArgument)].

(** The entries check-acs.py counts: a dict whose [contractEntry] is a
    dict. *)
Definition has_dict_entry (e : json) : bool :=
  match e with
  | JObj m =>
      match lookup "contractEntry" m with
      | Some (JObj _) => true
      | _ => false
      end
  | _ => false
  end.

(** The entries check-bridge-contracts.py and check-canton-contracts.py
    count: a dict whose [contractEntry] is a dict with a [JsActiveContract]
    that is not empty. *)
Definition has_active_contract (e : json) : bool :=
  match e with
  | JObj m =>
      match lookup "contractEntry" m with
      | Some (JObj ce) =>
          match lookup "JsActiveContract" ce with
          | Some ac => truthy ac
          | None => false
          end
      | _ => false
      end
  | _ => false
  end.

End Shapes.

Module Fixture.
Import Shapes.

Definition bridge_event : json :=
  event "pkg:Mod:BridgeService" "c1" (JObj [("paused", JBool false)]).

Definition token_event : json :=
  event "pkg:Mod:Token" "c2" (JObj [("amount", JStr "5.0")]).

Definition musd_event : json :=
  event "pkg:CantonDirectMint:CantonMUSD" "c3"
        (JObj [("owner", JStr "alice"); ("amount", JStr "7.0")]).

(** The two entries of the illustrative scenario. *)
Definition bridge_entry : json := entry (wrapped "JsActiveContract" bridge_event).
Definition token_entry : json := entry (flat token_event).

Definition ledger_end_body : string := Lite.dumps (JObj [("offset", JNum (inject_Z 42))]).

Definition array_body : string := Lite.dumps (JArr [bridge_entry; token_entry]).

(** The two entries of the scenario with other payloads. *)
Definition altered_body : string :=
  Lite.dumps
    (JArr [entry (wrapped "JsActiveContract"
                    (event "pkg:Mod:BridgeService" "c1" (JObj [("paused", JBool true)])));
           entry (flat (event "pkg:Mod:Token" "c2" (JObj [("amount", JStr "999.0")])))]).

Definition ndjson_body : string := Lite.ndjson [bridge_entry; token_entry].

(** Two records with a line between them that is not JSON. *)
Definition broken_body : string :=
  Lite.ndjson [token_entry] ++ String QueryAcs.newline "<html>Bad Gateway</html>"
    ++ String QueryAcs.newline (Lite.ndjson [entry (flat musd_event)]).

(** The error document of the ledger, on one line. *)
Definition error_body : string :=
  Lite.dumps (JObj [("code", JStr "INVALID_ARGUMENT"); ("cause", JStr "bad offset")]).

(** An endpoint that answers the ledger end and then [acs] to every
    query of the active contracts. *)
Definition serving (acs : string) (n : nat) : response :=
  if Nat.even n then Body ledger_end_body else Body acs.

(** An endpoint nobody listens on. *)
Definition refused (_ : nat) : response := Fails (URLError "Connection refused").

(** An endpoint that answers every request with status 400. *)
Definition rejecting (_ : nat) : response := Fails (HTTPError 400 "INVALID_ARGUMENT").

(** An endpoint that acknowledges every command. *)
Definition accepting (_ : nat) : response := Body (Lite.dumps (JObj [("updateId", JStr "u1")])).

Definition noon (_ : nat) : Z := 1700000000%Z.

Definition dice (n : nat) : nat := 7 * n.

Definition start (net : nat -> response) : world := boot net noon dice.

(** A coverage entry: three statements of which two are hit, one branch
    point with one of its two arms hit, no function. *)
Definition coverage_info : json :=
  JObj [("s", JObj [("1", JNum (inject_Z 1)); ("2", JNum (inject_Z 0)); ("3", JNum (inject_Z 5))]);
        ("b", JObj [("1", JArr [JNum (inject_Z 1); JNum (inject_Z 0)])]);
        ("f", JObj [])].

Definition coverage_data : json :=
  JObj [("contracts/MUSD.sol", coverage_info);
        ("contracts/mocks/MockOracle.sol", coverage_info);
        ("contracts/BorrowModule.sol", JObj [])].

End Fixture.

Module Envelope.

(** The value of an item of [contractEntry] wraps the event [ev]: it is a
    dict that holds [ev] under [createdEvent]. *)
Definition wraps (v ev : json) : Prop :=
  exists inner, v = JObj inner /\ lookup "createdEvent" inner = Some ev.

(** An item of [contractEntry] that holds no event: its key is not
    [createdEvent] and its value is no dict with a [createdEvent] key. *)
Definition no_event (item : string * json) : bool :=
  negb (String.eqb (fst item) "createdEvent")
  && match snd item with
     | JObj inner =>
         match lookup "createdEvent" inner with Some _ => false | None => true end
     | _ => true
     end.

(** The three fields of an event, with the defaults of
    check-bridge-contracts.py. *)
Definition fields (ev : json) : res (option (json * json * json)) :=
  (tid <- get ev "templateId" (JStr "?") ;;
   args <- get ev "createArgument" (JObj []) ;;
   cid <- get ev "contractId" (JStr "?") ;;
   Ret (Some (tid, args, cid)))%res.

(** An entry with keys beside [contractEntry] and, inside it, items
    before and after the wrapper of a token. *)
Definition before : list (string * json) := [("synchronizerId", JStr "s1")].

Definition wrapper : json :=
  JObj [("createdEvent", Fixture.token_event); ("reassignmentCounter", JStr "0")].

Definition after : list (string * json) :=
  [("party-1", JObj [("createdEvent", Fixture.musd_event)])].

Definition sample : list (string * json) :=
  [("workflowId", JStr "wf");
   ("contractEntry", JObj (before ++ ("JsActiveContract", wrapper) :: after))].

End Envelope.

(* ================================================================== *)
(** * Successive command identifiers *)
(* ================================================================== *)

Module Generation.
Import BootstrapHttp.

(** The six letters [cmd_id] draws when the generator stands at rank
    [n]. *)
Definition suffix (rng : nat -> nat) (n : nat) : string :=
  string_of_list_ascii (map (fun i => pick ascii_lowercase (rng (i + n))) (seq 0 6)).

(** [[cmd_id() for _ in range(n)]]. *)
Fixpoint generate (n : nat) : M (list string) :=
  match n with
  | O => ret []
  | S k => (id <- cmd_id ;; ids <- generate k ;; ret (id :: ids))%script
  end.

Definition is_lower (c : ascii) : bool :=
  (97 <=? nat_of_ascii c) && (nat_of_ascii c <=? 122).

(** The letters a list of draws selects. *)
Definition word (draws : list nat) : string :=
  string_of_list_ascii (map (pick ascii_lowercase) draws).

(** All the lists of [n] items of [alpha]. *)
Fixpoint lists {A : Type} (n : nat) (alpha : list A) : list (list A) :=
  match n with
  | O => [[]]
  | S k => flat_map (fun x => map (cons x) (lists k alpha)) alpha
  end.

(** The selections of [k] letters a call can draw: [k] ranks in the
    alphabet; and the runs of [n] calls, six letters each.  [random]
    gives every rank the same weight, so all the runs weigh the same. *)
Definition selections (k : nat) : list (list nat) := lists k (seq 0 26).

Definition runs (n : nat) : list (list (list nat)) := lists n (selections 6).

(** A generator that gives the draws of a run, one after the other. *)
Definition replay (run : list (list nat)) (i : nat) : nat := nth i (concat run) 0.

(** Whether a list of identifiers holds one of them twice. *)
Fixpoint repeats (ids : list string) : bool :=
  match ids with
  | [] => false
  | id :: rest => existsb (String.eqb id) rest || repeats rest
  end.

End Generation.

(* ================================================================== *)
(** * Totals and hits of a coverage entry, counted directly *)
(* ================================================================== *)

Module Counting.

(** A counter that was hit: a number above zero ([True] counts as 1). *)
Definition positive (v : json) : bool :=
  match v with
  | JNum q => negb (Qle_bool q 0%Q)
  | JBool b => b
  | _ => false
  end.

(** The number of counters of a dict that were hit. *)
Definition hits (counters : list (string * json)) : nat :=
  List.length (filter positive (map snd counters)).

(** The arms of all the branch points of a dict of lists. *)
Definition arms (branches : list (string * json)) : list json :=
  flat_map (fun kv => match snd kv with JArr l => l | _ => [] end) branches.

(** [H / S * 100] as an exact number. *)
Definition ratio100 (H S : nat) : Q :=
  (inject_Z (Z.of_nat H) / inject_Z (Z.of_nat S) * 100)%Q.

(** A percentage. *)
Definition bounded (q : Q) : Prop := (0 <= q)%Q /\ (q <= 100)%Q.

Definition all_bounded (p : CoverageReport.percentages) : Prop :=
  bounded (CoverageReport.pct_s p)
  /\ bounded (CoverageReport.pct_b p)
  /\ bounded (CoverageReport.pct_f p).

Definition row_bounded (r : CoverageReport.row) : Prop :=
  match r with (_, p, _, _) => all_bounded p end.

End Counting.

(* ================================================================== *)
(** * The records of a body, line by line *)
(* ================================================================== *)

Module Lines.

(** What one line of a body contributes to the result of [query_acs]:
    the record of its [contractEntry] when the line is a JSON document
    that has one and the fields can be read, and nothing otherwise. *)
Definition record_of (lib : codec) (line : string) : list json :=
  if String.eqb (strip line) "" then []
  else
    match (d <- loads lib line ;; QueryAcs.extract d)%res with
    | Ret (Some c) => [c]
    | _ => []
    end.

Definition records_of (lib : codec) (lines : list string) : list json :=
  flat_map (record_of lib) lines.

(** The world once a script, having done [sofar], has asked for the
    ledger end, printed the offset and asked for the active contracts
    with [payload]. *)
Definition asked (w : world) (sofar : list event) (offset payload : json) : world :=
  mkWorld (net w) (clock w) (rng w) (S (S (n_req w))) (n_clock w) (n_rng w)
    (((sofar ++ [Req "http://localhost:7575/v2/state/ledger-end" None])
      ++ [Print "Ledger offset: {offset}" [offset]])
     ++ [Req "http://localhost:7575/v2/state/active-contracts" (Some payload)]).

(** The events that are printed lines. *)
Definition is_print (e : event) : bool :=
  match e with Print _ _ => true | Req _ _ => false end.

End Lines.

(* ================================================================== *)
(** * Tallies and traces *)
(* ================================================================== *)

Module Tallies.

(** The key under which check-acs.py counts an entry, when it counts
    it: the [templateId] of the event it locates ([unknown] when there is
    none), or the text of the key list when it locates no event. *)
Definition bucket (c : json) : option json :=
  match c with
  | JObj m =>
      match lookup "contractEntry" m with
      | Some (JObj items) =>
          match CheckAcs.probe_items items with
          | CheckAcs.Located (JObj ev) =>
              Some (match lookup "templateId" ev with
                    | Some tid => tid
                    | None => JStr "unknown"
                    end)
          | CheckAcs.Located _ => None
          | CheckAcs.Unlocated => Some (JStr (str_of_keys (map fst items)))
          end
      | _ => None
      end
  | _ => None
  end.

(** Whether an entry is counted under the key [k]. *)
Definition counted_as (k : json) (c : json) : bool :=
  match bucket c with
  | Some b => key_eqb b k
  | None => false
  end.

(** [d.get(k, 0)]. *)
Definition count_of (k : json) (d : counter) : nat :=
  list_sum (map snd (filter (fun kv => key_eqb (fst kv) k) d)).

(** The order of the printed lines: the key of a line is not above the
    key of the next. *)
Definition not_above (x y : json * nat) : Prop := key_ltb (fst y) (fst x) = Ret false.

(** The line check-acs.py prints for a counter, and the line of the
    total before it. *)
Definition line (item : json * nat) : event :=
  Print "  [{count}x] {t}" [JNum (inject_Z (Z.of_nat (snd item))); fst item].

Definition total_line (n : nat) : event :=
  Print "Total active contracts: {len(contracts)}" [JNum (inject_Z (Z.of_nat n))].

End Tallies.

Module Traces.

(** A statement that sends no request. *)
Definition quiet {A : Type} (m : M A) : Prop :=
  forall w, requests (out (snd (m w))) = requests (out w).

(** The printed lines among the events. *)
Definition prints (evs : list event) : list event :=
  filter (fun e => match e with Print _ _ => true | Req _ _ => false end) evs.

(** A statement that only adds to what was done before it; [more] are
    the requests it sends. *)
Definition onward {A : Type} (m : M A) : Prop :=
  forall w, exists more, requests (out (snd (m w))) = requests (out w) ++ more.

End Traces.

Module Purge.

(** A record of [contracts] in query-acs.py. *)
Definition record (cid tid pkg : json) : json :=
  JObj [("cid", cid); ("tid", tid); ("pkg", pkg)].

(** The record of an entry in which no event was found. *)
Definition placeholder : json := record (JStr "?") (JStr "?") (JStr "?").

Definition is_record (c : json) : Prop := exists cid tid pkg, c = record cid tid pkg.

(** The module names that mark a protocol contract (line 67). *)
Definition names : list string := ["Minted"; "Compliance"; "CantonDirect"; "CantonCoin"].

(** A template id the loop of lines 61-68 reads without raising: a
    string, or a dict whose [moduleName] is a string or is missing;
    any other value is passed over. *)
Definition readable (tid : json) : bool :=
  match tid with
  | JObj m =>
      match lookup "moduleName" m with
      | Some (JStr _) | None => true
      | Some _ => false
      end
  | _ => true
  end.

(** Whether a contract with this template id is listed for purge. *)
Definition listed (tid : json) : bool :=
  match tid with
  | JStr t => contains "Minted" t
  | JObj m =>
      match lookup "moduleName" m with
      | Some (JStr name) => existsb (fun n => contains n name) names
      | _ => false
      end
  | _ => false
  end.

End Purge.

Module Grouping.

(** An event that belongs under the name [k]: its [templateId] is a
    string whose short name is [k]. *)
Definition filed_under (k : string) (evt : json) : Prop :=
  exists t, getitem evt "templateId" = Ret (JStr t) /\ CheckCantonContracts.short_name t = k.

(** A group of [by_template] is well filed: it is not empty and every
    event in it belongs under its name. *)
Definition well_filed (g : string * list json) : Prop :=
  snd g <> [] /\ Forall (filed_under (fst g)) (snd g).

(** What one payload field shows of the value [v]. *)
Definition shown (m : list (string * json)) (k : string) : list (string * json) :=
  match lookup k m with
  | Some v => [(k, CheckCantonContracts.shorten v)]
  | None => []
  end.

(** The entry check-bridge-contracts.py has extracted from, as it files
    it. *)
Definition filed (lib : codec) (x : json * json * json) (acc : CheckBridgeContracts.lists)
    : CheckBridgeContracts.lists :=
  let text := str (numeral lib) (fst (fst x)) in
  let bridge := contains "BridgeInRequest" text in
  CheckBridgeContracts.mkLists
    (CheckBridgeContracts.bridge_ins acc ++ (if bridge then [x] else []))
    (CheckBridgeContracts.musd_tokens acc
       ++ (if negb bridge && contains "MUSD" text then [x] else []))
    (CheckBridgeContracts.all_templates acc ++ [fst (fst x)]).

End Grouping.

Module Answers.

(** An answer [submit] turns into a pair: a body that decodes to a JSON
    document, or an error status whose body decodes. *)
Definition answered (lib : codec) (r : response) : Prop :=
  (exists raw text result,
      r = Body raw /\ decode lib raw = Ret text /\ loads lib text = Ret result)
  \/ (exists code bytes err,
         r = Fails (HTTPError code bytes) /\ decode lib bytes = Ret err).

(** The world after one command was sent and its outcome printed. *)
Definition commanded (w : world) (evs : list World.event) : world :=
  mkWorld (net w) (clock w) (rng w) (S (n_req w)) (S (n_clock w)) (6 + n_rng w)
          (out w ++ evs).

End Answers.

Module Report.
Import CoverageReport.

Definition row_name (r : row) : string := match r with (name, _, _, _) => name end.

Definition row_core (r : row) : bool := match r with (_, _, _, is_core) => is_core end.

(** The line printed for a row in the table (line 40). *)
Definition row_line (r : row) : World.event :=
  match r with
  | (name, p, marker, _) =>
      Print "{name:<50} {pct_s:>6.1f}% {pct_b:>7.1f}% {pct_f:>7.1f}%{marker}"
            [JStr name; JNum (pct_s p); JNum (pct_b p); JNum (pct_f p); JStr marker]
  end.

(** The line printed for a row among the core contracts (line 46). *)
Definition core_line (r : row) : World.event :=
  match r with
  | (name, p, _, _) =>
      Print "  {name:<45} {pct_s:>6.1f}% {pct_b:>7.1f}% {pct_f:>7.1f}%"
            [JStr name; JNum (pct_s p); JNum (pct_b p); JNum (pct_f p)]
  end.

(** A row as line 38-39 build it: not of a mock or a test, flagged and
    marked exactly when its name is a core contract. *)
Definition consistent (r : row) : Prop :=
  match r with
  | (name, _, marker, is_core) =>
      skipped name = false
      /\ is_core = in_core name
      /\ marker = if in_core name then " <<<" else ""
  end.

(** The names that get a row. *)
Definition kept (its : list (string * json)) : list string :=
  filter (fun name => negb (skipped name)) (map (fun kv => name_of (fst kv)) its).

(** The order of the rows: the path of a row is not above the path of
    the next. *)
Definition path_not_above (x y : string * json) : Prop := String.ltb (fst y) (fst x) = false.

(** A coverage entry as the coverage tool writes it: hit counts under
    [s] and [f], lists of hit counts under [b]; each may be missing. *)
Definition numeric (v : json) : bool :=
  match v with JNum _ | JBool _ => true | _ => false end.

Definition counts (v : json) : bool :=
  match v with
  | JObj m => forallb numeric (map snd m)
  | _ => false
  end.

Definition branch_counts (v : json) : bool :=
  match v with
  | JObj m => forallb (fun bl => match bl with JArr l => forallb numeric l | _ => false end)
                      (map snd m)
  | _ => false
  end.

Definition field_ok (check : json -> bool) (k : string) (m : list (string * json)) : bool :=
  match lookup k m with
  | Some v => check v
  | None => true
  end.

Definition well_formed (info : json) : bool :=
  match info with
  | JObj m => field_ok counts "s" m && field_ok branch_counts "b" m && field_ok counts "f" m
  | _ => false
  end.

End Report.

Module Wallet.
Import CheckCantonWallet.

(** The entries check-canton-wallet.py lists: those with a
    [JsActiveContract] that is not empty whose [templateId] has at least
    three parts between colons, the first of them the package [PKG]. *)
Definition ours (entry : json) : bool :=
  match (ce <- get entry "contractEntry" (JObj []) ;;
         ac <- get_none ce "JsActiveContract" ;;
         if truthy ac then
           evt <- get ac "createdEvent" (JObj []) ;;
           tid <- get evt "templateId" (JStr "") ;;
           parts <- split_colon tid ;;
           Ret ((3 <=? List.length parts) && String.eqb (nth 0 parts "") PKG)
         else Ret false)%res with
  | Ret b => b
  | Raise _ => false
  end.

(** The number of items filed under all the names together. *)
Definition size (t : types) : nat := list_sum (map (fun g => List.length (snd g)) t).

(** An item as line 59 builds it; its payload is a dict. *)
Definition item (amount cid : json) (payload : list (string * json)) : json :=
  JObj [("amount", amount); ("cid", cid); ("payload", JObj payload)].

Definition built (it : json) : Prop := exists amount cid payload, it = item amount cid payload.

(** The order of the headings: each name is below the next. *)
Definition ascending (x y : string * list json) : Prop := String.ltb (fst x) (fst y) = true.

Definition name_not_above (x y : string * list json) : Prop :=
  String.ltb (fst y) (fst x) = false.

(** An active contract of the package [PKG], as the ledger answers it. *)
Definition package_entry (name cid : string) (payload : json) : json :=
  Shapes.entry (Shapes.wrapped "JsActiveContract"
                  (Shapes.event (PKG ++ ":" ++ name) cid payload)).

End Wallet.

Module Frontend.

(** [d.get(k, default)] on the items of a dict. *)
Definition field (m : list (string * json)) (k : string) (default : json) : json :=
  match lookup k m with Some x => x | None => default end.

(** The eight services the script looks for, in the order of its lines. *)
Definition services (m : list (string * json)) : list json :=
  [field m "bridgeService" JNull; field m "stakingService" JNull;
   field m "ethPoolService" JNull; field m "boostPoolService" JNull;
   field m "lendingService" JNull; field m "directMintService" JNull;
   field m "complianceRegistry" JNull; field m "supplyService" (JObj [])].

(** The five services whose fields are read. *)
Definition read (m : list (string * json)) : list json :=
  [field m "bridgeService" JNull; field m "stakingService" JNull;
   field m "ethPoolService" JNull; field m "boostPoolService" JNull;
   field m "supplyService" (JObj [])].

(** A value whose fields can be read when it counts as present: a dict,
    or a value that is false. *)
Definition usable (v : json) : bool :=
  negb (truthy v) || match v with JObj _ => true | _ => false end.

(** A statement that returns after printing [k] lines and doing nothing
    else. *)
Definition steady (m : M unit) (k : nat) : Prop :=
  forall w, exists w' lines,
    m w = (Ret tt, w')
    /\ out w' = out w ++ lines
    /\ forallb Lines.is_print lines = true
    /\ List.length lines = k.

(** A statement that returns after printing [k] lines and then
    [final]. *)
Definition follows (m : M unit) (k : nat) (final : list World.event) : Prop :=
  forall w, exists w' lines,
    m w = (Ret tt, w')
    /\ out w' = out w ++ lines ++ final
    /\ forallb Lines.is_print lines = true
    /\ List.length lines = k.

End Frontend.

Module Status.
Import TestCantonApi.

(** The events test-canton-api.py locates in an entry: those found under
    the values of its [contractEntry], in order. *)
Definition located (entry : json) : list json :=
  match get entry "contractEntry" (JObj []) with
  | Ret (JObj its) =>
      flat_map (fun kv => match locate (snd kv) with Some ev => [ev] | None => [] end) its
  | _ => []
  end.

(** [marker in ev.get("templateId", "")]. *)
Definition names (marker : string) (ev : json) : bool :=
  match (tid <- get ev "templateId" (JStr "") ;; str_in marker tid)%res with
  | Ret b => b
  | Raise _ => false
  end.

(** The events counted as mUSD tokens. *)
Definition is_token (ev : json) : bool := names "CantonDirectMint:CantonMUSD" ev.

(** The events counted as direct-mint services: the last case of the
    chain, reached when no case before it applies. *)
Definition is_mint (ev : json) : bool :=
  negb (names "CantonDirectMint:CantonMUSD" ev)
  && negb (names "V3:BridgeService" ev)
  && negb (names "CantonSMUSD:CantonStakingService" ev)
  && negb (names "CantonETHPool:CantonETHPoolService" ev)
  && negb (names "CantonBoostPool:CantonBoostPoolService" ev)
  && negb (names "CantonLending:CantonLendingService" ev)
  && names "CantonDirectMint:CantonDirectMintService" ev.

End Status.

(* ================================================================== *)
(** * Properties *)
(* ================================================================== *)

Import Shapes.

(** ** Counters *)

Section Counters.

Lemma total_bump_at (k : json) (d : counter) : total (bump_at k d) = S (total d).
Proof.
  unfold total. induction d as [|[k' n] d IH]; simpl.
  - reflexivity.
  - destruct (key_eqb k' k); simpl.
    + lia.
    + rewrite IH. lia.
Qed.

Lemma total_bump (k : json) (d d' : counter) :
  bump k d = Ret d' -> total d' = S (total d).
Proof.
  unfold bump. destruct (hashable k); intros H; inversion H.
  apply total_bump_at.
Qed.

Lemma total_Counter_from (keys : list json) :
  forall d d', Counter_from keys d = Ret d' -> total d' = total d + List.length keys.
Proof.
  induction keys as [|k keys IH]; simpl; intros d d' H.
  - inversion H. lia.
  - destruct (bump k d) as [d1|e] eqn:Hb; simpl in H; [|discriminate].
    apply IH in H. apply total_bump in Hb. lia.
Qed.

End Counters.

(** ** The three envelopes *)

Section Envelopes.
Import Envelope.

Lemma lookup_app_none (k : string) (pre rest : list (string * json)) :
  lookup k pre = None -> lookup k (pre ++ rest) = lookup k rest.
Proof.
  induction pre as [|[k' v] pre IH]; simpl; [reflexivity|].
  destruct (String.eqb k' k); [discriminate|exact IH].
Qed.

Lemma lookup_absent (k : string) (m : list (string * json)) :
  ~ In k (map fst m) -> lookup k m = None.
Proof.
  induction m as [|[k' v] m IH]; simpl; intros H; [reflexivity|].
  destruct (String.eqb_spec k' k) as [E|_]; [exfalso; apply H; now left|].
  apply IH. intros Hin. apply H. now right.
Qed.

Lemma lookup_middle (k : string) (v : json) (pre post : list (string * json)) :
  NoDup (map fst (pre ++ (k, v) :: post)) ->
  lookup k (pre ++ (k, v) :: post) = Some v.
Proof.
  intros Hnd. rewrite lookup_app_none.
  - simpl. rewrite String.eqb_refl. reflexivity.
  - apply lookup_absent. rewrite map_app in Hnd. simpl in Hnd.
    apply NoDup_remove_2 in Hnd. intros Hin. apply Hnd, in_or_app. now left.
Qed.

Lemma lookup_beside (k k' : string) (v : json) (pre post : list (string * json)) :
  k <> k' -> lookup k' (pre ++ (k, v) :: post) = lookup k' (pre ++ post).
Proof.
  intros Hk. induction pre as [|[k0 v0] pre IH]; simpl.
  - destruct (String.eqb_spec k k'); [contradiction|reflexivity].
  - rewrite IH. reflexivity.
Qed.

Lemma probe_no_event (pre rest : list (string * json)) :
  forallb no_event pre = true ->
  CheckAcs.probe_items (pre ++ rest) = CheckAcs.probe_items rest.
Proof.
  induction pre as [|[k v] pre IH]; [reflexivity|].
  cbn [forallb app]. intros H. apply andb_prop in H. destruct H as [Hkv Hpre].
  unfold no_event in Hkv. cbn [fst snd] in Hkv.
  apply andb_prop in Hkv. destruct Hkv as [Hk Hv].
  apply negb_true_iff in Hk. cbn [CheckAcs.probe_items]. rewrite Hk.
  destruct v as [| | | | |inner]; try exact (IH Hpre).
  destruct (lookup "createdEvent" inner); [discriminate|exact (IH Hpre)].
Qed.

Lemma visit_no_event (pre rest : list (string * json)) (st : TestCantonApi.status) :
  forallb no_event pre = true ->
  TestCantonApi.visit_items (pre ++ rest) st = TestCantonApi.visit_items rest st.
Proof.
  induction pre as [|[k v] pre IH]; [reflexivity|].
  cbn [forallb app]. intros H. apply andb_prop in H. destruct H as [Hkv Hpre].
  unfold no_event in Hkv. cbn [fst snd] in Hkv.
  apply andb_prop in Hkv. destruct Hkv as [_ Hv].
  cbn [TestCantonApi.visit_items]. unfold TestCantonApi.locate.
  destruct v as [| | | | |inner]; try exact (IH Hpre).
  destruct (lookup "createdEvent" inner); [discriminate|exact (IH Hpre)].
Qed.

Lemma visit_nothing (its : list (string * json)) (st : TestCantonApi.status) :
  forallb no_event its = true -> TestCantonApi.visit_items its st = Ret st.
Proof.
  intros H. rewrite <- (app_nil_r its). rewrite visit_no_event by exact H. reflexivity.
Qed.

Lemma locate_plain (ev : json) : plain ev -> TestCantonApi.locate ev = None.
Proof.
  intros Hev. unfold TestCantonApi.locate. destruct ev as [| | | | |inner]; try reflexivity.
  apply (Hev inner eq_refl).
Qed.

Lemma extract_skips (m ce : list (string * json)) :
  lookup "contractEntry" m = Some (JObj ce) ->
  lookup "JsActiveContract" ce = None ->
  CheckBridgeContracts.extract (JObj m) = Ret None.
Proof.
  intros Hm Hce. unfold CheckBridgeContracts.extract. cbn [get]. rewrite Hm.
  cbn [rbind get]. rewrite Hce. reflexivity.
Qed.

End Envelopes.

Lemma plain_event (t c : string) (a : json) : plain (event t c a).
Proof. intros inner H. inversion H. reflexivity. Qed.

(** C1, as amended.  Each script probes the envelope in its own way.
    Take any entry whose [contractEntry] is a dict, with whatever keys
    beside it, and an item [(k, v)] of that dict that comes after items
    holding no event; other items may follow it.  When [v] wraps an event
    under [createdEvent], whatever the key [k]: check-acs.py counts the
    template of that event, test-canton-api.py records that event and goes
    on with the items that follow, and check-bridge-contracts.py extracts
    the three fields of that event if [k] is [JsActiveContract] and skips
    the entry if neither [k] nor another item is.  When [k] is
    [createdEvent] and [v] is itself the event, with no [createdEvent] key
    of its own: check-acs.py counts its template as before, while
    test-canton-api.py passes over it, recording nothing if no item that
    follows wraps an event, and check-bridge-contracts.py skips the entry
    unless an item [JsActiveContract] is beside it. *)
Theorem C1_envelopes_by_script
    (m pre post : list (string * json)) (k : string) (v : json)
    (templates : counter) (st : TestCantonApi.status) :
  lookup "contractEntry" m = Some (JObj (pre ++ (k, v) :: post)) ->
  NoDup (map fst (pre ++ (k, v) :: post)) ->
  forallb Envelope.no_event pre = true ->
  (forall ev, Envelope.wraps v ev ->
     CheckAcs.count_entry (JObj m) templates
     = (tid <- get ev "templateId" (JStr "unknown") ;; bump tid templates)%res
     /\ TestCantonApi.visit (JObj m) st
        = (st' <- TestCantonApi.record ev st ;; TestCantonApi.visit_items post st')%res
     /\ (k = "JsActiveContract" ->
         CheckBridgeContracts.extract (JObj m) = Envelope.fields ev)
     /\ (k <> "JsActiveContract" -> lookup "JsActiveContract" (pre ++ post) = None ->
         CheckBridgeContracts.extract (JObj m) = Ret None))
  /\ (k = "createdEvent" -> plain v ->
      CheckAcs.count_entry (JObj m) templates
      = (tid <- get v "templateId" (JStr "unknown") ;; bump tid templates)%res
      /\ TestCantonApi.visit (JObj m) st = TestCantonApi.visit_items post st
      /\ (forallb Envelope.no_event post = true -> TestCantonApi.visit (JObj m) st = Ret st)
      /\ (lookup "JsActiveContract" (pre ++ post) = None ->
          CheckBridgeContracts.extract (JObj m) = Ret None)).
Proof.
  intros Hm Hnd Hpre.
  assert (Hacs : forall ev, CheckAcs.probe_items ((k, v) :: post) = CheckAcs.Located ev ->
            CheckAcs.count_entry (JObj m) templates
            = (tid <- get ev "templateId" (JStr "unknown") ;; bump tid templates)%res).
  { intros ev Hp. unfold CheckAcs.count_entry. cbn [getitem]. rewrite Hm.
    cbn [rbind]. rewrite (probe_no_event _ _ Hpre), Hp. reflexivity. }
  assert (Hvisit : TestCantonApi.visit (JObj m) st
                   = TestCantonApi.visit_items ((k, v) :: post) st).
  { unfold TestCantonApi.visit. cbn [get]. rewrite Hm. cbn [rbind items].
    apply visit_no_event, Hpre. }
  split.
  - intros ev (inner & -> & Hin). split; [|split; [|split]].
    + apply Hacs. cbn [CheckAcs.probe_items]. rewrite Hin. reflexivity.
    + rewrite Hvisit. cbn [TestCantonApi.visit_items TestCantonApi.locate].
      rewrite Hin. reflexivity.
    + intros ->. unfold CheckBridgeContracts.extract. cbn [get]. rewrite Hm.
      cbn [rbind get]. rewrite (lookup_middle _ _ _ _ Hnd).
      destruct inner as [|item inner]; [discriminate|].
      cbn [truthy negb]. cbn [get]. rewrite Hin. reflexivity.
    + intros Hk Hnone. apply (extract_skips _ _ Hm).
      rewrite lookup_beside by exact Hk. exact Hnone.
  - intros -> Hv. split; [|split; [|split]].
    + apply Hacs. cbn [CheckAcs.probe_items].
      destruct v as [| | | | |inner]; try reflexivity.
      rewrite (Hv inner eq_refl). reflexivity.
    + rewrite Hvisit. cbn [TestCantonApi.visit_items].
      rewrite (locate_plain _ Hv). reflexivity.
    + intros Hpost. rewrite Hvisit. cbn [TestCantonApi.visit_items].
      rewrite (locate_plain _ Hv). apply visit_nothing, Hpost.
    + intros Hnone. apply (extract_skips _ _ Hm).
      rewrite lookup_beside by discriminate. exact Hnone.
Qed.

Lemma C1_envelopes_by_script_witness :
  lookup "contractEntry" Envelope.sample
  = Some (JObj (Envelope.before ++ ("JsActiveContract", Envelope.wrapper) :: Envelope.after))
  /\ NoDup (map fst (Envelope.before
                     ++ ("JsActiveContract", Envelope.wrapper) :: Envelope.after))
  /\ forallb Envelope.no_event Envelope.before = true
  /\ CheckAcs.count_entry (JObj Envelope.sample) [] = Ret [(JStr "pkg:Mod:Token", 1)]
  /\ TestCantonApi.visit (JObj Envelope.sample) TestCantonApi.initial
     = Ret (TestCantonApi.mkStatus
              [JObj [("owner", JStr "alice"); ("amount", JStr "7.0")]]
              JNull JNull JNull JNull JNull [])
  /\ CheckBridgeContracts.extract (JObj Envelope.sample)
     = Ret (Some (JStr "pkg:Mod:Token", JObj [("amount", JStr "5.0")], JStr "c2")).
Proof.
  assert (Hnd : NoDup (map fst (Envelope.before
                                  ++ ("JsActiveContract", Envelope.wrapper) :: Envelope.after))).
  { repeat constructor; simpl; intuition discriminate. }
  destruct (C1_envelopes_by_script Envelope.sample Envelope.before Envelope.after
              "JsActiveContract" Envelope.wrapper [] TestCantonApi.initial
              eq_refl Hnd eq_refl) as [Hw _].
  destruct (Hw Fixture.token_event (ex_intro _ _ (conj eq_refl eq_refl)))
    as (Hacs & Hvisit & Hbridge & _).
  split; [reflexivity|]. split; [exact Hnd|]. split; [reflexivity|].
  split; [exact Hacs|]. split; [exact Hvisit|]. exact (Hbridge eq_refl).
Defined.

(** C1 as stated fails: test-canton-api.py records a token wrapped under
    [JsActiveContract] and nothing when the same event sits directly under
    [contractEntry]; check-bridge-contracts.py extracts the first and skips
    the second. *)
Lemma C1_flat_envelope_missed :
  TestCantonApi.scan (JArr [entry (wrapped "JsActiveContract" Fixture.musd_event)])
  = Ret (TestCantonApi.mkStatus
           [JObj [("owner", JStr "alice"); ("amount", JStr "7.0")]]
           JNull JNull JNull JNull JNull [])
  /\ TestCantonApi.scan (JArr [entry (flat Fixture.musd_event)]) = Ret TestCantonApi.initial
  /\ CheckBridgeContracts.extract (entry (wrapped "JsActiveContract" Fixture.musd_event))
     = Ret (Some (JStr "pkg:CantonDirectMint:CantonMUSD",
                  JObj [("owner", JStr "alice"); ("amount", JStr "7.0")],
                  JStr "c3"))
  /\ CheckBridgeContracts.extract (entry (flat Fixture.musd_event)) = Ret None.
Proof. repeat split. Qed.

(** ** Grouping and counting *)

Section Grouping.

Ltac inv H := inversion H; subst; clear H.

Lemma count_entry_total (c : json) (t t' : counter) :
  CheckAcs.count_entry c t = Ret t' ->
  total t' = total t + (if has_dict_entry c then 1 else 0).
Proof.
  unfold CheckAcs.count_entry, has_dict_entry, getitem.
  destruct c as [| | | | |m]; simpl; try discriminate.
  destruct (lookup "contractEntry" m) as [ce|]; simpl; [|discriminate].
  destruct ce as [| | | | |its]; simpl; intros H; try (inv H; lia).
  destruct (CheckAcs.probe_items its) as [ev|].
  - destruct (get ev "templateId" (JStr "unknown")) as [tid|e]; simpl in H; [|discriminate].
    apply total_bump in H. lia.
  - apply total_bump in H. lia.
Qed.

Lemma count_entries_total (cs : list json) :
  forall t t', CheckAcs.count_entries cs t = Ret t' ->
  total t' = total t + List.length (filter has_dict_entry cs).
Proof.
  induction cs as [|c cs IH]; simpl; intros t t' H.
  - inv H. lia.
  - destruct (CheckAcs.count_entry c t) as [t1|e] eqn:Hc; simpl in H; [|discriminate].
    apply count_entry_total in Hc. apply IH in H.
    destruct (has_dict_entry c); simpl; lia.
Qed.

Lemma not_selected (e : json) :
  str_in "contractEntry" e = Ret false -> has_dict_entry e = false.
Proof.
  unfold str_in, has_dict_entry, has_key.
  destruct e as [| | | | |m]; try reflexivity.
  destruct (lookup "contractEntry" m); [discriminate|reflexivity].
Qed.

Lemma select_filter (data : list json) :
  forall contracts, CheckAcs.select data = Ret contracts ->
  filter has_dict_entry contracts = filter has_dict_entry data.
Proof.
  induction data as [|e data IH]; simpl; intros contracts H.
  - inv H. reflexivity.
  - destruct (str_in "contractEntry" e) as [keep|x] eqn:Hk; simpl in H; [|discriminate].
    destruct (CheckAcs.select data) as [kept|x]; simpl in H; [|discriminate].
    inv H. specialize (IH kept eq_refl).
    destruct keep; simpl.
    + rewrite IH. reflexivity.
    + rewrite (not_selected e Hk). exact IH.
Qed.

Lemma extract_active (e : json) (found : option (json * json * json)) :
  CheckBridgeContracts.extract e = Ret found ->
  has_active_contract e = match found with Some _ => true | None => false end.
Proof.
  unfold CheckBridgeContracts.extract, has_active_contract.
  destruct e as [| | | | |m]; simpl; try discriminate.
  assert (skip : Ret None = Ret found ->
                 false = match found with Some _ => true | None => false end)
    by (intros H; inv H; reflexivity).
  destruct (lookup "contractEntry" m) as [ce|]; simpl; [|exact skip].
  destruct ce as [| | | | |w]; simpl; try discriminate.
  destruct (lookup "JsActiveContract" w) as [ac|]; simpl; [|exact skip].
  destruct (truthy ac); simpl; [|exact skip].
  destruct (get ac "createdEvent" (JObj [])) as [ce|x]; simpl; [|discriminate].
  destruct (get ce "templateId" (JStr "?")) as [tid|x]; simpl; [|discriminate].
  destruct (get ce "createArgument" (JObj [])) as [args|x]; simpl; [|discriminate].
  destruct (get ce "contractId" (JStr "?")) as [cid|x]; simpl; [|discriminate].
  intros H. inv H. reflexivity.
Qed.

Lemma step_templates (lib : codec) (e : json) (acc acc' : CheckBridgeContracts.lists) :
  CheckBridgeContracts.step lib e acc = Ret acc' ->
  List.length (CheckBridgeContracts.all_templates acc')
  = List.length (CheckBridgeContracts.all_templates acc)
    + (if has_active_contract e then 1 else 0).
Proof.
  unfold CheckBridgeContracts.step.
  destruct (CheckBridgeContracts.extract e) as [found|x] eqn:He; simpl; [|discriminate].
  rewrite (extract_active e found He).
  destruct found as [[[tid args] cid]|]; intros H.
  - destruct (contains "BridgeInRequest" (str (numeral lib) tid)).
    + inv H. simpl. rewrite length_app. reflexivity.
    + destruct (contains "MUSD" (str (numeral lib) tid)
                || contains "MintedMUSD" (str (numeral lib) tid)
                || contains "CantonMUSD" (str (numeral lib) tid));
        inv H; simpl; rewrite length_app; reflexivity.
  - inv H. lia.
Qed.

Lemma steps_templates (lib : codec) (es : list json) :
  forall acc acc', CheckBridgeContracts.steps lib es acc = Ret acc' ->
  List.length (CheckBridgeContracts.all_templates acc')
  = List.length (CheckBridgeContracts.all_templates acc)
    + List.length (filter has_active_contract es).
Proof.
  induction es as [|e es IH]; simpl; intros acc acc' H.
  - inv H. lia.
  - destruct (CheckBridgeContracts.step lib e acc) as [a|x] eqn:Hs; simpl in H; [|discriminate].
    apply step_templates in Hs. apply IH in H.
    destruct (has_active_contract e); simpl; lia.
Qed.

Lemma sizes_add_event (short : string) (evt : json) (g : CheckCantonContracts.groups) :
  list_sum (CheckCantonContracts.sizes (CheckCantonContracts.add_event short evt g))
  = S (list_sum (CheckCantonContracts.sizes g)).
Proof.
  unfold CheckCantonContracts.sizes.
  induction g as [|[k evts] g IH]; simpl.
  - reflexivity.
  - destruct (String.eqb k short); simpl.
    + rewrite length_app. simpl. lia.
    + rewrite IH. lia.
Qed.

Lemma group_step_sizes (e : json) (g g' : CheckCantonContracts.groups) :
  CheckCantonContracts.step e g = Ret g' ->
  list_sum (CheckCantonContracts.sizes g')
  = list_sum (CheckCantonContracts.sizes g) + (if has_active_contract e then 1 else 0).
Proof.
  unfold CheckCantonContracts.step, has_active_contract, get_none, get.
  destruct e as [| | | | |m]; simpl; try discriminate.
  assert (skip : forall h : CheckCantonContracts.groups,
             Ret g = Ret h ->
             list_sum (CheckCantonContracts.sizes h)
             = list_sum (CheckCantonContracts.sizes g) + 0)
    by (intros h H; inv H; lia).
  destruct (lookup "contractEntry" m) as [ce|]; simpl; [|apply skip].
  destruct ce as [| | | | |w]; simpl; try discriminate.
  destruct (lookup "JsActiveContract" w) as [ac|]; simpl; [|apply skip].
  destruct (truthy ac); simpl; [|apply skip].
  destruct (getitem ac "createdEvent") as [evt|x]; simpl; [|discriminate].
  destruct (getitem evt "templateId") as [tid|x]; simpl; [|discriminate].
  destruct (split_colon tid) as [parts|x]; simpl; [|discriminate].
  intros H. inv H. rewrite sizes_add_event. lia.
Qed.

Lemma group_sizes (es : list json) :
  forall g g', CheckCantonContracts.group es g = Ret g' ->
  list_sum (CheckCantonContracts.sizes g')
  = list_sum (CheckCantonContracts.sizes g) + List.length (filter has_active_contract es).
Proof.
  induction es as [|e es IH]; simpl; intros g g' H.
  - inv H. lia.
  - destruct (CheckCantonContracts.step e g) as [g1|x] eqn:Hs; simpl in H; [|discriminate].
    apply group_step_sizes in Hs. apply IH in H.
    destruct (has_active_contract e); simpl; lia.
Qed.

(** C2, as amended.  The counts of the templates add up to the number
    of entries the script does not pass over: for check-acs.py the entries
    whose [contractEntry] is a dict, for check-bridge-contracts.py (which
    prints the length of the whole list as the total) and for
    check-canton-contracts.py the entries whose
    [contractEntry.JsActiveContract] is not empty. *)
Theorem C2_counts_add_up_to_counted_entries (lib : codec) (data : list json) :
  (forall contracts templates,
      CheckAcs.select data = Ret contracts ->
      CheckAcs.count_entries contracts [] = Ret templates ->
      total templates = List.length (filter has_dict_entry data))
  /\ (forall n counts,
         CheckBridgeContracts.tally lib (JArr data) = Ret (n, counts) ->
         n = List.length data
         /\ total counts = List.length (filter has_active_contract data))
  /\ (forall g,
         CheckCantonContracts.group data [] = Ret g ->
         list_sum (CheckCantonContracts.sizes g)
         = List.length (filter has_active_contract data)).
Proof.
  split; [|split].
  - intros contracts templates Hs Hc.
    apply count_entries_total in Hc. apply select_filter in Hs.
    rewrite Hs in Hc. exact Hc.
  - intros n counts. unfold CheckBridgeContracts.tally. simpl.
    destruct (CheckBridgeContracts.steps lib data (CheckBridgeContracts.mkLists [] [] []))
      as [acc|x] eqn:Hs; simpl; [|discriminate].
    destruct (Counter (CheckBridgeContracts.all_templates acc)) as [c|x] eqn:Hc;
      simpl; [|discriminate].
    intros H. inv H. split; [reflexivity|].
    apply total_Counter_from in Hc. apply steps_templates in Hs.
    simpl in Hs, Hc. lia.
  - intros g H. apply group_sizes in H. simpl in H. exact H.
Qed.

End Grouping.

Lemma C2_counts_add_up_to_counted_entries_witness :
  (total [(JStr "pkg:Mod:BridgeService", 1); (JStr "pkg:Mod:Token", 1)]
   = List.length (filter has_dict_entry [Fixture.bridge_entry; Fixture.token_entry; JObj []]))
  /\ (total [(JStr "pkg:Mod:BridgeService", 1)]
      = List.length (filter has_active_contract
                       [Fixture.bridge_entry; Fixture.token_entry; JObj []]))
  /\ (list_sum (CheckCantonContracts.sizes [("Mod:BridgeService", [Fixture.bridge_event])])
      = List.length (filter has_active_contract
                       [Fixture.bridge_entry; Fixture.token_entry; JObj []])).
Proof.
  destruct (C2_counts_add_up_to_counted_entries Lite.codec
              [Fixture.bridge_entry; Fixture.token_entry; JObj []]) as [H1 [H2 H3]].
  split; [|split].
  - apply (H1 [Fixture.bridge_entry; Fixture.token_entry]); reflexivity.
  - apply (H2 3). reflexivity.
  - apply H3. reflexivity.
Defined.

(** C2 as stated fails: check-bridge-contracts.py prints one entry in
    total and counts none of it when the event sits directly under
    [contractEntry]; check-acs.py keeps an entry whose [contractEntry] is
    not a dict in its total and counts it under no template. *)
Lemma C2_entry_in_no_bucket :
  CheckBridgeContracts.tally Lite.codec (JArr [Fixture.token_entry]) = Ret (1, [])
  /\ CheckAcs.select [JObj [("contractEntry", JNull)]] = Ret [JObj [("contractEntry", JNull)]]
  /\ CheckAcs.count_entries [JObj [("contractEntry", JNull)]] [] = Ret []
  /\ CheckCantonContracts.group [Fixture.token_entry] [] = Ret []
  /\ total [] = 0.
Proof. repeat split. Qed.

(** ** The illustrative scenario *)

(** C3, as amended.  The ledger end answers an offset and the active
    contracts are two entries sent as one JSON array, the first with an
    event under [contractEntry.JsActiveContract] and the second with an
    event directly under [contractEntry], of two different templates:
    check-acs.py runs to its end, asks each endpoint once, and prints the
    offset, a total of two contracts and one line for each template with
    the count 1, the lower template first.  Nothing else of the events is
    read: whatever their [createArgument] and their other fields, these
    lines are all the report. *)
Theorem C3_scenario_one_bridge_one_token (lib : codec) (w : world) (raw0 raw1 : string)
    (doc offset : json) (first second : list (string * json)) (t1 t2 : string) :
  net w (n_req w) = Body raw0 ->
  loads_bytes lib raw0 = Ret doc ->
  getitem doc "offset" = Ret offset ->
  net w (S (n_req w)) = Body raw1 ->
  loads_bytes lib raw1
  = Ret (JArr [entry (wrapped "JsActiveContract" (JObj first)); entry (flat (JObj second))]) ->
  lookup "templateId" first = Some (JStr t1) ->
  lookup "templateId" second = Some (JStr t2) ->
  lookup "createdEvent" second = None ->
  t1 <> t2 ->
  fst (CheckAcs.main lib w) = Ret tt
  /\ out (snd (CheckAcs.main lib w))
     = out w
       ++ [Req "http://localhost:7575/v2/state/ledger-end" None;
           Print "Ledger offset: {offset}" [offset];
           Req "http://localhost:7575/v2/state/active-contracts"
               (Some (CheckAcs.body offset));
           Print "Total active contracts: {len(contracts)}" [JNum (inject_Z 2)]]
       ++ (if String.ltb t1 t2
           then [Print "  [{count}x] {t}" [JNum (inject_Z 1); JStr t1];
                 Print "  [{count}x] {t}" [JNum (inject_Z 1); JStr t2]]
           else [Print "  [{count}x] {t}" [JNum (inject_Z 1); JStr t2];
                 Print "  [{count}x] {t}" [JNum (inject_Z 1); JStr t1]]).
Proof.
  intros H0 Hdoc Hoff H1 Hdata Ht1 Ht2 Hplain Hne.
  assert (Hcount : CheckAcs.count_entries
                     [entry (wrapped "JsActiveContract" (JObj first)); entry (flat (JObj second))]
                     []
                   = Ret [(JStr t1, 1); (JStr t2, 1)]).
  { cbn [CheckAcs.count_entries CheckAcs.count_entry entry wrapped flat getitem lookup
         String.eqb Ascii.eqb Bool.eqb rbind CheckAcs.probe_items get].
    rewrite Ht1. cbn [rbind bump hashable bump_at CheckAcs.probe_items].
    rewrite Hplain. cbn [String.eqb Ascii.eqb Bool.eqb get rbind]. rewrite Ht2.
    cbn [rbind bump hashable bump_at key_eqb].
    destruct (String.eqb_spec t1 t2) as [E|_]; [contradiction|]. reflexivity. }
  destruct (CheckAcs.main lib w) as [r w'] eqn:E. cbn [fst snd]. revert E.
  unfold CheckAcs.main.
  unfold bind at 1, urlopen_read at 1. rewrite H0.
  unfold bind at 1, lift at 1. rewrite Hdoc.
  unfold bind at 1, lift at 1. rewrite Hoff.
  unfold bind at 1, print at 1, emit. cbn [net n_req out clock rng n_clock n_rng].
  unfold bind at 1, urlopen_read at 1. cbn [net n_req out clock rng n_clock n_rng].
  rewrite H1.
  unfold bind at 1, lift at 1. rewrite Hdata.
  cbn [CheckAcs.report].
  unfold bind at 1, lift at 1.
  change (CheckAcs.select
            [entry (wrapped "JsActiveContract" (JObj first)); entry (flat (JObj second))])
    with (Ret [entry (wrapped "JsActiveContract" (JObj first)); entry (flat (JObj second))]).
  unfold bind at 1, print at 1, emit. cbn [net n_req out clock rng n_clock n_rng List.length].
  unfold bind at 1, lift at 1. rewrite Hcount.
  unfold bind at 1, lift at 1.
  cbn [sorted_items insert_item rbind fst key_ltb].
  destruct (String.ltb t1 t2);
    cbn [CheckAcs.print_counts]; unfold bind, print, emit, ret;
    cbn [net n_req out clock rng n_clock n_rng];
    intros E; inversion E; subst; clear E;
    (split; [reflexivity|]); cbn [out]; rewrite <- !app_assoc; reflexivity.
Qed.

Lemma C3_scenario_one_bridge_one_token_witness :
  fst (CheckAcs.main Lite.codec (Fixture.start (Fixture.serving Fixture.array_body))) = Ret tt
  /\ out (snd (CheckAcs.main Lite.codec (Fixture.start (Fixture.serving Fixture.array_body))))
     = [Req "http://localhost:7575/v2/state/ledger-end" None;
        Print "Ledger offset: {offset}" [JNum (inject_Z 42)];
        Req "http://localhost:7575/v2/state/active-contracts"
            (Some (CheckAcs.body (JNum (inject_Z 42))));
        Print "Total active contracts: {len(contracts)}" [JNum (inject_Z 2)];
        Print "  [{count}x] {t}" [JNum (inject_Z 1); JStr "pkg:Mod:BridgeService"];
        Print "  [{count}x] {t}" [JNum (inject_Z 1); JStr "pkg:Mod:Token"]].
Proof.
  apply (C3_scenario_one_bridge_one_token Lite.codec
           (Fixture.start (Fixture.serving Fixture.array_body))
           Fixture.ledger_end_body Fixture.array_body
           (JObj [("offset", JNum (inject_Z 42))]) (JNum (inject_Z 42))
           [("templateId", JStr "pkg:Mod:BridgeService"); ("contractId", JStr "c1");
            ("createArgument", JObj [("paused", JBool false)])]
           [("templateId", JStr "pkg:Mod:Token"); ("contractId", JStr "c2");
            ("createArgument", JObj [("amount", JStr "5.0")])]
           "pkg:Mod:BridgeService" "pkg:Mod:Token");
    try reflexivity.
  discriminate.
Defined.

(** C3 as stated fails: the report of check-acs.py carries no payload.
    The scenario and the same two contracts with other payloads, both
    decoded as they were sent, give the same lines: the offset, the
    total and the two counts. *)
Lemma C3_payload_not_reported :
  loads_bytes Lite.codec Fixture.array_body
  = Ret (JArr [entry (wrapped "JsActiveContract"
                        (event "pkg:Mod:BridgeService" "c1" (JObj [("paused", JBool false)])));
               entry (flat (event "pkg:Mod:Token" "c2" (JObj [("amount", JStr "5.0")])))])
  /\ loads_bytes Lite.codec Fixture.altered_body
     = Ret (JArr [entry (wrapped "JsActiveContract"
                           (event "pkg:Mod:BridgeService" "c1" (JObj [("paused", JBool true)])));
                  entry (flat (event "pkg:Mod:Token" "c2" (JObj [("amount", JStr "999.0")])))])
  /\ out (snd (CheckAcs.main Lite.codec (Fixture.start (Fixture.serving Fixture.array_body))))
     = [Req "http://localhost:7575/v2/state/ledger-end" None;
        Print "Ledger offset: {offset}" [JNum (inject_Z 42)];
        Req "http://localhost:7575/v2/state/active-contracts"
            (Some (CheckAcs.body (JNum (inject_Z 42))));
        Print "Total active contracts: {len(contracts)}" [JNum (inject_Z 2)];
        Print "  [{count}x] {t}" [JNum (inject_Z 1); JStr "pkg:Mod:BridgeService"];
        Print "  [{count}x] {t}" [JNum (inject_Z 1); JStr "pkg:Mod:Token"]]
  /\ out (snd (CheckAcs.main Lite.codec (Fixture.start (Fixture.serving Fixture.altered_body))))
     = out (snd (CheckAcs.main Lite.codec (Fixture.start (Fixture.serving Fixture.array_body)))).
Proof. vm_compute. repeat split. Qed.

(** ** Counting the runs that repeat an identifier *)

Section Chances.
Import Generation.

Context {A : Type}.
Variable f : A -> string.
Variable alpha : list A.
Hypothesis distinct : NoDup (map f alpha).

Lemma length_flat_map_sum {B C : Type} (g : B -> list C) (l : list B) :
  List.length (flat_map g l) = list_sum (map (fun x => List.length (g x)) l).
Proof.
  induction l as [|x l IH]; simpl; [reflexivity|].
  rewrite length_app, IH. reflexivity.
Qed.

Lemma filter_flat_map {B C : Type} (p : C -> bool) (g : B -> list C) (l : list B) :
  filter p (flat_map g l) = flat_map (fun x => filter p (g x)) l.
Proof.
  induction l as [|x l IH]; simpl; [reflexivity|].
  rewrite filter_app, IH. reflexivity.
Qed.

Lemma filter_map_cons {B : Type} (p : list B -> bool) (x : B) (l : list (list B)) :
  List.length (filter p (map (cons x) l))
  = List.length (filter (fun t => p (x :: t)) l).
Proof.
  induction l as [|t l IH]; simpl; [reflexivity|].
  destruct (p (x :: t)); simpl; rewrite IH; reflexivity.
Qed.

Lemma filter_or_le {B : Type} (p q : B -> bool) (l : list B) :
  List.length (filter (fun x => p x || q x) l)
  <= List.length (filter p l) + List.length (filter q l).
Proof.
  induction l as [|x l IH]; simpl; [lia|].
  destruct (p x), (q x); simpl; lia.
Qed.

Lemma list_sum_le {B : Type} (g h : B -> nat) (l : list B) :
  (forall x, In x l -> g x <= h x) -> list_sum (map g l) <= list_sum (map h l).
Proof.
  induction l as [|x l IH]; simpl; intros H; [lia|].
  assert (g x <= h x) by (apply H; now left).
  assert (list_sum (map g l) <= list_sum (map h l)) by (apply IH; intros y Hy; apply H; now right).
  lia.
Qed.

Lemma list_sum_plus {B : Type} (g h : B -> nat) (l : list B) :
  list_sum (map (fun x => g x + h x) l) = list_sum (map g l) + list_sum (map h l).
Proof. induction l as [|x l IH]; simpl; lia. Qed.

Lemma list_sum_const {B : Type} (c : nat) (l : list B) :
  list_sum (map (fun _ => c) l) = List.length l * c.
Proof. induction l as [|x l IH]; simpl; lia. Qed.

(** Counting the pairs of a relation by rows or by columns. *)
Lemma count_swap {B C : Type} (r : B -> C -> bool) (xs : list B) (ys : list C) :
  list_sum (map (fun x => List.length (filter (r x) ys)) xs)
  = list_sum (map (fun y => List.length (filter (fun x => r x y) xs)) ys).
Proof.
  induction xs as [|x xs IH]; simpl.
  - induction ys as [|y ys IHy]; simpl; [reflexivity|exact IHy].
  - rewrite IH. clear IH.
    induction ys as [|y ys IHy]; simpl; [reflexivity|].
    destruct (r x y); simpl; lia.
Qed.

Lemma length_lists {B : Type} (letters : list B) (n : nat) :
  List.length (lists n letters) = List.length letters ^ n.
Proof.
  induction n as [|n IH]; [reflexivity|].
  cbn [lists]. rewrite length_flat_map_sum.
  rewrite (map_ext _ (fun _ => List.length (lists n letters)))
    by (intros x; apply length_map).
  rewrite list_sum_const, IH. rewrite Nat.pow_succ_r'. reflexivity.
Qed.

Lemma in_lists {B : Type} (letters : list B) (n : nat) (l : list B) :
  In l (lists n letters) <-> List.length l = n /\ Forall (fun x => In x letters) l.
Proof.
  revert l. induction n as [|n IH]; intros l; cbn [lists].
  - split.
    + intros [<-|[]]. split; constructor.
    + intros [Hl _]. destruct l; [now left|discriminate].
  - rewrite in_flat_map. split.
    + intros (x & Hx & Hin). apply in_map_iff in Hin. destruct Hin as (t & <- & Ht).
      apply IH in Ht. destruct Ht as [Hl Hall]. split; [simpl; now rewrite Hl|].
      constructor; assumption.
    + intros [Hl Hall]. destruct l as [|x t]; [discriminate|].
      inversion Hall; subst. exists x. split; [assumption|].
      apply in_map, IH. split; [now injection Hl|assumption].
Qed.

Lemma filter_none {B : Type} (p : B -> bool) (l : list B) :
  (forall x, In x l -> p x = false) -> filter p l = [].
Proof.
  induction l as [|x l IH]; simpl; intros H; [reflexivity|].
  rewrite (H x) by now left. apply IH. intros y Hy. apply H. now right.
Qed.

(** An item of the alphabet is found by its identifier at most once. *)
Lemma at_most_one (v : string) :
  List.length (filter (fun x => String.eqb (f x) v) alpha) <= 1.
Proof.
  clear - distinct. induction alpha as [|a l IH]; simpl; [lia|].
  inversion distinct as [|? ? Hnot Hnd]; subst.
  destruct (String.eqb_spec (f a) v) as [E|_]; [|now apply IH].
  simpl. rewrite filter_none; [simpl; lia|].
  intros x Hx.
  destruct (String.eqb_spec (f x) v) as [E'|_]; [|reflexivity].
  exfalso. apply Hnot. rewrite E, <- E'. now apply in_map.
Qed.

(** No more items are found in a list than the list is long. *)
Lemma found_le (vs : list string) :
  List.length (filter (fun x => existsb (String.eqb (f x)) vs) alpha) <= List.length vs.
Proof.
  induction vs as [|v vs IH]; simpl.
  - rewrite filter_none; [simpl; lia|]. reflexivity.
  - pose proof (filter_or_le (fun x => String.eqb (f x) v)
                  (fun x => existsb (String.eqb (f x)) vs) alpha) as H.
    pose proof (at_most_one v). lia.
Qed.

(** Of the lists of [n] items, at most [n (n - 1) / 2] times the number
    of lists of [n - 1] items give one identifier twice. *)
Lemma repeats_bound (n : nat) :
  2 * List.length (filter (fun l => repeats (map f l)) (lists n alpha))
  <= n * (n - 1) * List.length alpha ^ (n - 1).
Proof.
  induction n as [|n IH]; [simpl; lia|].
  cbn [lists]. rewrite filter_flat_map, length_flat_map_sum.
  rewrite (map_ext _ (fun x => List.length
             (filter (fun t => existsb (String.eqb (f x)) (map f t) || repeats (map f t))
                     (lists n alpha))))
    by (intros x; apply filter_map_cons).
  set (D := List.length (filter (fun l => repeats (map f l)) (lists n alpha))) in *.
  set (c := fun x => List.length (filter (fun t => existsb (String.eqb (f x)) (map f t))
                                         (lists n alpha))).
  assert (H1 : list_sum (map (fun x => List.length
                 (filter (fun t => existsb (String.eqb (f x)) (map f t) || repeats (map f t))
                         (lists n alpha))) alpha)
               <= list_sum (map c alpha) + List.length alpha * D).
  { rewrite <- list_sum_const, <- list_sum_plus. apply list_sum_le.
    intros x _. apply filter_or_le. }
  assert (H2 : list_sum (map c alpha) <= n * List.length alpha ^ n).
  { unfold c.
    rewrite (count_swap (fun x t => existsb (String.eqb (f x)) (map f t)) alpha (lists n alpha)).
    rewrite <- length_lists, Nat.mul_comm, <- list_sum_const.
    apply list_sum_le. intros t Ht. apply in_lists in Ht. destruct Ht as [Hl _].
    rewrite <- Hl, <- (length_map f t). apply found_le. }
  replace (S n - 1) with n by lia.
  destruct n as [|k].
  - assert (D = 0) by (unfold D; reflexivity). simpl in *. lia.
  - replace (S k - 1) with k in IH by lia.
    rewrite Nat.pow_succ_r' in *.
    set (P := List.length alpha ^ k) in *.
    set (M := List.length alpha) in *.
    assert (2 * (M * D) <= M * (S k * k * P)) by nia.
    nia.
Qed.

End Chances.

(** ** Command identifiers *)

Section Identifiers.
Import BootstrapHttp Generation.

Lemma length_append (a b : string) :
  String.length (a ++ b) = String.length a + String.length b.
Proof. induction a as [|c a IH]; simpl; [reflexivity|now rewrite IH]. Qed.

Lemma append_inj (a b x y : string) :
  String.length a = String.length b -> (a ++ x)%string = (b ++ y)%string -> a = b /\ x = y.
Proof.
  revert b. induction a as [|c a IH]; intros [|d b]; simpl; try discriminate.
  - intros _ H. split; [reflexivity|exact H].
  - intros Hl H. injection H as Hc Hr. injection Hl as Hl.
    destruct (IH b Hl Hr) as [-> ->]. subst. split; reflexivity.
Qed.

Lemma str_of_int_inj (m n : Z) : str_of_int m = str_of_int n -> m = n.
Proof.
  assert (back : forall d, exists d',
             NilZero.int_of_string (NilZero.string_of_int d) = Some d'
             /\ Z.of_int d' = Z.of_int d).
  { intros [u|u].
    - destruct u; try (eexists; split; [apply NilZero.isi; discriminate|reflexivity]).
      exists (Decimal.Pos Decimal.zero). split; reflexivity.
    - destruct u; try (eexists; split; [apply NilZero.isi; discriminate|reflexivity]).
      exists (Decimal.Neg (Decimal.D0 Decimal.Nil)). split; reflexivity. }
  unfold str_of_int. intros H.
  destruct (back (Z.to_int m)) as [dm [Hm Em]].
  destruct (back (Z.to_int n)) as [dn [Hn En]].
  rewrite H, Hn in Hm. injection Hm as <-.
  rewrite <- (DecimalZ.of_to m), <- (DecimalZ.of_to n). congruence.
Qed.

Lemma cmd_id_text_inj (t1 t2 : Z) (s1 s2 : string) :
  String.length s1 = String.length s2 ->
  cmd_id_text t1 s1 = cmd_id_text t2 s2 -> t1 = t2 /\ s1 = s2.
Proof.
  unfold cmd_id_text. intros Hl H. simpl in H.
  injection H as H.
  assert (Hlen := f_equal String.length H).
  rewrite !length_append in Hlen. simpl in Hlen.
  apply append_inj in H; [|lia].
  destruct H as [Ht Hs]. injection Hs as Hs.
  split; [apply str_of_int_inj; exact Ht|exact Hs].
Qed.

Lemma suffix_length (rng : nat -> nat) (n : nat) : String.length (suffix rng n) = 6.
Proof. reflexivity. Qed.

Lemma pick_lower (d : nat) : is_lower (pick ascii_lowercase d) = true.
Proof.
  unfold pick. change (String.length ascii_lowercase) with 26.
  assert (Hd : d mod 26 < 26) by (apply Nat.mod_upper_bound; discriminate).
  generalize dependent (d mod 26). intros i Hi.
  do 26 (destruct i as [|i]; [reflexivity|]). lia.
Qed.

Lemma suffix_lower (rng : nat -> nat) (n : nat) :
  forallb is_lower (list_ascii_of_string (suffix rng n)) = true.
Proof.
  unfold suffix. rewrite list_ascii_of_string_of_list_ascii.
  apply forallb_forall. intros c Hc. apply in_map_iff in Hc.
  destruct Hc as [i [<- _]]. apply pick_lower.
Qed.

Lemma cmd_id_run (w : world) :
  cmd_id w
  = (Ret (cmd_id_text (clock w (n_clock w)) (suffix (rng w) (n_rng w))),
     mkWorld (net w) (clock w) (rng w) (n_req w) (S (n_clock w)) (6 + n_rng w) (out w)).
Proof. reflexivity. Qed.

Lemma generate_run (n : nat) :
  forall w,
    fst (generate n w)
    = Ret (map (fun i => cmd_id_text (clock w (i + n_clock w))
                                     (suffix (rng w) (6 * i + n_rng w)))
               (seq 0 n)).
Proof.
  induction n as [|n IH]; intros w.
  - reflexivity.
  - cbn [generate]. unfold bind at 1. rewrite cmd_id_run.
    unfold bind at 1.
    specialize (IH (mkWorld (net w) (clock w) (rng w) (n_req w)
                      (S (n_clock w)) (6 + n_rng w) (out w))).
    destruct (generate n _) as [[ids|e] w'] eqn:Hg; simpl in IH; [|discriminate].
    injection IH as ->. simpl. f_equal. f_equal.
    rewrite <- seq_shift, map_map. apply map_ext. intros i.
    f_equal; f_equal; lia.
Qed.

Lemma NoDup_lists {B : Type} (letters : list B) (n : nat) :
  NoDup letters -> NoDup (lists n letters).
Proof.
  intros Hnd. induction n as [|n IH]; cbn [lists].
  - constructor; [intros []|constructor].
  - generalize Hnd. generalize letters at 1 3. intros xs Hxs.
    induction xs as [|x xs IHx]; simpl; [constructor|].
    inversion Hxs as [|? ? Hx Hxs']; subst.
    apply NoDup_app.
    + apply NoDup_map_NoDup_ForallPairs; [|exact IH].
      intros a b _ _ H. now injection H.
    + apply IHx, Hxs'.
    + intros l Hl Hl'. apply in_map_iff in Hl. destruct Hl as (t & <- & _).
      apply in_flat_map in Hl'. destruct Hl' as (y & Hy & Hin).
      apply in_map_iff in Hin. destruct Hin as (t' & E & _).
      injection E as -> _. contradiction.
Qed.

Lemma pick_mod (d : nat) : pick ascii_lowercase d = pick ascii_lowercase (d mod 26).
Proof.
  unfold pick. change (String.length ascii_lowercase) with 26.
  rewrite Nat.Div0.mod_mod. reflexivity.
Qed.

(** Below 26 the rank of the letter picked is the draw. *)
Lemma pick_rank (d : nat) : d < 26 -> nat_of_ascii (pick ascii_lowercase d) = 97 + d.
Proof.
  intros Hd. do 26 (destruct d as [|d]; [reflexivity|]).
  exfalso. clear - Hd. lia.
Qed.

Lemma pick_inj (a b : nat) :
  a < 26 -> b < 26 -> pick ascii_lowercase a = pick ascii_lowercase b -> a = b.
Proof.
  intros Ha Hb H. apply (f_equal nat_of_ascii) in H.
  rewrite (pick_rank a Ha), (pick_rank b Hb) in H. lia.
Qed.

Lemma length_word (ds : list nat) : String.length (word ds) = List.length ds.
Proof. unfold word. induction ds as [|d ds IH]; simpl; [reflexivity|now rewrite IH]. Qed.

Lemma word_inj (a b : list nat) :
  Forall (fun d => d < 26) a -> Forall (fun d => d < 26) b -> word a = word b -> a = b.
Proof.
  unfold word. intros Ha Hb H. apply (f_equal list_ascii_of_string) in H.
  rewrite !list_ascii_of_string_of_list_ascii in H.
  revert b Hb H. induction Ha as [|x a Hx Ha IH]; intros [|y b] Hb H; try discriminate.
  - reflexivity.
  - inversion Hb; subst. injection H as Hxy Hab.
    f_equal; [now apply pick_inj|now apply IH].
Qed.

Lemma suffix_word (rng : nat -> nat) (n : nat) :
  suffix rng n = word (map (fun k => rng (k + n) mod 26) (seq 0 6)).
Proof.
  unfold suffix, word. rewrite map_map. f_equal. apply map_ext. intros k. apply pick_mod.
Qed.

Lemma selection_below (k : nat) (ds : list nat) :
  In ds (selections k) <-> List.length ds = k /\ Forall (fun d => d < 26) ds.
Proof.
  unfold selections. rewrite in_lists. split; intros [Hl Hall]; (split; [exact Hl|]).
  - eapply Forall_impl; [|exact Hall]. intros d Hd. apply in_seq in Hd. cbv beta. lia.
  - eapply Forall_impl; [|exact Hall]. intros d Hd. cbv beta in Hd. apply in_seq. lia.
Qed.

Lemma draws_selected (rng : nat -> nat) (n : nat) :
  In (map (fun k => rng (k + n) mod 26) (seq 0 6)) (selections 6).
Proof.
  apply selection_below. split; [now rewrite length_map, length_seq|].
  apply Forall_forall. intros d Hd. apply in_map_iff in Hd. destruct Hd as (k & <- & _).
  apply Nat.mod_upper_bound. discriminate.
Qed.

Lemma text_inj (t1 t2 : Z) (a b : list nat) (k : nat) :
  In a (selections k) -> In b (selections k) ->
  cmd_id_text t1 (word a) = cmd_id_text t2 (word b) -> t1 = t2 /\ a = b.
Proof.
  intros Ha Hb H. apply selection_below in Ha, Hb.
  destruct Ha as [La Fa], Hb as [Lb Fb].
  apply cmd_id_text_inj in H; [|rewrite !length_word; congruence].
  destruct H as [Ht Hw]. split; [exact Ht|]. now apply word_inj.
Qed.

Lemma nth_seq_id {B : Type} (l : list B) (d : B) :
  map (fun i => nth i l d) (seq 0 (List.length l)) = l.
Proof.
  induction l as [|x l IH]; [reflexivity|].
  cbn [List.length seq map nth]. f_equal.
  rewrite <- seq_shift, map_map. exact IH.
Qed.

Lemma nth_concat_block (run : list (list nat)) :
  Forall (fun ds => List.length ds = 6) run ->
  forall i k, i < List.length run -> k < 6 ->
  nth (k + 6 * i) (concat run) 0 = nth k (nth i run []) 0.
Proof.
  induction 1 as [|b run Hb Hrun IH]; intros i k Hi Hk; [inversion Hi|].
  cbv beta in Hb. cbn [concat]. destruct i as [|i].
  - rewrite Nat.mul_0_r, Nat.add_0_r. change (nth 0 (b :: run) []) with b.
    apply app_nth1. rewrite Hb. exact Hk.
  - replace (k + 6 * S i) with (List.length b + (k + 6 * i)) by (rewrite Hb; lia).
    rewrite app_nth2_plus. change (nth (S i) (b :: run) []) with (nth i run []).
    apply IH; [simpl in Hi; lia|exact Hk].
Qed.

(** A run of draws played again: the identifiers of [n] calls within
    the second [t] are those of its selections. *)
Lemma replay_run (net : nat -> response) (t : Z) (n : nat) (run : list (list nat)) :
  In run (runs n) ->
  fst (generate n (boot net (fun _ => t) (replay run)))
  = Ret (map (fun ds => cmd_id_text t (word ds)) run).
Proof.
  intros Hin. unfold runs in Hin. apply in_lists in Hin. destruct Hin as [Hn Hall].
  rewrite generate_run. cbn [boot clock rng n_clock n_rng]. f_equal.
  transitivity (map (fun ds => cmd_id_text t (word ds)) (map (fun i => nth i run []) (seq 0 n)));
    [|rewrite <- Hn, nth_seq_id; reflexivity].
  rewrite map_map.
  apply map_ext_in. intros i Hi. apply in_seq in Hi. f_equal.
  assert (Hb : In (nth i run []) (selections 6)).
  { rewrite Forall_forall in Hall. apply Hall, nth_In. lia. }
  apply selection_below in Hb. destruct Hb as [Hl Hlow].
  rewrite suffix_word. f_equal.
  transitivity (map (fun k => nth k (nth i run []) 0) (seq 0 6));
    [|rewrite <- Hl; apply nth_seq_id].
  apply map_ext_in. intros k Hk. apply in_seq in Hk. unfold replay.
  rewrite Nat.add_0_r, nth_concat_block; [| |lia|lia].
  - apply Nat.mod_small. rewrite Forall_forall in Hlow.
    apply (Hlow (nth k (nth i run []) 0)), nth_In. lia.
  - eapply Forall_impl; [|exact Hall]. intros b Hb. apply selection_below in Hb. cbv beta. apply Hb.
Qed.

Lemma repeats_NoDup (ids : list string) : repeats ids = false <-> NoDup ids.
Proof.
  induction ids as [|id rest IH]; cbn [repeats].
  - split; [constructor|reflexivity].
  - rewrite orb_false_iff, IH. split.
    + intros [Hex Hnd]. constructor; [|exact Hnd].
      intros Hin. assert (Ht : existsb (String.eqb id) rest = true).
      { apply existsb_exists. exists id. split; [exact Hin|apply String.eqb_refl]. }
      congruence.
    + intros Hnd. inversion Hnd as [|? ? Hnot Hrest]; subst. split; [|exact Hrest].
      destruct (existsb (String.eqb id) rest) eqn:E; [|reflexivity].
      apply existsb_exists in E. destruct E as (x & Hx & Heq).
      apply String.eqb_eq in Heq. subst. contradiction.
Qed.

(** C7.  An identifier is [init-], the whole seconds of the clock, a
    dash and six lower-case letters, each picked by one draw of the
    generator.  Two identifiers of one run are equal exactly when their
    seconds are equal and their six draws pick the same letters; so [n]
    successive identifiers are pairwise different exactly when the pairs
    of seconds and picks are.  Each call picks one of the [26 ^ 6]
    selections of six letters; every run of [n] such selections can be
    drawn, and within one second [t] it gives the identifiers of its
    selections; of all these runs at most [n (n - 1) / 2] in [26 ^ 6]
    give some identifier twice. *)
Theorem C7_cmd_id_collides_only_on_clock_and_suffix (w : world) (n : nat) :
  let seconds i := clock w (i + n_clock w) in
  let draws i := map (fun k => rng w (k + (6 * i + n_rng w)) mod 26) (seq 0 6) in
  let ids := map (fun i => cmd_id_text (seconds i) (word (draws i))) (seq 0 n) in
  fst (cmd_id w) = Ret ("init-" ++ str_of_int (seconds 0) ++ "-" ++ word (draws 0))%string
  /\ String.length (word (draws 0)) = 6
  /\ forallb is_lower (list_ascii_of_string (word (draws 0))) = true
  /\ fst (generate n w) = Ret ids
  /\ (forall i j,
         cmd_id_text (seconds i) (word (draws i)) = cmd_id_text (seconds j) (word (draws j))
         <-> seconds i = seconds j /\ draws i = draws j)
  /\ (NoDup ids <-> NoDup (map (fun i => (seconds i, draws i)) (seq 0 n)))
  /\ (forall i, In (draws i) (selections 6))
  /\ List.length (selections 6) = 26 ^ 6
  /\ List.length (runs n) = (26 ^ 6) ^ n
  /\ (forall net t run,
         In run (runs n) ->
         fst (generate n (boot net (fun _ => t) (replay run)))
         = Ret (map (fun ds => cmd_id_text t (word ds)) run))
  /\ (forall t,
         2 * List.length (filter (fun run => repeats (map (fun ds => cmd_id_text t (word ds)) run))
                                 (runs n))
         <= n * (n - 1) * (26 ^ 6) ^ (n - 1))
  /\ (forall l, repeats l = false <-> NoDup l).
Proof.
  intros seconds draws ids.
  assert (Hsel : List.length (selections 6) = 26 ^ 6).
  { unfold selections. rewrite length_lists, length_seq. reflexivity. }
  assert (inj : forall i j,
             cmd_id_text (seconds i) (word (draws i)) = cmd_id_text (seconds j) (word (draws j))
             <-> seconds i = seconds j /\ draws i = draws j).
  { intros i j. split.
    - apply (text_inj _ _ _ _ 6); apply draws_selected.
    - intros [-> ->]. reflexivity. }
  split; [|split; [|split; [|split; [|split; [|split; [|split; [|split; [|split; [|split; [|split]]]]]]]]]].
  - rewrite cmd_id_run. cbn [fst]. rewrite suffix_word. reflexivity.
  - rewrite length_word. reflexivity.
  - unfold draws. rewrite <- (suffix_word (rng w) (6 * 0 + n_rng w)). apply suffix_lower.
  - rewrite generate_run. unfold ids. f_equal. apply map_ext. intros i.
    rewrite suffix_word. reflexivity.
  - exact inj.
  - set (pairs := map (fun i => (seconds i, draws i)) (seq 0 n)).
    assert (E : ids = map (fun p : Z * list nat => cmd_id_text (fst p) (word (snd p))) pairs).
    { unfold ids, pairs. rewrite map_map. reflexivity. }
    rewrite E. split.
    + apply NoDup_map_inv.
    + apply NoDup_map_NoDup_ForallPairs.
      intros [t1 s1] [t2 s2] H1 H2 H. cbn [fst snd] in H.
      unfold pairs in H1, H2. apply in_map_iff in H1, H2.
      destruct H1 as [i [Hi _]], H2 as [j [Hj _]].
      injection Hi as <- <-. injection Hj as <- <-.
      apply inj in H. destruct H as [-> ->]. reflexivity.
  - intros i. apply draws_selected.
  - exact Hsel.
  - unfold runs. rewrite length_lists, Hsel. reflexivity.
  - intros net t run. apply replay_run.
  - intros t. unfold runs. rewrite <- Hsel. apply repeats_bound.
    apply NoDup_map_NoDup_ForallPairs.
    + intros a b Ha Hb H. now apply (text_inj t t a b 6).
    + apply NoDup_lists, seq_NoDup.
  - apply repeats_NoDup.
Qed.

End Identifiers.

(** ** Command submission *)

Section Submission.
Import BootstrapHttp Generation.

Variable lib : codec.

Lemma submit_sends (act_as read_as commands : json) (w : world) :
  out (snd (submit lib act_as read_as commands w))
  = out w ++ [Req "http://localhost:7575/v2/commands/submit-and-wait"
                (Some (envelope act_as read_as commands
                         (cmd_id_text (clock w (n_clock w)) (suffix (rng w) (n_rng w)))))].
Proof.
  unfold submit, bind at 1. rewrite cmd_id_run.
  unfold try_except, bind, urlopen_read, lift, ret, raise. cbn [net n_req out clock rng].
  destruct (net w (n_req w)) as [raw|e].
  - destruct (decode lib raw) as [text|e]; cbn.
    + destruct (loads lib text) as [result|e]; cbn; [reflexivity|].
      destruct e; cbn; try reflexivity.
      destruct (decode lib body); reflexivity.
    + destruct e; cbn; try reflexivity.
      destruct (decode lib body); reflexivity.
  - destruct e; cbn; try reflexivity.
    destruct (decode lib body); reflexivity.
Qed.

(** C9.  [submit] sends an envelope whose [actAs] is the list given or
    the one-element list of the value given, and whose [readAs] is the
    list given or, for any other value, a single party string included,
    the empty list; [create_contract] passes its reading parties through
    [submit], so it sends the same. *)
Theorem C9_act_as_wrapped_read_as_dropped
    (act_as read_as commands payload : json) (module_ entity party : string) (w : world) :
  let id := cmd_id_text (clock w (n_clock w)) (suffix (rng w) (n_rng w)) in
  (exists body,
      out (snd (submit lib act_as read_as commands w)) = out w ++ [Req "http://localhost:7575/v2/commands/submit-and-wait" (Some body)]
      /\ get body "actAs" JNull = Ret (if is_list act_as then act_as else JArr [act_as])
      /\ get body "readAs" JNull = Ret (if is_list read_as then read_as else JArr []))
  /\ (exists body,
         out (snd (create_contract lib module_ entity payload act_as read_as w))
         = out w ++ [Req "http://localhost:7575/v2/commands/submit-and-wait" (Some body)]
         /\ get body "actAs" JNull = Ret (if is_list act_as then act_as else JArr [act_as])
         /\ get body "readAs" JNull = Ret (if is_list read_as then read_as else JArr []))
  /\ get (envelope (JStr party) (JStr party) commands id) "actAs" JNull
     = Ret (JArr [JStr party])
  /\ get (envelope (JStr party) (JStr party) commands id) "readAs" JNull = Ret (JArr []).
Proof.
  intros id. split; [|split; [|split; reflexivity]].
  - eexists. split; [apply submit_sends|]. split; reflexivity.
  - unfold create_contract. eexists. split; [apply submit_sends|].
    split; [reflexivity|]. simpl.
    destruct read_as as [|b|q|t|l|m]; simpl; try reflexivity.
    + destruct b; reflexivity.
    + destruct (negb (Qeq_bool q 0)); reflexivity.
    + destruct (negb (String.eqb t "")); reflexivity.
    + destruct l; reflexivity.
    + destruct m; reflexivity.
Qed.

(** C4, as amended.  [submit] sends the command once.  An answer whose
    body decodes to a JSON document gives [(True, document)]; an answer
    with an error status ([HTTPError]) gives [(False, body)]; any other
    failure of the transport (no connection, a reset, a timeout) is not
    caught and leaves [submit] as the exception that was raised. *)
Theorem C4_submit_catches_http_errors_only
    (act_as read_as commands : json) (w : world) :
  let answer := net w (n_req w) in
  let run := submit lib act_as read_as commands w in
  (forall raw text result,
      answer = Body raw -> decode lib raw = Ret text -> loads lib text = Ret result ->
      fst run = Ret (true, result))
  /\ (forall code bytes err,
         answer = Fails (HTTPError code bytes) -> decode lib bytes = Ret err ->
         fst run = Ret (false, JStr err))
  /\ (forall e,
         answer = Fails e -> is_HTTPError e = false -> fst run = Raise e)
  /\ requests (out (snd run)) = requests (out w) ++ ["http://localhost:7575/v2/commands/submit-and-wait"].
Proof.
  intros answer run. subst answer run.
  repeat split.
  - intros raw text result Ha Hd Hl.
    unfold submit, bind at 1. rewrite cmd_id_run.
    unfold try_except, bind, urlopen_read, lift, ret. cbn [net n_req out clock rng].
    rewrite Ha, Hd. cbn. rewrite Hl. reflexivity.
  - intros code bytes err Ha Hd.
    unfold submit, bind at 1. rewrite cmd_id_run.
    unfold try_except, bind, urlopen_read, lift, ret. cbn [net n_req out clock rng].
    rewrite Ha. cbn. rewrite Hd. reflexivity.
  - intros e Ha He.
    unfold submit, bind at 1. rewrite cmd_id_run.
    unfold try_except, bind, urlopen_read, lift, ret. cbn [net n_req out clock rng].
    rewrite Ha. cbn. rewrite He. reflexivity.
  - rewrite submit_sends. unfold requests. rewrite flat_map_app. reflexivity.
Qed.

End Submission.

Lemma C4_submit_catches_http_errors_only_witness :
  fst (BootstrapHttp.submit Lite.codec (JStr BootstrapHttp.OPERATOR) JNull (JArr [])
         (Fixture.start Fixture.accepting))
  = Ret (true, JObj [("updateId", JStr "u1")])
  /\ fst (BootstrapHttp.submit Lite.codec (JStr BootstrapHttp.OPERATOR) JNull (JArr [])
            (Fixture.start Fixture.rejecting))
     = Ret (false, JStr "INVALID_ARGUMENT")
  /\ fst (BootstrapHttp.submit Lite.codec (JStr BootstrapHttp.OPERATOR) JNull (JArr [])
            (Fixture.start Fixture.refused))
     = Raise (URLError "Connection refused").
Proof.
  split; [|split].
  - apply (C4_submit_catches_http_errors_only Lite.codec (JStr BootstrapHttp.OPERATOR) JNull
             (JArr []) (Fixture.start Fixture.accepting))
      with (raw := Lite.dumps (JObj [("updateId", JStr "u1")]))
           (text := Lite.dumps (JObj [("updateId", JStr "u1")]));
      reflexivity.
  - apply (C4_submit_catches_http_errors_only Lite.codec (JStr BootstrapHttp.OPERATOR) JNull
             (JArr []) (Fixture.start Fixture.rejecting))
      with (code := 400%Z) (bytes := "INVALID_ARGUMENT");
      reflexivity.
  - apply (C4_submit_catches_http_errors_only Lite.codec (JStr BootstrapHttp.OPERATOR) JNull
             (JArr []) (Fixture.start Fixture.refused));
      reflexivity.
Defined.

(** C4 as stated fails: with nobody listening on the port [urlopen]
    raises [URLError], which [submit] does not catch; the exception leaves
    [submit] and ends the script after its first request. *)
Lemma C4_connection_refused_propagates :
  fst (BootstrapHttp.submit Lite.codec (JStr BootstrapHttp.OPERATOR) JNull (JArr [])
         (Fixture.start Fixture.refused))
  = Raise (URLError "Connection refused")
  /\ fst (BootstrapHttp.main Lite.codec (Fixture.start Fixture.refused))
     = Raise (URLError "Connection refused")
  /\ requests (out (snd (BootstrapHttp.main Lite.codec (Fixture.start Fixture.refused))))
     = ["http://localhost:7575/v2/commands/submit-and-wait"].
Proof. vm_compute. repeat split. Qed.

(** ** Coverage percentages *)

Section Coverage.
Import CoverageReport Counting.

Ltac inv H := inversion H; subst; clear H.

Lemma count_hit_hits (vs : list json) :
  forall n, count_hit vs = Ret n -> n = List.length (filter positive vs).
Proof.
  induction vs as [|v vs IH]; simpl; intros n H.
  - inv H. reflexivity.
  - destruct (gt0 v) as [hit|e] eqn:Hv; simpl in H; [|discriminate].
    destruct (count_hit vs) as [k|e]; simpl in H; [|discriminate].
    inv H. specialize (IH k eq_refl). subst k.
    assert (positive v = hit) as ->.
    { destruct v; simpl in Hv; try discriminate; inv Hv; reflexivity. }
    destruct hit; reflexivity.
Qed.

Lemma filter_length_le {A : Type} (f : A -> bool) (l : list A) :
  List.length (filter f l) <= List.length l.
Proof.
  induction l as [|a l IH]; simpl; [lia|]. destruct (f a); simpl; lia.
Qed.

(** A string or a dict among the branch lists can only be empty: its
    characters or keys are not numbers. *)
Lemma count_hit_iter (blist : json) (vs : list json) (n : nat) :
  iter blist = Ret vs -> count_hit vs = Ret n ->
  vs = match blist with JArr l => l | _ => [] end.
Proof.
  destruct blist as [| | |t|l|m]; simpl; try discriminate; intros H; inv H.
  - destruct t as [|c t]; [reflexivity|]. simpl. discriminate.
  - reflexivity.
  - destruct m as [|[k x] m]; [reflexivity|]. simpl. discriminate.
Qed.

Lemma len_iter (blist : json) (n : nat) (vs : list json) :
  len blist = Ret n -> iter blist = Ret vs -> n = List.length vs.
Proof.
  destruct blist as [| | |t|l|m]; simpl; try discriminate; intros H1 H2; inv H1; inv H2.
  - rewrite length_map. induction t; simpl; [reflexivity|now f_equal].
  - reflexivity.
  - now rewrite length_map.
Qed.

Lemma nested_arms (m : list (string * json)) :
  forall total hit,
    sum_len (map snd m) = Ret total ->
    count_hit_nested (map snd m) = Ret hit ->
    total = List.length (arms m) /\ hit = List.length (filter positive (arms m)).
Proof.
  unfold arms.
  induction m as [|[k blist] m IH]; simpl; intros total hit Ht Hh.
  - inv Ht. inv Hh. split; reflexivity.
  - destruct (len blist) as [n|e] eqn:Hn; simpl in Ht; [|discriminate].
    destruct (sum_len (map snd m)) as [n'|e]; simpl in Ht; [|discriminate].
    destruct (iter blist) as [vs|e] eqn:Hi; simpl in Hh; [|discriminate].
    destruct (count_hit vs) as [h|e] eqn:Hc; simpl in Hh; [|discriminate].
    destruct (count_hit_nested (map snd m)) as [h'|e]; simpl in Hh; [|discriminate].
    inv Ht. inv Hh. destruct (IH n' h' eq_refl eq_refl) as [-> ->].
    pose proof (len_iter _ _ _ Hn Hi) as ->.
    pose proof (count_hit_hits _ _ Hc) as ->.
    pose proof (count_hit_iter _ _ _ Hi Hc) as <-.
    rewrite length_app, filter_app, length_app. split; reflexivity.
Qed.

Lemma nested_empty (m : list (string * json)) :
  sum_len (map snd m) = Ret 0 -> arms m = [].
Proof.
  unfold arms. induction m as [|[k blist] m IH]; simpl; intros H; [reflexivity|].
  destruct (len blist) as [n|e] eqn:Hn; simpl in H; [|discriminate].
  destruct (sum_len (map snd m)) as [n'|e]; simpl in H; [|discriminate].
  inv H. assert (n = 0) by lia. assert (n' = 0) by lia. subst.
  rewrite (IH eq_refl), app_nil_r.
  destruct blist as [| | |t|l|x]; try reflexivity.
  simpl in Hn. inv Hn. destruct l; [reflexivity|discriminate].
Qed.

(** What [tally] returns, read off the three dicts of the entry. *)
Lemma tally_counts (info : json) (t : tallies) :
  tally info = Ret t ->
  exists s b f,
    get info "s" (JObj []) = Ret s /\ get info "b" (JObj []) = Ret (JObj b)
    /\ get info "f" (JObj []) = Ret f
    /\ len s = Ret (total_s t) /\ len f = Ret (total_f t)
    /\ (forall m, s = JObj m -> hit_s t = hits m)
    /\ (forall m, f = JObj m -> hit_f t = hits m)
    /\ total_b t = List.length (arms b)
    /\ hit_b t = List.length (filter positive (arms b))
    /\ hit_s t <= total_s t /\ hit_f t <= total_f t.
Proof.
  unfold tally. intros H.
  destruct (get info "s" (JObj [])) as [s|e]; simpl in H; [|discriminate].
  destruct (get info "b" (JObj [])) as [b|e]; simpl in H; [|discriminate].
  destruct (get info "f" (JObj [])) as [f|e]; simpl in H; [|discriminate].
  destruct (len s) as [ts|e] eqn:Hts; simpl in H; [|discriminate].
  assert (Hs : forall h,
             match ts with O => Ret 0 | S _ => (vs <- values s ;; count_hit vs)%res end = Ret h ->
             (forall m, s = JObj m -> h = hits m) /\ h <= ts).
  { intros h Hh. destruct ts as [|ts'].
    - inv Hh. split; [|lia]. intros m ->. simpl in Hts. inv Hts.
      destruct m; [reflexivity|discriminate].
    - destruct s as [| | | | |m]; simpl in Hh; try discriminate.
      apply count_hit_hits in Hh. simpl in Hts. injection Hts as Hlen.
      split.
      + intros m' E. inv E. reflexivity.
      + rewrite <- Hlen, <- (length_map snd m), Hh. apply filter_length_le. }
  destruct (match ts with O => Ret 0 | S _ => _ end) as [hs|e]; simpl in H; [|discriminate].
  destruct (Hs hs eq_refl) as [Hs1 Hs2]. clear Hs.
  destruct b as [| | | | |b]; simpl in H; try discriminate.
  destruct (sum_len (map snd b)) as [tb|e] eqn:Htb; simpl in H; [|discriminate].
  assert (Hb : forall h,
             match tb with O => Ret 0 | S _ => count_hit_nested (map snd b) end = Ret h ->
             tb = List.length (arms b) /\ h = List.length (filter positive (arms b))).
  { intros h Hh. destruct tb as [|tb'].
    - inv Hh. rewrite (nested_empty b Htb). split; reflexivity.
    - apply (nested_arms b _ _ Htb Hh). }
  destruct (match tb with O => Ret 0 | S _ => _ end) as [hb|e]; simpl in H; [|discriminate].
  destruct (Hb hb eq_refl) as [Hb1 Hb2]. clear Hb.
  destruct (len f) as [tf|e] eqn:Htf; simpl in H; [|discriminate].
  assert (Hf : forall h,
             match tf with O => Ret 0 | S _ => (vs <- values f ;; count_hit vs)%res end = Ret h ->
             (forall m, f = JObj m -> h = hits m) /\ h <= tf).
  { intros h Hh. destruct tf as [|tf'].
    - inv Hh. split; [|lia]. intros m ->. simpl in Htf. inv Htf.
      destruct m; [reflexivity|discriminate].
    - destruct f as [| | | | |m]; simpl in Hh; try discriminate.
      apply count_hit_hits in Hh. simpl in Htf. injection Htf as Hlen.
      split.
      + intros m' E. inv E. reflexivity.
      + rewrite <- Hlen, <- (length_map snd m), Hh. apply filter_length_le. }
  destruct (match tf with O => Ret 0 | S _ => _ end) as [hf|e]; simpl in H; [|discriminate].
  destruct (Hf hf eq_refl) as [Hf1 Hf2]. clear Hf.
  inv H. simpl. exists s, b, f. repeat split; auto.
Qed.

Lemma tally_hit_b_le (info : json) (t : tallies) :
  tally info = Ret t -> hit_b t <= total_b t.
Proof.
  intros H. destruct (tally_counts info t H)
    as (s & b & f & _ & _ & _ & _ & _ & _ & _ & -> & -> & _).
  apply filter_length_le.
Qed.

Lemma pct_value (hit total : nat) :
  exists q, pct hit total = Ret q
            /\ (total = 0 -> q = 0%Q)
            /\ (total <> 0 -> (q == ratio100 hit total)%Q).
Proof.
  destruct total as [|n].
  - exists 0%Q. split; [reflexivity|]. split; [reflexivity|].
    intros H. now contradiction H.
  - simpl. eexists. split; [reflexivity|]. split; [discriminate|]. intros _.
    unfold ratio100. rewrite (Qmake_Qdiv (Z.of_nat hit) (Pos.of_nat (S n))).
    replace (Z.pos (Pos.of_nat (S n))) with (Z.of_nat (S n)); [reflexivity|].
    rewrite <- Pos.of_nat_succ, Zpos_P_of_succ_nat. lia.
Qed.

Lemma pct_bounded (hit total : nat) (q : Q) :
  hit <= total -> pct hit total = Ret q -> bounded q.
Proof.
  intros Hle H. destruct total as [|n]; simpl in H; inv H.
  - split; discriminate.
  - assert (E : Z.pos (Pos.of_nat (S n)) = Z.of_nat (S n)).
    { rewrite <- Pos.of_nat_succ, Zpos_P_of_succ_nat. lia. }
    unfold bounded, Qle, Qmult. cbn [Qnum Qden].
    change (match n with O => 1%positive | S _ => Pos.succ (Pos.of_nat n) end)
      with (Pos.of_nat (S n)).
    rewrite !Pos.mul_1_r, E. split; lia.
Qed.

Lemma component_bounded (info : json) (p : percentages) :
  component info = Ret p -> bounded (pct_s p) /\ bounded (pct_b p) /\ bounded (pct_f p).
Proof.
  unfold component. destruct (tally info) as [t|e] eqn:Ht; simpl; [|discriminate].
  pose proof (tally_hit_b_le info t Ht) as Hb.
  destruct (tally_counts info t Ht)
    as (s & b & f & _ & _ & _ & _ & _ & _ & _ & _ & _ & Hs & Hf).
  unfold percentages_of.
  destruct (pct (hit_s t) (total_s t)) as [ps|e] eqn:Hps; simpl; [|discriminate].
  destruct (pct (hit_b t) (total_b t)) as [pb|e] eqn:Hpb; simpl; [|discriminate].
  destruct (pct (hit_f t) (total_f t)) as [pf|e] eqn:Hpf; simpl; [|discriminate].
  intros H. inv H. simpl.
  split; [|split]; (eapply pct_bounded; [|eassumption]); assumption.
Qed.

Lemma count_hit_raises (vs : list json) (e : exn) :
  count_hit vs = Raise e -> e = TypeError.
Proof.
  induction vs as [|v vs IH]; simpl; [discriminate|].
  destruct (gt0 v) as [hit|x] eqn:Hv; simpl.
  - destruct (count_hit vs) as [k|x]; simpl; [discriminate|].
    intros H. inv H. now apply IH.
  - intros H. inv H. destruct v; simpl in Hv; congruence.
Qed.

Lemma sum_len_raises (vs : list json) (e : exn) :
  sum_len vs = Raise e -> e = TypeError.
Proof.
  induction vs as [|v vs IH]; simpl; [discriminate|].
  destruct (len v) as [n|x] eqn:Hv; simpl.
  - destruct (sum_len vs) as [k|x]; simpl; [discriminate|].
    intros H. inv H. now apply IH.
  - intros H. inv H. destruct v; simpl in Hv; congruence.
Qed.

Lemma count_hit_nested_raises (vs : list json) (e : exn) :
  count_hit_nested vs = Raise e -> e = TypeError.
Proof.
  induction vs as [|v vs IH]; simpl; [discriminate|].
  destruct (iter v) as [xs|x] eqn:Hv; simpl.
  - destruct (count_hit xs) as [n|x] eqn:Hc; simpl.
    + destruct (count_hit_nested vs) as [k|x]; simpl; [discriminate|].
      intros H. inv H. now apply IH.
    + intros H. inv H. now apply count_hit_raises in Hc.
  - intros H. inv H. destruct v; simpl in Hv; congruence.
Qed.

Lemma get_raises (v : json) (k : string) (d : json) (e : exn) :
  get v k d = Raise e -> e = AttributeError.
Proof. destruct v; simpl; congruence. Qed.

Lemma len_raises (v : json) (e : exn) : len v = Raise e -> e = TypeError.
Proof. destruct v; simpl; congruence. Qed.

Lemma values_raises (v : json) (e : exn) : values v = Raise e -> e = AttributeError.
Proof. destruct v; simpl; congruence. Qed.

Lemma hits_raises (total : nat) (v : json) (e : exn) :
  match total with O => Ret 0 | S _ => (vs <- values v ;; count_hit vs)%res end = Raise e ->
  e = TypeError \/ e = AttributeError.
Proof.
  destruct total; [discriminate|].
  destruct (values v) as [vs|x] eqn:Hv; simpl; intros H.
  - left. now apply count_hit_raises in H.
  - inv H. right. now apply values_raises in Hv.
Qed.

(** [tally] fails only on a value of the wrong type. *)
Lemma tally_raises (info : json) (e : exn) :
  tally info = Raise e -> e = TypeError \/ e = AttributeError.
Proof.
  unfold tally.
  destruct (get info "s" (JObj [])) as [s|x] eqn:H1; simpl;
    [|intros H; inv H; right; now apply get_raises in H1].
  destruct (get info "b" (JObj [])) as [b|x] eqn:H2; simpl;
    [|intros H; inv H; right; now apply get_raises in H2].
  destruct (get info "f" (JObj [])) as [f|x] eqn:H3; simpl;
    [|intros H; inv H; right; now apply get_raises in H3].
  destruct (len s) as [ts|x] eqn:H4; simpl;
    [|intros H; inv H; left; now apply len_raises in H4].
  destruct (match ts with O => Ret 0 | S _ => _ end) as [hs|x] eqn:H5; simpl;
    [|intros H; inv H; now apply hits_raises in H5].
  destruct (values b) as [bl|x] eqn:H6; simpl;
    [|intros H; inv H; right; now apply values_raises in H6].
  destruct (sum_len bl) as [tb|x] eqn:H7; simpl;
    [|intros H; inv H; left; now apply sum_len_raises in H7].
  destruct (match tb with O => Ret 0 | S _ => _ end) as [hb|x] eqn:H8; simpl.
  2:{ intros H. inv H. destruct tb; [discriminate|].
      simpl in H8. left. now apply count_hit_nested_raises in H8. }
  destruct (len f) as [tf|x] eqn:H9; simpl;
    [|intros H; inv H; left; now apply len_raises in H9].
  destruct (match tf with O => Ret 0 | S _ => _ end) as [hf|x] eqn:H10; simpl;
    [|intros H; inv H; now apply hits_raises in H10].
  discriminate.
Qed.

Lemma percentages_of_value (t : tallies) :
  exists p, percentages_of t = Ret p
    /\ (total_s t = 0 -> pct_s p = 0%Q)
    /\ (total_s t <> 0 -> (pct_s p == ratio100 (hit_s t) (total_s t))%Q)
    /\ (total_b t = 0 -> pct_b p = 0%Q)
    /\ (total_b t <> 0 -> (pct_b p == ratio100 (hit_b t) (total_b t))%Q)
    /\ (total_f t = 0 -> pct_f p = 0%Q)
    /\ (total_f t <> 0 -> (pct_f p == ratio100 (hit_f t) (total_f t))%Q).
Proof.
  unfold percentages_of.
  destruct (pct_value (hit_s t) (total_s t)) as (ps & -> & Hs0 & Hs1).
  destruct (pct_value (hit_b t) (total_b t)) as (pb & -> & Hb0 & Hb1).
  destruct (pct_value (hit_f t) (total_f t)) as (pf & -> & Hf0 & Hf1).
  simpl. eexists. split; [reflexivity|]. simpl. repeat split; assumption.
Qed.

(** C6.  For an entry with [S] statement counters of which [H] are
    above zero, the statement percentage is [H / S * 100] when [S] is not
    zero and [0] when it is, and the script never divides by zero; the
    same holds of the functions, and of the branches with the arms of all
    branch points as counters. *)
Theorem C6_percentage_is_hits_over_total (info : json) :
  component info <> Raise ZeroDivisionError
  /\ (forall t, tally info = Ret t ->
      exists p,
        component info = Ret p
        /\ (total_s t = 0 -> pct_s p = 0%Q)
        /\ (total_s t <> 0 -> (pct_s p == ratio100 (hit_s t) (total_s t))%Q)
        /\ (total_b t = 0 -> pct_b p = 0%Q)
        /\ (total_b t <> 0 -> (pct_b p == ratio100 (hit_b t) (total_b t))%Q)
        /\ (total_f t = 0 -> pct_f p = 0%Q)
        /\ (total_f t <> 0 -> (pct_f p == ratio100 (hit_f t) (total_f t))%Q)
        /\ (forall s, get info "s" (JObj []) = Ret (JObj s) ->
            total_s t = List.length s /\ hit_s t = hits s)
        /\ (forall b, get info "b" (JObj []) = Ret (JObj b) ->
            total_b t = List.length (arms b)
            /\ hit_b t = List.length (filter positive (arms b)))
        /\ (forall f, get info "f" (JObj []) = Ret (JObj f) ->
            total_f t = List.length f /\ hit_f t = hits f)).
Proof.
  split.
  - unfold component. destruct (tally info) as [t|e] eqn:Ht; simpl.
    + destruct (percentages_of_value t) as (p & -> & _). discriminate.
    + intros H. inv H. apply tally_raises in Ht. destruct Ht; discriminate.
  - intros t Ht. unfold component. rewrite Ht. simpl.
    destruct (percentages_of_value t) as (p & Hp & H1 & H2 & H3 & H4 & H5 & H6).
    exists p. split; [exact Hp|].
    destruct (tally_counts info t Ht)
      as (s & b & f & Gs & Gb & Gf & Ls & Lf & Hs & Hf & Tb & Hb & _).
    repeat (split; [assumption|]).
    split; [|split].
    + intros m E. rewrite Gs in E. inv E. simpl in Ls. inv Ls. split; auto.
    + intros m E. rewrite Gb in E. inv E. split; assumption.
    + intros m E. rewrite Gf in E. inv E. simpl in Lf. inv Lf. split; auto.
Qed.

Lemma print_core_returns (results : list row) :
  forall w, fst (print_core results w) = Ret tt.
Proof.
  induction results as [|[[[name p] marker] is_core] results IH]; intros w; simpl.
  - reflexivity.
  - destruct is_core; [|apply IH].
    unfold bind, print, emit. simpl. apply IH.
Qed.

Lemma rows_bounded (its : list (string * json)) :
  forall results w r w',
    Forall row_bounded results ->
    rows its results w = (Ret r, w') -> Forall row_bounded r.
Proof.
  induction its as [|[path info] its IH]; simpl; intros results w r w' Hres H.
  - inv H. exact Hres.
  - destruct (skipped (name_of path)); [now apply (IH _ _ _ _ Hres H)|].
    unfold bind at 1, lift in H.
    destruct (component info) as [p|e] eqn:Hc; [|discriminate].
    unfold bind at 1, print, emit in H. cbn beta iota in H.
    apply IH in H; [exact H|].
    apply Forall_app. split; [exact Hres|].
    constructor; [|constructor]. apply component_bounded in Hc. exact Hc.
Qed.

(** C10.  Whatever the coverage map, the hits of an entry never exceed
    its totals, each of the three percentages computed for it lies
    between 0 and 100, and so does every percentage in the rows the
    script builds. *)
Theorem C10_percentages_between_0_and_100 (data : json) :
  (forall t, tally data = Ret t ->
      hit_s t <= total_s t /\ hit_b t <= total_b t /\ hit_f t <= total_f t)
  /\ (forall p, component data = Ret p -> all_bounded p)
  /\ (forall w results, fst (main data w) = Ret results -> Forall row_bounded results).
Proof.
  split; [|split].
  - intros t Ht. pose proof (tally_hit_b_le data t Ht) as Hb.
    destruct (tally_counts data t Ht)
      as (s & b & f & _ & _ & _ & _ & _ & _ & _ & _ & _ & Hs & Hf).
    repeat split; assumption.
  - intros p Hp. apply component_bounded in Hp. exact Hp.
  - intros w results. unfold main.
    unfold bind at 1, print at 1, emit. cbn beta iota.
    unfold bind at 1, print at 1, emit. cbn beta iota.
    unfold bind at 1, lift.
    destruct (items data) as [its|e]; [|discriminate].
    unfold bind at 1.
    destruct (rows (sorted_paths its) [] _) as [[r|e] w1] eqn:Hr; [|discriminate].
    apply rows_bounded in Hr; [|constructor].
    unfold bind at 1, print at 1, emit. cbn beta iota.
    unfold bind at 1, print at 1, emit. cbn beta iota.
    unfold bind at 1.
    match goal with |- context [print_core r ?w2] =>
      pose proof (print_core_returns r w2) as Hp; destruct (print_core r w2) as [[u|e] w3]
    end; simpl in Hp; [|discriminate].
    unfold ret. simpl. intros H. inv H. exact Hr.
Qed.

End Coverage.

Lemma C6_percentage_is_hits_over_total_witness :
  exists p,
    CoverageReport.component Fixture.coverage_info = Ret p
    /\ (CoverageReport.pct_s p == Counting.ratio100 2 3)%Q
    /\ (CoverageReport.pct_b p == Counting.ratio100 1 2)%Q
    /\ CoverageReport.pct_f p = 0%Q.
Proof.
  destruct (C6_percentage_is_hits_over_total Fixture.coverage_info) as [_ H].
  destruct (H (CoverageReport.mkTallies 3 2 2 1 0 0) eq_refl)
    as (p & Hp & _ & Hs & _ & Hb & Hf & _).
  exists p. split; [exact Hp|]. split; [|split].
  - apply Hs. discriminate.
  - apply Hb. discriminate.
  - apply Hf. reflexivity.
Defined.

Lemma C10_percentages_between_0_and_100_witness :
  Counting.all_bounded (CoverageReport.mkPercentages (200 # 3) (100 # 2) 0)
  /\ Forall Counting.row_bounded
       [("BorrowModule", CoverageReport.mkPercentages 0 0 0, " <<<", true);
        ("MUSD", CoverageReport.mkPercentages (200 # 3) (100 # 2) 0, " <<<", true)].
Proof.
  destruct (C10_percentages_between_0_and_100 Fixture.coverage_info) as [_ [H _]].
  destruct (C10_percentages_between_0_and_100 Fixture.coverage_data) as [_ [_ G]].
  split.
  - apply H. reflexivity.
  - apply (G (Fixture.start Fixture.refused)). reflexivity.
Defined.

(** ** Reading the body of the active contracts *)

Section Bodies.
Import Lines.

Variable lib : codec.

Ltac inv H := inversion H; subst; clear H.

Ltac run :=
  unfold bind, urlopen_read, lift, print, emit, ret; cbn [net n_req out clock rng n_clock n_rng].

Lemma check_acs_asks (w : world) (raw0 raw1 : string) (doc offset : json) :
  net w (n_req w) = Body raw0 ->
  loads_bytes lib raw0 = Ret doc ->
  getitem doc "offset" = Ret offset ->
  net w (S (n_req w)) = Body raw1 ->
  CheckAcs.main lib w
  = bind (lift (loads_bytes lib raw1)) CheckAcs.report
         (asked w (out w) offset (CheckAcs.body offset)).
Proof.
  intros H0 Hdoc Hoff H1. unfold CheckAcs.main, asked.
  unfold bind at 1, urlopen_read at 1. rewrite H0.
  unfold bind at 1, lift at 1. rewrite Hdoc.
  unfold bind at 1, lift at 1. rewrite Hoff.
  unfold bind at 1, print at 1, emit. cbn [net n_req out clock rng n_clock n_rng].
  unfold bind at 1, urlopen_read at 1. cbn [net n_req out clock rng n_clock n_rng].
  rewrite H1. reflexivity.
Qed.

Lemma quiet_print (c : json) (w : world) :
  exists w',
    try_except (QueryAcs.print_contract c) (fun _ => true) (fun _ => ret tt) w = (Ret tt, w')
    /\ requests (out w') = requests (out w).
Proof.
  unfold try_except, QueryAcs.print_contract. run.
  destruct (getitem c "cid") as [cid|e]; [|eexists; split; reflexivity].
  destruct (getitem c "tid") as [tid|e]; [|eexists; split; reflexivity].
  destruct (getitem c "pkg") as [pkg|e]; [|eexists; split; reflexivity].
  destruct (slice_to 50 cid) as [short|e]; [|eexists; split; reflexivity].
  eexists. split; [reflexivity|]. cbn [out].
  unfold requests. rewrite flat_map_app, app_nil_r. reflexivity.
Qed.

Lemma step_record (line : string) (acc : list json) (w : world) :
  exists w',
    QueryAcs.step lib line acc w = (Ret (acc ++ record_of lib line), w')
    /\ requests (out w') = requests (out w).
Proof.
  unfold QueryAcs.step, record_of.
  destruct (String.eqb (strip line) "").
  - exists w. rewrite app_nil_r. split; reflexivity.
  - destruct (d <- loads lib line;; QueryAcs.extract d)%res as [[c|]|e].
    + destruct (quiet_print c w) as (w' & Hq & Hr).
      exists w'. unfold bind at 1. rewrite Hq. split; [reflexivity|exact Hr].
    + exists w. rewrite app_nil_r. split; reflexivity.
    + exists w. rewrite app_nil_r. split; reflexivity.
Qed.

Lemma steps_records (lines : list string) :
  forall acc w, exists w',
    QueryAcs.steps lib lines acc w = (Ret (acc ++ records_of lib lines), w')
    /\ requests (out w') = requests (out w).
Proof.
  induction lines as [|line lines IH]; intros acc w; simpl.
  - exists w. rewrite app_nil_r. split; reflexivity.
  - destruct (step_record line acc w) as (w1 & Hs & Hr1).
    destruct (IH (acc ++ record_of lib line) w1) as (w2 & Hss & Hr2).
    exists w2. unfold bind at 1. rewrite Hs, Hss, <- app_assoc.
    split; [reflexivity|congruence].
Qed.

Lemma query_acs_lines (party label : string) (w : world)
    (raw0 raw1 text : string) (doc offset : json) :
  net w (n_req w) = Body raw0 ->
  loads_bytes lib raw0 = Ret doc ->
  getitem doc "offset" = Ret offset ->
  net w (S (n_req w)) = Body raw1 ->
  decode lib raw1 = Ret text ->
  fst (QueryAcs.query_acs lib party label w)
  = Ret (records_of lib (split QueryAcs.newline (strip text))).
Proof.
  intros H0 Hdoc Hoff H1 Hdec. unfold QueryAcs.query_acs.
  unfold bind at 1, print at 1, emit. cbn [net n_req out clock rng n_clock n_rng].
  unfold bind at 1, urlopen_read at 1. cbn [net n_req out clock rng n_clock n_rng].
  rewrite H0.
  unfold bind at 1, lift at 1. rewrite Hdoc.
  unfold bind at 1, lift at 1. rewrite Hoff.
  unfold bind at 1, print at 1, emit. cbn [net n_req out clock rng n_clock n_rng].
  unfold bind at 1, urlopen_read at 1. cbn [net n_req out clock rng n_clock n_rng].
  rewrite H1.
  unfold bind at 1, lift at 1. rewrite Hdec.
  unfold bind at 1.
  match goal with |- context [QueryAcs.steps lib ?ls [] ?w1] =>
    destruct (steps_records ls [] w1) as (w2 & Hs & _)
  end.
  rewrite Hs. simpl app.
  destruct (records_of lib (split QueryAcs.newline (strip text))); reflexivity.
Qed.

Lemma record_of_array (line : string) (entries : list json) :
  loads lib line = Ret (JArr entries) ->
  str_in "contractEntry" (JArr entries) = Ret false ->
  record_of lib line = [].
Proof.
  intros Hl Hin. unfold record_of. destruct (String.eqb (strip line) ""); [reflexivity|].
  rewrite Hl. cbn [rbind]. unfold QueryAcs.extract. rewrite Hin. reflexivity.
Qed.

(** C5, as amended.  Once the ledger end has answered, each script
    reads the body of the active contracts in one way only.
    check-acs.py hands the whole body to [json.loads]: a body that is one
    JSON array is reported entry by entry, and a body [json.loads]
    rejects, as it does several documents one to a line, ends the script
    with that exception.  query-acs.py decodes each line that is not
    blank on its own and keeps the records of the lines that have a
    [contractEntry]; a body that is one array on one line gives no record
    at all. *)
Theorem C5_one_body_shape_per_script (party label : string) (w : world)
    (raw0 raw1 : string) (doc offset : json) :
  net w (n_req w) = Body raw0 ->
  loads_bytes lib raw0 = Ret doc ->
  getitem doc "offset" = Ret offset ->
  net w (S (n_req w)) = Body raw1 ->
  (forall entries,
      loads_bytes lib raw1 = Ret (JArr entries) ->
      CheckAcs.main lib w
      = CheckAcs.report (JArr entries) (asked w (out w) offset (CheckAcs.body offset)))
  /\ (forall e,
         loads_bytes lib raw1 = Raise e ->
         CheckAcs.main lib w = (Raise e, asked w (out w) offset (CheckAcs.body offset)))
  /\ (forall text,
         decode lib raw1 = Ret text ->
         fst (QueryAcs.query_acs lib party label w)
         = Ret (records_of lib (split QueryAcs.newline (strip text))))
  /\ (forall text line entries,
         decode lib raw1 = Ret text ->
         split QueryAcs.newline (strip text) = [line] ->
         loads lib line = Ret (JArr entries) ->
         str_in "contractEntry" (JArr entries) = Ret false ->
         fst (QueryAcs.query_acs lib party label w) = Ret []).
Proof.
  intros H0 Hdoc Hoff H1.
  pose proof (check_acs_asks w raw0 raw1 doc offset H0 Hdoc Hoff H1) as Hmain.
  repeat split.
  - intros entries Hl. rewrite Hmain. unfold bind, lift. rewrite Hl. reflexivity.
  - intros e Hl. rewrite Hmain. unfold bind, lift. rewrite Hl. reflexivity.
  - intros text Hdec. apply (query_acs_lines party label w raw0 raw1 text doc offset); assumption.
  - intros text line entries Hdec Hsplit Hl Hin.
    rewrite (query_acs_lines party label w raw0 raw1 text doc offset) by assumption.
    rewrite Hsplit. unfold records_of. simpl.
    rewrite (record_of_array line entries Hl Hin). reflexivity.
Qed.

End Bodies.

Lemma C5_one_body_shape_per_script_witness :
  CheckAcs.main Lite.codec (Fixture.start (Fixture.serving Fixture.array_body))
  = CheckAcs.report (JArr [Fixture.bridge_entry; Fixture.token_entry])
      (Lines.asked (Fixture.start (Fixture.serving Fixture.array_body)) []
         (JNum (inject_Z 42)) (CheckAcs.body (JNum (inject_Z 42))))
  /\ fst (QueryAcs.query_acs Lite.codec QueryAcs.PARTY "validator-1"
            (Fixture.start (Fixture.serving Fixture.array_body)))
     = Ret [].
Proof.
  destruct (C5_one_body_shape_per_script Lite.codec QueryAcs.PARTY "validator-1"
              (Fixture.start (Fixture.serving Fixture.array_body))
              Fixture.ledger_end_body Fixture.array_body
              (JObj [("offset", JNum (inject_Z 42))]) (JNum (inject_Z 42))
              eq_refl eq_refl eq_refl eq_refl) as [H1 [_ [_ H4]]].
  split.
  - apply H1. reflexivity.
  - apply (H4 Fixture.array_body Fixture.array_body
              [Fixture.bridge_entry; Fixture.token_entry]); reflexivity.
Defined.

(** C5 as stated fails: no script reads both shapes.  Of the same two
    entries query-acs.py finds none when they come as one JSON array and
    both lines when they come one to a line, while check-acs.py reports
    the array and ends with [JSONDecodeError] on the lines. *)
Lemma C5_array_body_yields_no_record :
  fst (QueryAcs.query_acs Lite.codec QueryAcs.PARTY "validator-1"
         (Fixture.start (Fixture.serving Fixture.array_body)))
  = Ret []
  /\ fst (QueryAcs.query_acs Lite.codec QueryAcs.PARTY "validator-1"
            (Fixture.start (Fixture.serving Fixture.ndjson_body)))
     = Ret [JObj [("cid", JStr "?"); ("tid", JStr "?"); ("pkg", JStr "?")];
            JObj [("cid", JStr "c2"); ("tid", JStr "pkg:Mod:Token"); ("pkg", JStr "?")]]
  /\ fst (CheckAcs.main Lite.codec (Fixture.start (Fixture.serving Fixture.array_body)))
     = Ret tt
  /\ fst (CheckAcs.main Lite.codec (Fixture.start (Fixture.serving Fixture.ndjson_body)))
     = Raise JSONDecodeError.
Proof. vm_compute. repeat split. Qed.

(** ** Failures of the snapshot queries *)

Section Failures.
Import Lines Traces.

Variable lib : codec.

Lemma requests_after (a b : list World.event) : requests (a ++ b) = requests a ++ requests b.
Proof. unfold requests. apply flat_map_app. Qed.

Lemma onward_ret {A : Type} (a : A) : onward (ret a).
Proof. intros w. exists []. cbn. now rewrite app_nil_r. Qed.

Lemma onward_lift {A : Type} (r : res A) : onward (lift r).
Proof. intros w. exists []. cbn. now rewrite app_nil_r. Qed.

Lemma onward_print (text : string) (fields : list json) : onward (print text fields).
Proof. intros w. exists []. unfold print, emit. cbn [snd out]. now rewrite requests_after. Qed.

Lemma onward_urlopen (url : string) (payload : option json) :
  onward (urlopen_read url payload).
Proof.
  intros w. exists [url]. unfold urlopen_read.
  destruct (net w (n_req w)); cbn [snd out]; now rewrite requests_after.
Qed.

Lemma onward_bind {A B : Type} (m : M A) (k : A -> M B) :
  onward m -> (forall a, onward (k a)) -> onward (bind m k).
Proof.
  intros Hm Hk w. unfold bind. destruct (Hm w) as [more Hmore].
  destruct (m w) as [[a|e] w1]; cbn [snd] in *.
  - destruct (Hk a w1) as [more' Hmore']. exists (more ++ more').
    rewrite Hmore', Hmore, app_assoc. reflexivity.
  - exists more. exact Hmore.
Qed.

Lemma onward_steps (lines : list string) (acc : list json) :
  onward (QueryAcs.steps lib lines acc).
Proof.
  intros w. destruct (steps_records lib lines acc w) as (w' & -> & Hr).
  exists []. cbn [snd]. now rewrite app_nil_r.
Qed.

Lemma onward_print_cids (cids : list json) : onward (QueryAcs.print_cids cids).
Proof.
  induction cids as [|cid cids IH]; simpl; [apply onward_ret|].
  apply onward_bind; [apply onward_print|intros _; exact IH].
Qed.

Ltac onward :=
  repeat first
    [ apply onward_ret | apply onward_lift | apply onward_print | apply onward_urlopen
    | apply onward_steps | apply onward_print_cids
    | apply onward_bind; [|intros ?]
    | match goal with |- onward (match ?l with _ => _ end) => destruct l end ].

(** [query_acs] sends the request for the ledger end before anything
    else it sends. *)
Lemma query_acs_opens (party label : string) (w : world) :
  exists more,
    requests (out (snd (QueryAcs.query_acs lib party label w)))
    = requests (out w) ++ "http://localhost:7575/v2/state/ledger-end" :: more.
Proof.
  unfold QueryAcs.query_acs.
  unfold bind at 1, print at 1, emit. cbn [net n_req out clock rng n_clock n_rng].
  unfold bind at 1, urlopen_read at 1. cbn [net n_req out clock rng n_clock n_rng].
  destruct (net w (n_req w)) as [raw|e].
  - match goal with |- context [bind ?m ?k ?w1] =>
      assert (Ho : onward (bind m k));
      [|destruct (Ho w1) as [more Hmore]; exists more; rewrite Hmore]
    end.
    + onward.
    + cbn [out]. rewrite !requests_after. cbn. rewrite ?app_nil_r, <- ?app_assoc. reflexivity.
  - exists []. cbn [snd out]. rewrite !requests_after. cbn.
    rewrite ?app_nil_r, <- ?app_assoc. reflexivity.
Qed.

(** With both answers in hand [query_acs] returns the records of the
    lines, having sent its two requests. *)
Lemma query_acs_run (party label : string) (w : world)
    (raw0 raw1 text : string) (doc offset : json) :
  net w (n_req w) = Body raw0 ->
  loads_bytes lib raw0 = Ret doc ->
  getitem doc "offset" = Ret offset ->
  net w (S (n_req w)) = Body raw1 ->
  decode lib raw1 = Ret text ->
  exists w',
    QueryAcs.query_acs lib party label w
    = (Ret (records_of lib (split QueryAcs.newline (strip text))), w')
    /\ requests (out w')
       = requests (out w) ++ ["http://localhost:7575/v2/state/ledger-end";
                              "http://localhost:7575/v2/state/active-contracts"].
Proof.
  intros H0 Hdoc Hoff H1 Hdec. unfold QueryAcs.query_acs.
  unfold bind at 1, print at 1, emit. cbn [net n_req out clock rng n_clock n_rng].
  unfold bind at 1, urlopen_read at 1. cbn [net n_req out clock rng n_clock n_rng].
  rewrite H0.
  unfold bind at 1, lift at 1. rewrite Hdoc.
  unfold bind at 1, lift at 1. rewrite Hoff.
  unfold bind at 1, print at 1, emit. cbn [net n_req out clock rng n_clock n_rng].
  unfold bind at 1, urlopen_read at 1. cbn [net n_req out clock rng n_clock n_rng].
  rewrite H1.
  unfold bind at 1, lift at 1. rewrite Hdec.
  unfold bind at 1.
  match goal with |- context [QueryAcs.steps lib ?ls [] ?w1] =>
    destruct (steps_records lib ls [] w1) as (w2 & Hs & Hr)
  end.
  rewrite Hs. simpl app. cbn [out] in Hr.
  destruct (records_of lib (split QueryAcs.newline (strip text))) as [|c cs].
  - eexists. unfold bind, print, emit, ret. split; [reflexivity|].
    cbn [out]. rewrite requests_after, Hr, !requests_after. cbn.
    rewrite !app_nil_r, <- !app_assoc. reflexivity.
  - eexists. unfold bind, ret. split; [reflexivity|].
    rewrite Hr, !requests_after. cbn. rewrite !app_nil_r, <- !app_assoc. reflexivity.
Qed.

(** A line that gives no record leaves everything as it was: nothing is
    added to the records, nothing is printed, nothing is sent. *)
Lemma step_skips (line : string) (acc : list json) (w : world) :
  record_of lib line = [] -> QueryAcs.step lib line acc w = (Ret acc, w).
Proof.
  unfold QueryAcs.step, record_of.
  destruct (String.eqb (strip line) ""); [reflexivity|].
  destruct (d <- loads lib line;; QueryAcs.extract d)%res as [[c|]|e];
    [discriminate| |]; reflexivity.
Qed.

(** C8, as amended.  A failure of the transport is caught nowhere: in
    check-acs.py and in [query_acs] it ends the run as the exception
    raised, after the one request that failed and with no other request.
    A document that is not a list makes check-acs.py print one thing and
    return: the code and the cause of a dict with a [code], the document
    itself for another dict, the type and the text of anything else; no
    total and no counter is printed.  In [query_acs], though, the loop
    over the lines never raises and sends nothing: a line that is no JSON
    document, or that has no [contractEntry], leaves the records and the
    output as they were, the records of the other lines are kept, and
    whatever the lines of the first answer the script goes on to the
    ledger end of its second query. *)
Theorem C8_failures_by_script (party label : string) (w : world) :
  (forall e,
      net w (n_req w) = Fails e ->
      fst (CheckAcs.main lib w) = Raise e
      /\ out (snd (CheckAcs.main lib w))
         = out w ++ [Req "http://localhost:7575/v2/state/ledger-end" None])
  /\ (forall raw0 doc offset e,
         net w (n_req w) = Body raw0 ->
         loads_bytes lib raw0 = Ret doc ->
         getitem doc "offset" = Ret offset ->
         net w (S (n_req w)) = Fails e ->
         CheckAcs.main lib w = (Raise e, asked w (out w) offset (CheckAcs.body offset)))
  /\ (forall m code w',
         lookup "code" m = Some code ->
         fst (CheckAcs.report (JObj m) w') = Ret tt
         /\ out (snd (CheckAcs.report (JObj m) w'))
            = out w' ++ [Print "Error: {data.get('code')} - {data.get('cause','')}"
                               [code; match lookup "cause" m with
                                      | Some cause => cause
                                      | None => JStr ""
                                      end]])
  /\ (forall m w',
         lookup "code" m = None ->
         fst (CheckAcs.report (JObj m) w') = Ret tt
         /\ out (snd (CheckAcs.report (JObj m) w'))
            = out w' ++ [Print "{json.dumps(data, indent=2)[:2000]}" [JObj m]])
  /\ (forall data w',
         is_list data = false ->
         (forall m, data <> JObj m) ->
         fst (CheckAcs.report data w') = Ret tt
         /\ out (snd (CheckAcs.report data w'))
            = out w' ++ [Print "Unexpected response type: {type(data)}" [data];
                         Print "{str(data)[:500]}" [data]])
  /\ (forall e,
         net w (n_req w) = Fails e ->
         fst (QueryAcs.query_acs lib party label w) = Raise e
         /\ requests (out (snd (QueryAcs.query_acs lib party label w)))
            = requests (out w) ++ ["http://localhost:7575/v2/state/ledger-end"])
  /\ (forall raw0 doc offset e,
         net w (n_req w) = Body raw0 ->
         loads_bytes lib raw0 = Ret doc ->
         getitem doc "offset" = Ret offset ->
         net w (S (n_req w)) = Fails e ->
         fst (QueryAcs.query_acs lib party label w) = Raise e
         /\ requests (out (snd (QueryAcs.query_acs lib party label w)))
            = requests (out w) ++ ["http://localhost:7575/v2/state/ledger-end";
                                   "http://localhost:7575/v2/state/active-contracts"])
  /\ (forall lines acc w',
         fst (QueryAcs.steps lib lines acc w') = Ret (acc ++ records_of lib lines)
         /\ requests (out (snd (QueryAcs.steps lib lines acc w'))) = requests (out w'))
  /\ (forall line e acc w',
         loads lib line = Raise e ->
         record_of lib line = [] /\ QueryAcs.step lib line acc w' = (Ret acc, w'))
  /\ (forall line d acc w',
         loads lib line = Ret d -> str_in "contractEntry" d = Ret false ->
         record_of lib line = [] /\ QueryAcs.step lib line acc w' = (Ret acc, w'))
  /\ (forall raw0 raw1 doc offset text,
         net w (n_req w) = Body raw0 ->
         loads_bytes lib raw0 = Ret doc ->
         getitem doc "offset" = Ret offset ->
         net w (S (n_req w)) = Body raw1 ->
         decode lib raw1 = Ret text ->
         exists more,
           requests (out (snd (QueryAcs.main lib w)))
           = requests (out w)
             ++ ["http://localhost:7575/v2/state/ledger-end";
                 "http://localhost:7575/v2/state/active-contracts";
                 "http://localhost:7575/v2/state/ledger-end"]
             ++ more).
Proof.
  split; [|split; [|split; [|split; [|split; [|split; [|split; [|split; [|split; [|split]]]]]]]]].
  - intros e He. unfold CheckAcs.main, bind, urlopen_read.
    rewrite He. split; reflexivity.
  - intros raw0 doc offset e H0 Hdoc Hoff H1. unfold CheckAcs.main, asked.
    unfold bind at 1, urlopen_read at 1. rewrite H0.
    unfold bind at 1, lift at 1. rewrite Hdoc.
    unfold bind at 1, lift at 1. rewrite Hoff.
    unfold bind at 1, print at 1, emit. cbn [net n_req out clock rng n_clock n_rng].
    unfold bind at 1, urlopen_read at 1. cbn [net n_req out clock rng n_clock n_rng].
    rewrite H1. reflexivity.
  - intros m code w' Hcode. cbn [CheckAcs.report]. unfold has_key. rewrite Hcode.
    unfold get_none. cbn [get]. rewrite Hcode.
    unfold bind, lift, print, emit. cbn [fst snd out]. split; reflexivity.
  - intros m w' Hcode. cbn [CheckAcs.report]. unfold has_key. rewrite Hcode.
    unfold print, emit. cbn [fst snd out]. split; reflexivity.
  - intros data w' Hl Hd.
    destruct data as [|b|q|t|l|m]; try discriminate;
      try (exfalso; apply (Hd m); reflexivity);
      cbn [CheckAcs.report]; unfold bind, print, emit; cbn [fst snd out];
      rewrite <- app_assoc; split; reflexivity.
  - intros e He. unfold QueryAcs.query_acs, bind, print, emit, urlopen_read.
    cbn [net n_req out clock rng n_clock n_rng].
    rewrite He. split; [reflexivity|]. cbn [snd out].
    unfold requests. rewrite !flat_map_app. cbn. rewrite app_nil_r. reflexivity.
  - intros raw0 doc offset e H0 Hdoc Hoff H1.
    unfold QueryAcs.query_acs, bind, print, emit, urlopen_read, lift.
    cbn [net n_req out clock rng n_clock n_rng].
    rewrite H0, Hdoc, Hoff. cbn [net n_req out clock rng n_clock n_rng].
    rewrite H1. split; [reflexivity|]. cbn [snd out].
    unfold requests. rewrite !flat_map_app. cbn. rewrite !app_nil_r, <- !app_assoc.
    reflexivity.
  - intros lines acc w'. destruct (steps_records lib lines acc w') as (w2 & -> & Hr).
    split; [reflexivity|exact Hr].
  - intros line e acc w' He.
    assert (Hrec : record_of lib line = []).
    { unfold record_of. rewrite He. destruct (String.eqb (strip line) ""); reflexivity. }
    split; [exact Hrec|]. apply step_skips, Hrec.
  - intros line d acc w' Hd Hin.
    assert (Hrec : record_of lib line = []).
    { unfold record_of. rewrite Hd. cbn [rbind].
      unfold QueryAcs.extract. rewrite Hin.
      destruct (String.eqb (strip line) ""); reflexivity. }
    split; [exact Hrec|]. apply step_skips, Hrec.
  - intros raw0 raw1 doc offset text H0 Hdoc Hoff H1 Hdec.
    destruct (query_acs_run QueryAcs.PARTY "validator-1" w raw0 raw1 text doc offset
                H0 Hdoc Hoff H1 Hdec) as (w1 & Hrun & Hreq).
    unfold QueryAcs.main. unfold bind at 1. rewrite Hrun.
    unfold bind at 1.
    destruct (query_acs_opens QueryAcs.OPERATOR "operator" w1) as [more Hmore].
    destruct (QueryAcs.query_acs lib QueryAcs.OPERATOR "operator" w1) as [[c2|e] w2];
      cbn [snd] in Hmore.
    + match goal with |- context [bind ?m ?k w2] =>
        assert (Ho : onward (bind m k));
        [|destruct (Ho w2) as [more' Hmore']; exists (more ++ more'); rewrite Hmore']
      end.
      * onward.
      * rewrite Hmore, Hreq, <- !app_assoc. reflexivity.
    + exists more. cbn [snd]. rewrite Hmore, Hreq, <- !app_assoc. reflexivity.
Qed.

End Failures.

Lemma C8_failures_by_script_witness :
  fst (CheckAcs.main Lite.codec (Fixture.start Fixture.refused))
  = Raise (URLError "Connection refused")
  /\ out (snd (CheckAcs.main Lite.codec (Fixture.start Fixture.refused)))
     = [Req "http://localhost:7575/v2/state/ledger-end" None]
  /\ Lines.record_of Lite.codec "<html>Bad Gateway</html>" = []
  /\ QueryAcs.step Lite.codec "<html>Bad Gateway</html>" [] (Fixture.start Fixture.refused)
     = (Ret [], Fixture.start Fixture.refused).
Proof.
  destruct (C8_failures_by_script Lite.codec QueryAcs.PARTY "validator-1"
              (Fixture.start Fixture.refused))
    as [H1 [_ [_ [_ [_ [_ [_ [_ [H9 _]]]]]]]]].
  destruct (H1 (URLError "Connection refused") eq_refl) as [Ha Hb].
  destruct (H9 "<html>Bad Gateway</html>" JSONDecodeError [] (Fixture.start Fixture.refused)
              eq_refl) as [Hc Hd].
  split; [exact Ha|]. split; [exact Hb|]. split; [exact Hc|exact Hd].
Defined.

(** C8 as stated fails: query-acs.py drops a line that is not JSON
    without a word and keeps the records around it; and when the ledger
    answers with its error document the script prints that no contract
    was found and goes on to its second query. *)
Lemma C8_bad_line_skipped_silently :
  fst (QueryAcs.query_acs Lite.codec QueryAcs.PARTY "validator-1"
         (Fixture.start (Fixture.serving Fixture.broken_body)))
  = Ret [JObj [("cid", JStr "c2"); ("tid", JStr "pkg:Mod:Token"); ("pkg", JStr "?")];
         JObj [("cid", JStr "c3"); ("tid", JStr "pkg:CantonDirectMint:CantonMUSD");
               ("pkg", JStr "?")]]
  /\ filter Lines.is_print
       (out (snd (QueryAcs.query_acs Lite.codec QueryAcs.PARTY "validator-1"
                    (Fixture.start (Fixture.serving Fixture.broken_body)))))
     = [Print "\n=== ACS for {label} ({party[:30]}...) ==="
              [JStr "validator-1"; JStr "minted-validator-1::12203f16a8"];
        Print "Ledger offset: {offset}" [JNum (inject_Z 42)];
        Print "  {tid}  pkg={pkg}  CID={cid[:50]}..."
              [JStr "pkg:Mod:Token"; JStr "?"; JStr "c2"];
        Print "  {tid}  pkg={pkg}  CID={cid[:50]}..."
              [JStr "pkg:CantonDirectMint:CantonMUSD"; JStr "?"; JStr "c3"]]
  /\ fst (QueryAcs.main Lite.codec (Fixture.start (Fixture.serving Fixture.error_body)))
     = Ret tt
  /\ requests (out (snd (QueryAcs.main Lite.codec
                           (Fixture.start (Fixture.serving Fixture.error_body)))))
     = ["http://localhost:7575/v2/state/ledger-end";
        "http://localhost:7575/v2/state/active-contracts";
        "http://localhost:7575/v2/state/ledger-end";
        "http://localhost:7575/v2/state/active-contracts"]
  /\ filter Lines.is_print
       (out (snd (QueryAcs.main Lite.codec
                    (Fixture.start (Fixture.serving Fixture.error_body)))))
     = [Print "\n=== ACS for {label} ({party[:30]}...) ==="
              [JStr "validator-1"; JStr "minted-validator-1::12203f16a8"];
        Print "Ledger offset: {offset}" [JNum (inject_Z 42)];
        Print "  (no contracts found)" [];
        Print "\n=== ACS for {label} ({party[:30]}...) ==="
              [JStr "operator"; JStr "minted-operator::12203f16a8f4b"];
        Print "Ledger offset: {offset}" [JNum (inject_Z 42)];
        Print "  (no contracts found)" [];
        Print "\nNo BLE protocol contracts found." []].
Proof. vm_compute. repeat split. Qed.

(* ================================================================== *)
(** * Further properties of the scripts *)
(* ================================================================== *)

(** ** Statements that send no request *)

Section Quiet.
Import Traces.

Lemma requests_app (a b : list World.event) : requests (a ++ b) = requests a ++ requests b.
Proof. unfold requests. apply flat_map_app. Qed.

Lemma ret_quiet {A : Type} (a : A) : quiet (ret a).
Proof. intros w. reflexivity. Qed.

Lemma lift_quiet {A : Type} (r : res A) : quiet (lift r).
Proof. intros w. reflexivity. Qed.

Lemma print_quiet (text : string) (fields : list json) : quiet (print text fields).
Proof.
  intros w. unfold print, emit. cbn [snd out].
  rewrite requests_app. cbn. apply app_nil_r.
Qed.

Lemma bind_quiet {A B : Type} (m : M A) (k : A -> M B) :
  quiet m -> (forall a, quiet (k a)) -> quiet (bind m k).
Proof.
  intros Hm Hk w. unfold bind. specialize (Hm w).
  destruct (m w) as [[a|e] w1]; cbn [snd] in *.
  - rewrite (Hk a w1). exact Hm.
  - exact Hm.
Qed.

Lemma try_quiet {A : Type} (body : M A) (sel : exn -> bool) (handler : exn -> M A) :
  quiet body -> (forall e, quiet (handler e)) -> quiet (try_except body sel handler).
Proof.
  intros Hb Hh w. unfold try_except. specialize (Hb w).
  destruct (body w) as [[a|e] w1]; cbn [snd] in *; [exact Hb|].
  destruct (sel e); [|exact Hb]. rewrite (Hh e w1). exact Hb.
Qed.

End Quiet.

Ltac quiet :=
  repeat first
    [ apply ret_quiet | apply lift_quiet | apply print_quiet
    | apply bind_quiet; [|intros ?] | apply try_quiet; [|intros ?] ].

(** ** check-acs.py: the tally of each template *)

Section AcsTally.
Import Tallies Traces.
Ltac inv H := inversion H; subst; clear H.

Lemma Qeq_bool_left (p q r : Q) : Qeq_bool p q = true -> Qeq_bool p r = Qeq_bool q r.
Proof.
  intros H. apply Qeq_bool_iff in H.
  destruct (Qeq_bool p r) eqn:E1, (Qeq_bool q r) eqn:E2; try reflexivity.
  - apply Qeq_bool_iff in E1. apply Qeq_bool_neq in E2.
    exfalso. apply E2. rewrite <- H. exact E1.
  - apply Qeq_bool_iff in E2. apply Qeq_bool_neq in E1.
    exfalso. apply E1. rewrite H. exact E2.
Qed.

Lemma key_eqb_num (a b : json) (p q : Q) :
  key_num a = Some p -> key_num b = Some q -> key_eqb a b = Qeq_bool p q.
Proof.
  destruct a as [|c|x| | |], b as [|d|y| | |]; simpl; intros Ha Hb; inv Ha; inv Hb;
    try reflexivity.
  destruct c, d; reflexivity.
Qed.

(** Two keys that are equal are equal to the same keys. *)
Lemma key_eqb_left (a b k : json) :
  key_eqb a b = true -> key_eqb a k = key_eqb b k.
Proof.
  intros H.
  destruct (key_num a) as [p|] eqn:Ha, (key_num b) as [q|] eqn:Hb.
  - rewrite (key_eqb_num a b p q Ha Hb) in H.
    destruct (key_num k) as [r|] eqn:Hk.
    + rewrite (key_eqb_num a k p r Ha Hk), (key_eqb_num b k q r Hb Hk).
      now apply Qeq_bool_left.
    + destruct a as [|c|x| | |], b as [|d|y| | |], k as [|u|z| | |];
        simpl in *; try discriminate; reflexivity.
  - destruct a as [|c|x| | |], b as [|d|y| | |]; simpl in *; discriminate.
  - destruct a as [|c|x| | |], b as [|d|y| | |]; simpl in *; discriminate.
  - destruct a as [|c|x|s| |], b as [|d|y|t| |]; simpl in *; try discriminate.
    + reflexivity.
    + apply String.eqb_eq in H. subst. reflexivity.
Qed.

Lemma count_of_bump_at (k b : json) (d : counter) :
  count_of k (bump_at b d) = count_of k d + (if key_eqb b k then 1 else 0).
Proof.
  unfold count_of. induction d as [|[k' n] d IH]; simpl.
  - destruct (key_eqb b k); reflexivity.
  - destruct (key_eqb k' b) eqn:E; simpl.
    + rewrite (key_eqb_left k' b k E).
      destruct (key_eqb b k); simpl; lia.
    + destruct (key_eqb k' k); simpl; rewrite IH; lia.
Qed.

Lemma count_entry_bucket (c : json) (t t' : counter) :
  CheckAcs.count_entry c t = Ret t' ->
  t' = match bucket c with Some b => bump_at b t | None => t end.
Proof.
  unfold CheckAcs.count_entry, bucket, getitem.
  destruct c as [| | | | |m]; simpl; try discriminate.
  destruct (lookup "contractEntry" m) as [ce|]; simpl; [|discriminate].
  destruct ce as [| | | | |its]; simpl; intros H; try (inv H; reflexivity).
  destruct (CheckAcs.probe_items its) as [ev|].
  - destruct ev as [| | | | |fields]; simpl in H; try discriminate.
    unfold bump in H.
    destruct (hashable _); inv H. reflexivity.
  - unfold bump in H. simpl in H. inv H. reflexivity.
Qed.

Lemma count_entries_tally (cs : list json) (k : json) :
  forall t t', CheckAcs.count_entries cs t = Ret t' ->
  count_of k t' = count_of k t + List.length (filter (counted_as k) cs).
Proof.
  induction cs as [|c cs IH]; simpl; intros t t' H.
  - inv H. lia.
  - destruct (CheckAcs.count_entry c t) as [t1|e] eqn:Hc; simpl in H; [|discriminate].
    apply count_entry_bucket in Hc. apply IH in H. rewrite H, Hc.
    unfold counted_as. destruct (bucket c) as [b|].
    + rewrite count_of_bump_at. destruct (key_eqb b k); simpl; lia.
    + lia.
Qed.

(** The count check-acs.py reports for a key is the number of entries
    it counted under that key: the entries whose located event has that
    [templateId], or, for the text of a key list, the entries where no
    event was located under those keys. *)
Theorem acs_count_is_manual_tally (contracts : list json) (templates : counter) (k : json) :
  CheckAcs.count_entries contracts [] = Ret templates ->
  count_of k templates = List.length (filter (counted_as k) contracts).
Proof.
  intros H. apply (count_entries_tally contracts k) in H. exact H.
Qed.

Lemma acs_count_is_manual_tally_witness :
  count_of (JStr "pkg:Mod:Token")
    [(JStr "pkg:Mod:Token", 2); (JStr "pkg:Mod:BridgeService", 1)]
  = List.length (filter (counted_as (JStr "pkg:Mod:Token"))
                   [Fixture.token_entry; Fixture.bridge_entry;
                    entry (wrapped "party-1" Fixture.token_event)]).
Proof.
  apply (acs_count_is_manual_tally
           [Fixture.token_entry; Fixture.bridge_entry;
            entry (wrapped "party-1" Fixture.token_event)]).
  reflexivity.
Defined.

(** *** The order of the printed lines *)

Lemma string_ltb_asym (s t : string) : String.ltb s t = true -> String.ltb t s = false.
Proof.
  unfold String.ltb. rewrite (String.compare_antisym t s).
  destruct (String.compare s t); simpl; congruence.
Qed.

Lemma Qlt_bool_asym (p q : Q) :
  negb (Qle_bool q p) = true -> negb (Qle_bool p q) = false.
Proof.
  intros H. apply negb_false_iff, Qle_bool_iff, Qlt_le_weak, Qnot_le_lt.
  intros G. apply Qle_bool_iff in G. rewrite G in H. discriminate H.
Qed.

Lemma key_ltb_asym (a b : json) : key_ltb a b = Ret true -> key_ltb b a = Ret false.
Proof.
  unfold key_ltb.
  destruct a as [|c|p|s| |], b as [|d|q|t| |]; simpl; try discriminate;
    intros H; injection H as H; f_equal;
    first [now apply string_ltb_asym | now apply Qlt_bool_asym].
Qed.

Lemma insert_item_sorted (x : json * nat) (d : counter) :
  forall d', insert_item x d = Ret d' ->
  Sorted not_above d -> Permutation (x :: d) d' /\ Sorted not_above d'
  /\ (forall y, HdRel not_above y d -> not_above y x -> HdRel not_above y d').
Proof.
  induction d as [|y d IH]; simpl; intros d' H Hs.
  - inv H. split; [reflexivity|]. split; [repeat constructor|].
    intros y _ Hy. constructor. exact Hy.
  - destruct (key_ltb (fst x) (fst y)) as [lt|e] eqn:Hlt; simpl in H; [|discriminate].
    destruct lt.
    + inv H. split; [reflexivity|]. split.
      * constructor; [exact Hs|]. constructor. unfold not_above.
        now apply key_ltb_asym.
      * intros z _ Hz. constructor. exact Hz.
    + destruct (insert_item x d) as [r|e] eqn:Hi; simpl in H; [|discriminate].
      inv H. inversion Hs as [|? ? Hs' Hhd]; subst.
      destruct (IH r eq_refl Hs') as (Hp & Hsr & Hh).
      split; [|split].
      * rewrite perm_swap. now constructor.
      * constructor; [exact Hsr|]. apply Hh; [exact Hhd|exact Hlt].
      * intros z Hz _. inversion Hz; subst. constructor. assumption.
Qed.

Lemma sorted_items_sorted (d d' : counter) :
  sorted_items d = Ret d' -> Permutation d d' /\ Sorted not_above d'.
Proof.
  revert d'. induction d as [|x d IH]; simpl; intros d' H.
  - inv H. split; constructor.
  - destruct (sorted_items d) as [r|e]; simpl in H; [|discriminate].
    destruct (IH r eq_refl) as [Hp Hs].
    destruct (insert_item_sorted x r d' H Hs) as (Hp' & Hs' & _).
    split; [|exact Hs'].
    rewrite <- Hp'. now constructor.
Qed.

Lemma print_counts_lines (items : counter) :
  forall w, exists w',
    CheckAcs.print_counts items w = (Ret tt, w')
    /\ out w' = out w ++ map line items.
Proof.
  induction items as [|[t n] items IH]; intros w.
  - exists w. simpl. rewrite app_nil_r. split; reflexivity.
  - cbn [CheckAcs.print_counts map]. unfold bind, print, emit.
    match goal with |- context [CheckAcs.print_counts items ?w1] =>
      destruct (IH w1) as (w' & Hr & Ho) end.
    exists w'. split; [exact Hr|]. rewrite Ho. cbn [out].
    rewrite <- app_assoc. reflexivity.
Qed.

(** For a list answer whose entries can be counted and whose counters
    can be sorted, check-acs.py prints the total and then one line for
    each counter: the lines are the counters themselves, none lost or
    repeated, in ascending order of their keys. *)
Theorem acs_lines_sorted (entries contracts : list json) (templates items : counter)
    (w : world) :
  CheckAcs.select entries = Ret contracts ->
  CheckAcs.count_entries contracts [] = Ret templates ->
  sorted_items templates = Ret items ->
  fst (CheckAcs.report (JArr entries) w) = Ret tt
  /\ out (snd (CheckAcs.report (JArr entries) w))
     = out w ++ total_line (List.length contracts) :: map line items
  /\ Permutation templates items
  /\ Sorted not_above items.
Proof.
  intros Hsel Hcount Hsort.
  destruct (sorted_items_sorted _ _ Hsort) as [Hp Hs].
  destruct (CheckAcs.report (JArr entries) w) as [r w'] eqn:E. cbn [fst snd].
  revert E. cbn [CheckAcs.report].
  unfold bind at 1, lift at 1. rewrite Hsel.
  unfold bind at 1, print at 1, emit.
  unfold bind at 1, lift at 1. rewrite Hcount.
  unfold bind at 1, lift at 1. rewrite Hsort.
  match goal with |- context [CheckAcs.print_counts items ?w1] =>
    destruct (print_counts_lines items w1) as (w2 & Hr & Ho) end.
  rewrite Hr. intros E. inversion E; subst; clear E.
  split; [reflexivity|]. split; [|split; assumption].
  rewrite Ho. cbn [out]. rewrite <- app_assoc. reflexivity.
Qed.

Lemma acs_lines_sorted_witness :
  fst (CheckAcs.report
         (JArr [Fixture.token_entry; Fixture.bridge_entry; Fixture.token_entry])
         (Fixture.start Fixture.refused)) = Ret tt
  /\ out (snd (CheckAcs.report
                 (JArr [Fixture.token_entry; Fixture.bridge_entry; Fixture.token_entry])
                 (Fixture.start Fixture.refused)))
     = out (Fixture.start Fixture.refused)
       ++ total_line 3
       :: map line [(JStr "pkg:Mod:BridgeService", 1); (JStr "pkg:Mod:Token", 2)]
  /\ Permutation [(JStr "pkg:Mod:Token", 2); (JStr "pkg:Mod:BridgeService", 1)]
                 [(JStr "pkg:Mod:BridgeService", 1); (JStr "pkg:Mod:Token", 2)]
  /\ Sorted not_above [(JStr "pkg:Mod:BridgeService", 1); (JStr "pkg:Mod:Token", 2)].
Proof.
  apply (acs_lines_sorted
           [Fixture.token_entry; Fixture.bridge_entry; Fixture.token_entry]
           [Fixture.token_entry; Fixture.bridge_entry; Fixture.token_entry]
           [(JStr "pkg:Mod:Token", 2); (JStr "pkg:Mod:BridgeService", 1)]);
    reflexivity.
Defined.

(** *** The requests of a run *)

Lemma print_counts_quiet (items : counter) : quiet (CheckAcs.print_counts items).
Proof.
  induction items as [|[t n] items IH]; simpl; [apply ret_quiet|].
  apply bind_quiet; [apply print_quiet|intros _; exact IH].
Qed.

Lemma report_quiet (data : json) : quiet (CheckAcs.report data).
Proof.
  destruct data as [|b|q|t|l|m]; simpl; quiet; try apply print_counts_quiet.
  destruct (has_key "code" m); quiet.
Qed.

(** Whatever the endpoint answers and however the answers decode,
    check-acs.py asks for the ledger end, then at most once for the active
    contracts, and sends nothing else. *)
Theorem acs_at_most_two_requests (lib : codec) (w : world) :
  exists n, n <= 1
    /\ requests (out (snd (CheckAcs.main lib w)))
       = requests (out w)
         ++ "http://localhost:7575/v2/state/ledger-end"
         :: firstn n ["http://localhost:7575/v2/state/active-contracts"].
Proof.
  unfold CheckAcs.main.
  unfold bind at 1, urlopen_read at 1.
  destruct (net w (n_req w)) as [raw0|e];
    [|exists 0; split; [lia|]; cbn [snd out]; rewrite requests_app; reflexivity].
  unfold bind at 1, lift at 1.
  destruct (loads_bytes lib raw0) as [doc|e];
    [|exists 0; split; [lia|]; cbn [snd out]; rewrite requests_app; reflexivity].
  unfold bind at 1, lift at 1.
  destruct (getitem doc "offset") as [offset|e];
    [|exists 0; split; [lia|]; cbn [snd out]; rewrite requests_app; reflexivity].
  unfold bind at 1, print at 1, emit. cbn [net n_req out clock rng n_clock n_rng].
  unfold bind at 1, urlopen_read at 1. cbn [net n_req out clock rng n_clock n_rng].
  exists 1. split; [lia|].
  destruct (net w (S (n_req w))) as [raw1|e].
  - match goal with |- context [bind ?m ?k ?w1] =>
      assert (Hq : quiet (bind m k)) by (quiet; apply report_quiet);
      rewrite (Hq w1)
    end.
    cbn [out]. rewrite !requests_app. cbn. rewrite app_nil_r, <- app_assoc. reflexivity.
  - cbn [snd out]. rewrite !requests_app. cbn. rewrite app_nil_r, <- app_assoc. reflexivity.
Qed.

End AcsTally.

(** ** query-acs.py: the records and the purge list *)

Section PurgeList.
Import Purge Lines.

Ltac inv H := inversion H; subst; clear H.

(** A contract that comes wrapped under a key, [JsActiveContract]
    included, is recorded without any of its fields and is never listed
    for purge, whatever its template; the same contract with its event
    directly under [contractEntry] is recorded with its fields and listed
    when its template mentions [Minted]. *)
Theorem query_acs_wrapped_never_listed
    (k t c : string) (a : json) (ble_cids : list json) :
  QueryAcs.extract (entry (wrapped k (event t c a))) = Ret (Some placeholder)
  /\ QueryAcs.ble_step placeholder ble_cids = Ret ble_cids
  /\ QueryAcs.extract (entry (flat (event t c a)))
     = Ret (Some (record (JStr c) (JStr t) (JStr "?")))
  /\ QueryAcs.ble_step (record (JStr c) (JStr t) (JStr "?")) ble_cids
     = Ret (if contains "Minted" t then ble_cids ++ [JStr c] else ble_cids).
Proof.
  split; [|split; [|split]].
  - unfold QueryAcs.extract, entry, wrapped. simpl.
    destruct (String.eqb k "createdEvent"); reflexivity.
  - reflexivity.
  - reflexivity.
  - unfold QueryAcs.ble_step, record. simpl.
    destruct (contains "Minted" t); reflexivity.
Qed.

Lemma any_in_str (needles : list string) (s : string) :
  QueryAcs.any_in needles (JStr s) = Ret (existsb (fun n => contains n s) needles).
Proof.
  induction needles as [|n needles IH]; simpl; [reflexivity|].
  destruct (contains n s); simpl; [reflexivity|exact IH].
Qed.

Lemma ble_step_listed (cid tid pkg : json) (ble_cids : list json) :
  readable tid = true ->
  QueryAcs.ble_step (record cid tid pkg) ble_cids
  = Ret (if listed tid then ble_cids ++ [cid] else ble_cids).
Proof.
  assert (Ht : getitem (record cid tid pkg) "tid" = Ret tid) by reflexivity.
  assert (Hc : getitem (record cid tid pkg) "cid" = Ret cid) by reflexivity.
  unfold QueryAcs.ble_step. rewrite Ht, Hc. cbn [rbind].
  unfold readable, listed.
  destruct tid as [|b|q|t|l|m]; try reflexivity.
  - intros _. destruct (contains "Minted" t); reflexivity.
  - unfold get.
    destruct (lookup "moduleName" m) as [[|b|q|name|l|x]|]; try discriminate; intros _;
      cbn [rbind]; rewrite any_in_str; cbn [rbind]; fold names.
    + destruct (existsb (fun n => contains n name) names); reflexivity.
    + reflexivity.
Qed.

(** The purge list of query-acs.py holds, in the order of the records,
    the contract id of every record whose template id is a string that
    mentions [Minted], or a dict whose [moduleName] mentions [Minted],
    [Compliance], [CantonDirect] or [CantonCoin]; no other id is on it. *)
Theorem query_acs_purge_list (rows : list (json * json * json)) (ble_cids : list json) :
  Forall (fun r => readable (snd (fst r)) = true) rows ->
  QueryAcs.ble_steps (map (fun r => record (fst (fst r)) (snd (fst r)) (snd r)) rows) ble_cids
  = Ret (ble_cids
         ++ map (fun r => fst (fst r)) (filter (fun r => listed (snd (fst r))) rows)).
Proof.
  intros H. revert ble_cids. induction H as [|[[cid tid] pkg] rows Hr _ IH]; intros acc; simpl.
  - now rewrite app_nil_r.
  - simpl in Hr. rewrite (ble_step_listed cid tid pkg acc Hr). simpl.
    rewrite IH. destruct (listed tid); simpl; [|reflexivity].
    now rewrite <- app_assoc.
Qed.

Lemma query_acs_purge_list_witness :
  QueryAcs.ble_steps
    [record (JStr "c1") (JStr "pkg:Minted.Protocol.V3:BridgeService") (JStr "ble");
     record (JStr "c2") (JStr "pkg:Splice.Amulet:Amulet") (JStr "splice");
     record (JStr "c3") (JObj [("moduleName", JStr "CantonDirectMint")]) (JStr "ble")]
    []
  = Ret [JStr "c1"; JStr "c3"].
Proof.
  apply (query_acs_purge_list
           [(JStr "c1", JStr "pkg:Minted.Protocol.V3:BridgeService", JStr "ble");
            (JStr "c2", JStr "pkg:Splice.Amulet:Amulet", JStr "splice");
            (JStr "c3", JObj [("moduleName", JStr "CantonDirectMint")], JStr "ble")] []).
  repeat constructor.
Defined.

Lemma any_in_raises (needles : list string) (v : json) (e : exn) :
  QueryAcs.any_in needles v = Raise e -> e = TypeError.
Proof.
  induction needles as [|n needles IH]; simpl; [discriminate|].
  destruct (str_in n v) as [[|]|x] eqn:Hv; simpl; try discriminate; [exact IH|].
  intros H. inv H. destruct v; simpl in Hv; congruence.
Qed.

Lemma ble_step_raises (cid tid pkg : json) (ble_cids : list json) (e : exn) :
  QueryAcs.ble_step (record cid tid pkg) ble_cids = Raise e -> e = TypeError.
Proof.
  assert (Ht : getitem (record cid tid pkg) "tid" = Ret tid) by reflexivity.
  assert (Hc : getitem (record cid tid pkg) "cid" = Ret cid) by reflexivity.
  unfold QueryAcs.ble_step. rewrite Ht, Hc. cbn [rbind].
  destruct tid as [|b|q|t|l|m]; try discriminate.
  - destruct (contains "Minted" t); discriminate.
  - unfold get. cbn [rbind].
    destruct (QueryAcs.any_in _ _) as [[|]|x] eqn:Ha; cbn [rbind]; try discriminate.
    intros H. inv H. now apply any_in_raises in Ha.
Qed.

Lemma extract_record (d c : json) : QueryAcs.extract d = Ret (Some c) -> is_record c.
Proof.
  unfold QueryAcs.extract.
  destruct (str_in "contractEntry" d) as [[|]|e]; simpl; try discriminate.
  destruct (getitem d "contractEntry") as [ce|e]; simpl; [|discriminate].
  destruct (get ce "createdEvent" (JObj [])) as [evt|e]; simpl; [|discriminate].
  destruct (get evt "contractId" (JStr "?")) as [cid|e]; simpl; [|discriminate].
  destruct (get evt "templateId" (JStr "?")) as [tid|e]; simpl; [|discriminate].
  destruct (get evt "packageName" (JStr "?")) as [pkg|e]; simpl; [|discriminate].
  intros H. inv H. exists cid, tid, pkg. reflexivity.
Qed.

Lemma records_of_records (lib : codec) (lines : list string) :
  Forall is_record (records_of lib lines).
Proof.
  unfold records_of. induction lines as [|line lines IH]; simpl; [constructor|].
  apply Forall_app. split; [|exact IH].
  unfold record_of. destruct (String.eqb (strip line) ""); [constructor|].
  destruct (d <- loads lib line;; QueryAcs.extract d)%res as [[c|]|e] eqn:E; try constructor.
  - destruct (loads lib line) as [d|e]; simpl in E; [|discriminate].
    now apply extract_record in E.
  - constructor.
Qed.

(** Whatever the endpoint sends, every element of the list [query_acs]
    returns is a dict with exactly the keys [cid], [tid] and [pkg], so the
    lookups of lines 62-68 never miss a key. *)
Theorem query_acs_returns_records (lib : codec) (party label : string) (w : world)
    (contracts : list json) :
  fst (QueryAcs.query_acs lib party label w) = Ret contracts ->
  Forall is_record contracts
  /\ forall c ble_cids e,
       In c contracts -> QueryAcs.ble_step c ble_cids = Raise e -> e = TypeError.
Proof.
  intros H.
  assert (Hrec : Forall is_record contracts).
  { revert H. unfold QueryAcs.query_acs.
    unfold bind at 1, print at 1, emit. cbn [net n_req out clock rng n_clock n_rng].
    unfold bind at 1, urlopen_read at 1. cbn [net n_req out clock rng n_clock n_rng].
    destruct (net w (n_req w)) as [raw0|e]; [|discriminate].
    unfold bind at 1, lift at 1.
    destruct (loads_bytes lib raw0) as [doc|e]; [|discriminate].
    unfold bind at 1, lift at 1.
    destruct (getitem doc "offset") as [offset|e]; [|discriminate].
    unfold bind at 1, print at 1, emit. cbn [net n_req out clock rng n_clock n_rng].
    unfold bind at 1, urlopen_read at 1. cbn [net n_req out clock rng n_clock n_rng].
    destruct (net w (S (n_req w))) as [raw1|e]; [|discriminate].
    unfold bind at 1, lift at 1.
    destruct (decode lib raw1) as [text|e]; [|discriminate].
    unfold bind at 1.
    match goal with |- context [QueryAcs.steps lib ?ls [] ?w1] =>
      destruct (steps_records lib ls [] w1) as (w2 & Hs & _)
    end.
    rewrite Hs. simpl app.
    pose proof (records_of_records lib (split QueryAcs.newline (strip text))) as Hall.
    destruct (records_of lib (split QueryAcs.newline (strip text))) as [|c cs];
      cbn; intros H; inv H; [constructor|exact Hall]. }
  split; [exact Hrec|].
  intros c acc e Hin Hraise.
  rewrite Forall_forall in Hrec. destruct (Hrec c Hin) as (cid & tid & pkg & ->).
  apply (ble_step_raises cid tid pkg acc e Hraise).
Qed.

Lemma query_acs_returns_records_witness :
  Forall is_record
    [record (JStr "?") (JStr "?") (JStr "?");
     record (JStr "c2") (JStr "pkg:Mod:Token") (JStr "?")].
Proof.
  apply (query_acs_returns_records Lite.codec QueryAcs.PARTY "validator-1"
           (Fixture.start (Fixture.serving Fixture.ndjson_body))).
  reflexivity.
Defined.

End PurgeList.

(** ** Strings: substrings, [split] and [join] *)

Section StringFacts.

Lemma append_assoc (a b c : string) : ((a ++ b) ++ c)%string = (a ++ (b ++ c))%string.
Proof. induction a as [|x a IH]; simpl; [reflexivity|now rewrite IH]. Qed.

Lemma append_nil_r (a : string) : (a ++ "")%string = a.
Proof. induction a as [|x a IH]; simpl; [reflexivity|now rewrite IH]. Qed.

Lemma prefix_app (n post : string) : String.prefix n (n ++ post) = true.
Proof.
  induction n as [|c n IH]; simpl; [now destruct post|].
  destruct (Ascii.ascii_dec c c) as [_|N]; [exact IH|now contradiction N].
Qed.

Lemma prefix_inv (n h : string) :
  String.prefix n h = true -> exists post, h = (n ++ post)%string.
Proof.
  revert h. induction n as [|c n IH]; intros h H.
  - exists h. reflexivity.
  - destruct h as [|d h]; simpl in H; [discriminate|].
    destruct (Ascii.ascii_dec c d) as [->|_]; [|discriminate].
    destruct (IH h H) as [post ->]. exists post. reflexivity.
Qed.

(** [needle in hay] holds exactly when [hay] is some text, [needle], and
    some text. *)
Lemma contains_iff (needle hay : string) :
  contains needle hay = true
  <-> exists pre post, hay = (pre ++ needle ++ post)%string.
Proof.
  split.
  - induction hay as [|c hay IH]; cbn [contains]; intros H.
    + rewrite Bool.orb_false_r in H.
      destruct needle; [|discriminate]. exists "", "". reflexivity.
    + apply Bool.orb_true_iff in H. destruct H as [H|H].
      * apply prefix_inv in H. destruct H as [post ->]. exists "", post. reflexivity.
      * destruct (IH H) as (pre & post & ->). exists (String c pre), post. reflexivity.
  - intros (pre & post & ->). induction pre as [|c pre IH].
    + change ("" ++ needle ++ post)%string with (needle ++ post)%string.
      destruct (needle ++ post)%string eqn:E; cbn [contains].
      * destruct needle; [reflexivity|discriminate].
      * rewrite <- E, prefix_app. reflexivity.
    + change (String c pre ++ needle ++ post)%string
        with (String c (pre ++ needle ++ post))%string.
      cbn [contains]. rewrite IH. apply Bool.orb_true_r.
Qed.

Lemma contains_longer (a b c hay : string) :
  contains (a ++ b ++ c) hay = true -> contains b hay = true.
Proof.
  intros H. apply contains_iff in H. destruct H as (pre & post & ->).
  apply contains_iff. exists (pre ++ a)%string, (c ++ post)%string.
  now rewrite !append_assoc.
Qed.

Lemma split_cons (c : ascii) (s : string) : exists p ps, split c s = p :: ps.
Proof.
  induction s as [|x s (p & ps & IH)]; simpl; [now eexists; eexists|].
  destruct (Ascii.eqb x c); [now eexists; eexists|].
  rewrite IH. now eexists; eexists.
Qed.

Lemma join_cons (sep x y : string) (l : list string) :
  join sep (x :: y :: l) = (x ++ sep ++ join sep (y :: l))%string.
Proof. reflexivity. Qed.

(** Joining the parts of a string with the separator gives the string
    back. *)
Lemma join_split (c : ascii) (s : string) :
  join (String c "") (split c s) = s.
Proof.
  induction s as [|x s IH]; simpl; [reflexivity|].
  destruct (split_cons c s) as (p & ps & E). rewrite E in *.
  destruct (Ascii.eqb_spec x c) as [->|_].
  - rewrite join_cons, IH. reflexivity.
  - destruct ps as [|q ps].
    + simpl in *. now rewrite IH.
    + rewrite join_cons. rewrite join_cons in IH. rewrite <- IH. reflexivity.
Qed.

Lemma join_app (sep : string) (xs ys : list string) :
  xs <> [] -> ys <> [] ->
  join sep (xs ++ ys) = (join sep xs ++ sep ++ join sep ys)%string.
Proof.
  intros Hx Hy. induction xs as [|x xs IH]; [now contradiction Hx|].
  destruct xs as [|x' xs].
  - destruct ys as [|y ys]; [now contradiction Hy|]. reflexivity.
  - change ((x :: x' :: xs) ++ ys) with (x :: (x' :: xs) ++ ys).
    simpl app. rewrite !join_cons.
    change (x' :: xs ++ ys) with ((x' :: xs) ++ ys). rewrite IH by discriminate.
    now rewrite !append_assoc.
Qed.

(** A part holds no separator: it splits into itself. *)
Lemma split_parts (c : ascii) (s : string) :
  Forall (fun p => split c p = [p]) (split c s).
Proof.
  induction s as [|x s IH]; simpl; [repeat constructor|].
  destruct (Ascii.eqb x c) eqn:E; [constructor; [reflexivity|exact IH]|].
  destruct (split c s) as [|p ps];
    [constructor; [simpl; rewrite E; reflexivity|constructor]|].
  inversion IH as [|? ? Hp Hps]; subst. constructor; [|exact Hps].
  simpl. rewrite E, Hp. reflexivity.
Qed.

Lemma split_app (c : ascii) (a r : string) :
  split c a = [a] -> split c (a ++ String c r) = a :: split c r.
Proof.
  induction a as [|x a IH]; simpl; intros H.
  - now rewrite Ascii.eqb_refl.
  - destruct (Ascii.eqb x c); [discriminate|].
    destruct (split_cons c a) as (p & ps & E). rewrite E in H.
    injection H as -> ->. rewrite (IH E). reflexivity.
Qed.

Lemma last_two {A : Type} (d : A) (l : list A) :
  2 <= List.length l ->
  skipn (List.length l - 2) l = [nth (List.length l - 2) l d; last l d].
Proof.
  induction l as [|a l IH]; simpl; [lia|]. intros H.
  destruct l as [|b l]; [simpl in H; lia|].
  destruct l as [|c l]; [reflexivity|].
  assert (H2 : 2 <= List.length (b :: c :: l)) by (simpl; lia).
  specialize (IH H2).
  replace (List.length (b :: c :: l) - 1) with (S (List.length (b :: c :: l) - 2))
    by (simpl; lia).
  cbn [skipn nth]. rewrite IH. reflexivity.
Qed.

Lemma substring_length (n m : nat) (s : string) :
  n + m <= String.length s -> String.length (String.substring n m s) = m.
Proof.
  revert n m. induction s as [|c s IH]; intros n m H; simpl in H.
  - assert (n = 0) by lia. assert (m = 0) by lia. subst. reflexivity.
  - destruct n as [|n]; simpl.
    + destruct m as [|m]; [reflexivity|]. simpl. rewrite IH by lia. reflexivity.
    + apply IH. lia.
Qed.

End StringFacts.

(** ** Short template names *)

Section ShortNames.
Import CheckCantonContracts.

Ltac inv H := inversion H; subst; clear H.

Lemma short_name_parts (t : string) :
  3 <= List.length (split ":"%char t) ->
  exists pre a b,
    t = (pre ++ ":" ++ a ++ ":" ++ b)%string
    /\ short_name t = (a ++ ":" ++ b)%string
    /\ skipn (List.length (split ":"%char t) - 2) (split ":"%char t) = [a; b]
    /\ split ":"%char a = [a] /\ split ":"%char b = [b].
Proof.
  intros H. set (parts := split ":"%char t) in *.
  assert (H2 : 2 <= List.length parts) by lia.
  pose proof (last_two "" parts H2) as Hlast.
  pose proof (firstn_skipn (List.length parts - 2) parts) as Hcut.
  pose proof (join_split ":"%char t) as Hjoin. fold parts in Hjoin.
  pose proof (split_parts ":"%char t) as Hparts. fold parts in Hparts.
  exists (join ":" (firstn (List.length parts - 2) parts)),
         (nth (List.length parts - 2) parts ""), (last parts "").
  assert (Hshort : short_name t
                   = (nth (List.length parts - 2) parts "" ++ ":" ++ last parts "")%string).
  { unfold short_name. fold parts. destruct (Nat.leb_spec 3 (List.length parts)); [|lia].
    reflexivity. }
  split; [|split; [exact Hshort|split; [exact Hlast|]]].
  - rewrite <- Hjoin at 1. rewrite <- Hcut at 1. rewrite Hlast.
    rewrite join_app; [reflexivity| |discriminate].
    intros E. apply (f_equal (@List.length string)) in E.
    rewrite length_firstn in E. simpl in E. lia.
  - rewrite <- Hcut, Hlast in Hparts. apply Forall_app in Hparts.
    destruct Hparts as [_ Hp].
    inversion Hp as [|? ? Ha Hr]. inversion Hr as [|? ? Hb _]. split; assumption.
Qed.

(** check-bridge-contracts.py and check-canton-contracts.py shorten a
    template id in the same way.  The short name is the end of the id: an
    id with at least two colons loses everything up to its second colon
    from the end, which leaves [Module:Entity]; an id with fewer colons is
    kept whole. *)
Theorem short_names_agree (t : string) :
  CheckBridgeContracts.short (JStr t) = Ret (JStr (short_name t))
  /\ (exists pre, t = (pre ++ short_name t)%string)
  /\ (List.length (split ":"%char t) < 3 -> short_name t = t)
  /\ (3 <= List.length (split ":"%char t) ->
      List.length (split ":"%char (short_name t)) = 2).
Proof.
  destruct (Nat.leb_spec 3 (List.length (split ":"%char t))) as [H|H].
  - destruct (short_name_parts t H) as (pre & a & b & Ht & Hs & Hk & Ha & Hb).
    split; [|split; [|split]].
    + unfold CheckBridgeContracts.short, split_colon. cbn [rbind].
      destruct (Nat.leb_spec 3 (List.length (split ":"%char t))); [|lia].
      rewrite Hk, Hs. reflexivity.
    + exists (pre ++ ":")%string. rewrite Hs, append_assoc. exact Ht.
    + intros G. lia.
    + intros _. rewrite Hs.
      change (a ++ ":" ++ b)%string with (a ++ String ":"%char b)%string.
      rewrite (split_app ":"%char a b Ha), Hb. reflexivity.
  - assert (E : short_name t = t).
    { unfold short_name. destruct (Nat.leb_spec 3 (List.length (split ":"%char t))); [lia|].
      reflexivity. }
    split; [|split; [|split]].
    + unfold CheckBridgeContracts.short, split_colon. cbn [rbind].
      destruct (Nat.leb_spec 3 (List.length (split ":"%char t))); [lia|].
      rewrite E. reflexivity.
    + exists "". rewrite E. reflexivity.
    + intros _. exact E.
    + intros G. lia.
Qed.

(** *** The groups of check-canton-contracts.py *)

Lemma step_short (entry : json) (g g' : groups) :
  step entry g = Ret g' ->
  g' = g
  \/ exists evt t, getitem evt "templateId" = Ret (JStr t)
                   /\ g' = add_event (short_name t) evt g.
Proof.
  unfold step.
  destruct (get entry "contractEntry" (JObj [])) as [ce|e]; simpl; [|discriminate].
  destruct (get_none ce "JsActiveContract") as [ac|e]; simpl; [|discriminate].
  destruct (truthy ac); simpl; [|intros H; inv H; now left].
  destruct (getitem ac "createdEvent") as [evt|e]; simpl; [|discriminate].
  destruct (getitem evt "templateId") as [tid|e] eqn:Ht; simpl; [|discriminate].
  destruct tid as [| | |t| |]; simpl; try discriminate.
  intros H. inv H. right. exists evt, t. split; [exact Ht|]. reflexivity.
Qed.

End ShortNames.

(** ** check-canton-contracts.py: groups and details *)

Section CantonContracts.
Import CheckCantonContracts Grouping Traces.

Ltac inv H := inversion H; subst; clear H.

Lemma add_event_filed (k : string) (evt : json) (g : groups) :
  filed_under k evt ->
  NoDup (map fst g) -> Forall well_filed g ->
  NoDup (map fst (add_event k evt g)) /\ Forall well_filed (add_event k evt g)
  /\ (forall x, In x (map fst (add_event k evt g)) -> x = k \/ In x (map fst g)).
Proof.
  intros Hk. induction g as [|[k' evts] g IH]; simpl; intros Hn Hw.
  - split; [|split].
    + constructor; [intros []|constructor].
    + constructor; [|constructor]. split; [discriminate|]. simpl. now constructor.
    + intros x [<-|[]]. now left.
  - inv Hn. inv Hw. destruct (String.eqb_spec k' k) as [->|Hne]; simpl.
    + split; [|split].
      * now constructor.
      * constructor; [|assumption]. destruct H3 as [_ Hall]. split; simpl.
        -- now destruct evts.
        -- apply Forall_app. split; [exact Hall|now constructor].
      * intros x Hx. now right.
    + destruct (IH H2 H4) as (Hn' & Hw' & Hin).
      split; [|split].
      * constructor; [|exact Hn']. intros Hx. apply Hin in Hx.
        destruct Hx as [E|Hx]; [now apply Hne|now apply H1].
      * now constructor.
      * intros x [<-|Hx]; [right; now left|].
        apply Hin in Hx. destruct Hx as [E|Hx]; [now left|right; now right].
Qed.

Lemma group_filed (es : list json) :
  forall g g',
    group es g = Ret g' ->
    NoDup (map fst g) -> Forall well_filed g ->
    NoDup (map fst g') /\ Forall well_filed g'.
Proof.
  induction es as [|e es IH]; simpl; intros g g' H Hn Hw.
  - inv H. split; assumption.
  - destruct (step e g) as [g1|x] eqn:Hs; simpl in H; [|discriminate].
    apply step_short in Hs. destruct Hs as [->|(evt & t & Ht & ->)].
    + apply (IH g g' H Hn Hw).
    + assert (Hf : filed_under (short_name t) evt) by (exists t; split; [exact Ht|reflexivity]).
      destruct (add_event_filed (short_name t) evt g Hf Hn Hw) as (Hn1 & Hw1 & _).
      apply (IH _ g' H Hn1 Hw1).
Qed.

(** In [by_template] no name appears twice, no group is empty, and
    every event sits under the short name of its own template id. *)
Theorem canton_contracts_groups_well_filed (contracts : list json) (by_template : groups) :
  group contracts [] = Ret by_template ->
  NoDup (map fst by_template) /\ Forall well_filed by_template.
Proof.
  intros H. apply (group_filed contracts [] by_template H); constructor.
Qed.

Lemma canton_contracts_groups_well_filed_witness :
  NoDup (map fst [("Mod:BridgeService", [Fixture.bridge_event; Fixture.bridge_event])])
  /\ Forall well_filed [("Mod:BridgeService", [Fixture.bridge_event; Fixture.bridge_event])].
Proof.
  apply (canton_contracts_groups_well_filed
           [Fixture.bridge_entry; Fixture.token_entry; Fixture.bridge_entry]).
  reflexivity.
Defined.

Lemma shorten_length (v : json) (s : string) :
  shorten v = JStr s ->
  String.length s <= 40
  /\ forall s0, v = JStr s0 ->
       if 40 <? String.length s0 then String.length s = 33 else s = s0.
Proof.
  unfold shorten. destruct v as [| | |s0| |]; try discriminate.
  destruct (Nat.ltb_spec 40 (String.length s0)) as [Hlong|Hshort]; intros H; inv H.
  - assert (E : String.length
                  (String.substring 0 20 s0
                   ++ String "." (String "." (String "."
                        (String.substring (String.length s0 - 10) 10 s0))))%string = 33).
    { rewrite length_append. cbn [String.length].
      rewrite !substring_length by lia. reflexivity. }
    split; [rewrite E; lia|]. intros s1 E1. inv E1.
    destruct (Nat.ltb_spec 40 (String.length s1)); [exact E|lia].
  - split; [exact Hshort|]. intros s1 E1. inv E1.
    destruct (Nat.ltb_spec 40 (String.length s1)); [lia|reflexivity].
Qed.

Lemma summarize_dict (keys : list string) (m : list (string * json)) :
  summarize keys (JObj m) = Ret (flat_map (shown m) keys).
Proof.
  induction keys as [|k keys IH]; simpl; [reflexivity|].
  unfold has_key, shown. destruct (lookup k m) as [v|]; simpl.
  - rewrite IH. reflexivity.
  - exact IH.
Qed.

Lemma summarize_fields (keys : list string) (payload : json) :
  forall fields,
    summarize keys payload = Ret fields ->
    Forall (fun kv => In (fst kv) keys
                      /\ forall s, snd kv = JStr s -> String.length s <= 40) fields.
Proof.
  induction keys as [|k keys IH]; simpl; intros fields H.
  - inv H. constructor.
  - assert (weaken : forall fs,
               Forall (fun kv => In (fst kv) keys
                        /\ (forall s, snd kv = JStr s -> String.length s <= 40)) fs ->
               Forall (fun kv => (k = fst kv \/ In (fst kv) keys)
                        /\ (forall s, snd kv = JStr s -> String.length s <= 40)) fs).
    { intros fs Hfs. eapply Forall_impl; [|exact Hfs].
      intros kv [Hin Hlen]. split; [now right|exact Hlen]. }
    destruct (str_in k payload) as [has|e]; simpl in H; [|discriminate].
    destruct has.
    + destruct (getitem payload k) as [v|e]; simpl in H; [|discriminate].
      destruct (summarize keys payload) as [fs|e]; simpl in H; [|discriminate].
      inv H. constructor; [|apply weaken, IH; reflexivity].
      split; [now left|]. simpl. intros s Hs. now apply shorten_length in Hs.
    + apply weaken, IH. exact H.
Qed.

Lemma summarize_length (keys : list string) (payload : json) :
  forall fields, summarize keys payload = Ret fields ->
  List.length fields <= List.length keys.
Proof.
  induction keys as [|k keys IH]; simpl; intros fields H; [inv H; simpl; lia|].
  destruct (str_in k payload) as [[|]|e]; simpl in H; try discriminate.
  - destruct (getitem payload k) as [v|e]; simpl in H; [|discriminate].
    destruct (summarize keys payload) as [fs|e]; simpl in H; [|discriminate].
    inv H. simpl. specialize (IH fs eq_refl). lia.
  - specialize (IH fields H). lia.
Qed.

(** The payload summary of a contract shows only the nine chosen
    fields, in their fixed order, and no string of more than 40
    characters: a longer one is cut to 33.  For a payload that is a dict
    the summary is the chosen fields the dict has. *)
Theorem canton_contracts_summary_bounded (payload : json) (fields : list (string * json)) :
  summarize summary_keys payload = Ret fields ->
  Forall (fun kv => In (fst kv) summary_keys
                    /\ forall s, snd kv = JStr s -> String.length s <= 40) fields
  /\ List.length fields <= 9
  /\ (forall m, payload = JObj m -> fields = flat_map (shown m) summary_keys)
  /\ (forall s, 40 < String.length s ->
        exists cut, shorten (JStr s) = JStr cut /\ String.length cut = 33).
Proof.
  intros H. split; [exact (summarize_fields summary_keys payload fields H)|].
  split; [|split].
  - apply summarize_length in H. exact H.
  - intros m ->. rewrite summarize_dict in H. now inv H.
  - intros s Hs. unfold shorten.
    destruct (Nat.ltb_spec 40 (String.length s)); [|lia].
    eexists. split; [reflexivity|].
    rewrite length_append. cbn [String.append String.length].
    rewrite !substring_length by lia. reflexivity.
Qed.

Lemma canton_contracts_summary_bounded_witness :
  Forall (fun kv : string * json =>
            In (fst kv) summary_keys
            /\ forall s, snd kv = JStr s -> String.length s <= 40)
         [("amount", JStr "5.0")].
Proof.
  apply (canton_contracts_summary_bounded (JObj [("amount", JStr "5.0")])).
  reflexivity.
Defined.

Lemma detail_one_line (evt : json) (w w' : world) :
  detail evt w = (Ret tt, w') -> exists line, out w' = out w ++ [line].
Proof.
  unfold detail, bind, lift, print, emit.
  destruct (getitem evt "contractId") as [raw|e]; [|discriminate].
  destruct (slice_to 20 raw) as [head|e]; [|discriminate].
  destruct (add_dots head) as [cid|e]; [|discriminate].
  destruct (get evt "createArgument" (JObj [])) as [payload|e]; [|discriminate].
  destruct (summarize summary_keys payload) as [[|f fs]|e]; [| |discriminate].
  - destruct (keys_of payload) as [keys|e]; [|discriminate].
    intros H. inv H. eexists. reflexivity.
  - intros H. inv H. eexists. reflexivity.
Qed.

Lemma details_lines (events : list json) :
  forall w w', details events w = (Ret tt, w') ->
  exists lines, out w' = out w ++ lines /\ List.length lines = List.length events.
Proof.
  induction events as [|evt events IH]; simpl; intros w w' H.
  - inv H. exists []. now rewrite app_nil_r.
  - unfold bind in H. destruct (detail evt w) as [[[]|e] w1] eqn:Hd; [|discriminate].
    apply detail_one_line in Hd. destruct Hd as [line Hl].
    apply IH in H. destruct H as (lines & Ho & Hn).
    exists (line :: lines). rewrite Ho, Hl, <- app_assoc. split; [reflexivity|].
    simpl. now rewrite Hn.
Qed.

(** Under the heading of a template check-canton-contracts.py details
    at most five contracts, one line each, and adds a line with the number
    left out exactly when there are more than five. *)
Theorem canton_contracts_at_most_five_details
    (tpl : string) (events : list json) (w : world) :
  fst (print_group (tpl, events) w) = Ret tt ->
  exists lines,
    out (snd (print_group (tpl, events) w))
    = out w
      ++ Print "\n  [{tpl}] — {len(events)} contract(s)" [JStr tpl; count (List.length events)]
      :: lines
      ++ (if 5 <? List.length events
          then [Print "    ... and {len(events) - 5} more" [count (List.length events - 5)]]
          else [])
    /\ List.length lines = Nat.min 5 (List.length events).
Proof.
  intros Hret.
  destruct (print_group (tpl, events) w) as [r w'] eqn:E. cbn [fst snd] in *. subst r.
  revert E. unfold print_group.
  unfold bind at 1, print at 1, emit. cbn [net n_req out clock rng n_clock n_rng].
  unfold bind at 1.
  match goal with |- context [details ?evs ?w1] =>
    destruct (details evs w1) as [[[]|e] w2] eqn:Hd
  end; [|discriminate].
  apply details_lines in Hd. destruct Hd as (lines & Ho & Hn). cbn [out] in Ho.
  intros E. exists lines. rewrite length_firstn in Hn. split; [|exact Hn].
  destruct (5 <? List.length events).
  - unfold print, emit in E. inv E. cbn [out]. rewrite Ho, <- !app_assoc. reflexivity.
  - unfold ret in E. inv E. rewrite Ho, <- !app_assoc, app_nil_r. reflexivity.
Qed.

Lemma canton_contracts_at_most_five_details_witness :
  exists lines,
    out (snd (print_group ("Mod:Token", repeat Fixture.token_event 7)
                (Fixture.start Fixture.refused)))
    = Print "\n  [{tpl}] — {len(events)} contract(s)" [JStr "Mod:Token"; count 7]
      :: lines ++ [Print "    ... and {len(events) - 5} more" [count 2]]
    /\ List.length lines = 5.
Proof.
  destruct (canton_contracts_at_most_five_details "Mod:Token"
              (repeat Fixture.token_event 7) (Fixture.start Fixture.refused) eq_refl)
    as (lines & Ho & Hn).
  exists lines. split; [exact Ho|exact Hn].
Defined.

End CantonContracts.

(** ** check-bridge-contracts.py: filing an entry *)

Section BridgeContracts.
Import CheckBridgeContracts Grouping.

Ltac inv H := inversion H; subst; clear H.

(** An entry check-bridge-contracts.py extracts from always adds its
    template to [all_templates]; it goes to [bridge_ins] when the text of
    the template mentions [BridgeInRequest], and otherwise to
    [musd_tokens] when the text mentions [MUSD] (the tests for
    [MintedMUSD] and [CantonMUSD] add nothing to that); it is never in
    both lists. *)
Theorem bridge_contracts_filing (lib : codec) (entry : json)
    (x : json * json * json) (acc : lists) :
  extract entry = Ret (Some x) ->
  step lib entry acc = Ret (filed lib x acc)
  /\ List.length (bridge_ins (filed lib x acc)) + List.length (musd_tokens (filed lib x acc))
     <= List.length (bridge_ins acc) + List.length (musd_tokens acc) + 1.
Proof.
  intros H. unfold step, filed. rewrite H. cbn [rbind].
  destruct x as [[tid args] cid]. cbn [fst snd].
  set (text := str (numeral lib) tid).
  assert (E : contains "MUSD" text || contains "MintedMUSD" text || contains "CantonMUSD" text
              = contains "MUSD" text).
  { destruct (contains "MUSD" text) eqn:E1; [reflexivity|].
    destruct (contains "MintedMUSD" text) eqn:E2.
    - apply (contains_longer "Minted" "MUSD" "") in E2. congruence.
    - destruct (contains "CantonMUSD" text) eqn:E3; [|reflexivity].
      apply (contains_longer "Canton" "MUSD" "") in E3. congruence. }
  rewrite E.
  destruct (contains "BridgeInRequest" text); cbn [negb andb].
  - split; [now rewrite app_nil_r|]. cbn. rewrite !length_app. simpl. lia.
  - destruct (contains "MUSD" text).
    + split; [now rewrite app_nil_r|]. cbn. rewrite !length_app. simpl. lia.
    + split; [now rewrite !app_nil_r|]. cbn. rewrite !length_app. simpl. lia.
Qed.

Lemma bridge_contracts_filing_witness :
  step Lite.codec (entry (wrapped "JsActiveContract" Fixture.musd_event))
       (mkLists [] [] [])
  = Ret (mkLists []
           [(JStr "pkg:CantonDirectMint:CantonMUSD",
             JObj [("owner", JStr "alice"); ("amount", JStr "7.0")],
             JStr "c3")]
           [JStr "pkg:CantonDirectMint:CantonMUSD"]).
Proof.
  apply (bridge_contracts_filing Lite.codec
           (entry (wrapped "JsActiveContract" Fixture.musd_event))
           (JStr "pkg:CantonDirectMint:CantonMUSD",
            JObj [("owner", JStr "alice"); ("amount", JStr "7.0")],
            JStr "c3")
           (mkLists [] [] [])).
  reflexivity.
Defined.

(** An answer that is neither a list nor a dict with a [result], such
    as the error document of the ledger, is taken for an empty list of
    entries: the script prints a total of zero and counts nothing, and
    does not raise. *)
Theorem bridge_contracts_no_result_is_empty (lib : codec) (data : json) :
  is_list data = false ->
  (forall m, data = JObj m -> lookup "result" m = None) ->
  entries_of data = Ret (JArr []) /\ tally lib (JArr []) = Ret (0, []).
Proof.
  intros Hl Hm. split; [|reflexivity].
  destruct data as [| | | | |m]; try reflexivity; try discriminate.
  simpl. rewrite (Hm m eq_refl). reflexivity.
Qed.

Lemma bridge_contracts_no_result_is_empty_witness :
  entries_of (JObj [("code", JStr "INVALID_ARGUMENT"); ("cause", JStr "bad offset")])
  = Ret (JArr [])
  /\ tally Lite.codec (JArr []) = Ret (0, []).
Proof.
  apply (bridge_contracts_no_result_is_empty Lite.codec).
  - reflexivity.
  - intros m H. inversion H. reflexivity.
Defined.

End BridgeContracts.

(** ** bootstrap-http.py: the two creations *)

Section Bootstrap.
Import BootstrapHttp Generation Answers Traces.

Variable lib : codec.

Ltac inv H := inversion H; subst; clear H.

Lemma submit_answered (act_as read_as commands : json) (w : world) :
  answered lib (net w (n_req w)) ->
  exists ok result,
    submit lib act_as read_as commands w
    = (Ret (ok, result),
       commanded w
         [Req "http://localhost:7575/v2/commands/submit-and-wait"
              (Some (envelope act_as read_as commands
                       (cmd_id_text (clock w (n_clock w)) (suffix (rng w) (n_rng w)))))])
    /\ (ok = false -> exists err, result = JStr err).
Proof.
  intros [(raw & text & result & Ha & Hd & Hl)|(code & bytes & err & Ha & Hd)].
  - exists true, result. split; [|discriminate].
    unfold submit, bind at 1. rewrite cmd_id_run.
    unfold try_except, bind, urlopen_read, lift, ret. cbn [net n_req out clock rng].
    rewrite Ha, Hd. cbn. rewrite Hl. reflexivity.
  - exists false, (JStr err). split; [|intros _; now exists err].
    unfold submit, bind at 1. rewrite cmd_id_run.
    unfold try_except, bind, urlopen_read, lift, ret. cbn [net n_req out clock rng].
    rewrite Ha. cbn. rewrite Hd. reflexivity.
Qed.

Lemma announce_line (what : string) (ok : bool) (result : json) (w : world) :
  (ok = false -> exists err, result = JStr err) ->
  exists line,
    announce what (ok, result) w
    = (Ret tt, mkWorld (net w) (clock w) (rng w) (n_req w) (n_clock w) (n_rng w)
                 (out w ++ [line]))
    /\ requests [line] = [].
Proof.
  intros H. unfold announce. destruct ok.
  - eexists. split; reflexivity.
  - destruct (H eq_refl) as [err ->].
    unfold bind, lift, print, emit. cbn. eexists. split; reflexivity.
Qed.

(** When each of the two submissions is answered, by an
    acknowledgement or by an error status, [main] runs to its end and
    sends both commands: a rejected BridgeService does not keep the
    LiquidityPool from being submitted. *)
Theorem bootstrap_goes_on_after_rejection (w : world) :
  answered lib (net w (n_req w)) ->
  answered lib (net w (S (n_req w))) ->
  fst (main lib w) = Ret tt
  /\ requests (out (snd (main lib w)))
     = requests (out w)
       ++ ["http://localhost:7575/v2/commands/submit-and-wait";
           "http://localhost:7575/v2/commands/submit-and-wait"]
  /\ List.length (prints (out (snd (main lib w)))) = List.length (prints (out w)) + 6.
Proof.
  intros H0 H1.
  destruct (main lib w) as [r w'] eqn:E. cbn [fst snd].
  revert E. unfold main.
  unfold bind at 1, print at 1, emit. cbn [net n_req out clock rng n_clock n_rng].
  unfold bind at 1, print at 1, emit. cbn [net n_req out clock rng n_clock n_rng].
  unfold bind at 1, create_contract at 1.
  match goal with |- context [submit lib ?a ?r ?c ?w1] =>
    destruct (submit_answered a r c w1 H0) as (ok1 & res1 & -> & Hres1)
  end.
  unfold bind at 1.
  match goal with |- context [announce ?what ?o ?w1] =>
    destruct (announce_line what ok1 res1 w1 Hres1) as (line1 & -> & Hl1)
  end.
  unfold bind at 1, print at 1, emit. cbn [net n_req out clock rng n_clock n_rng commanded].
  unfold bind at 1, create_contract at 1.
  match goal with |- context [submit lib ?a ?r ?c ?w1] =>
    destruct (submit_answered a r c w1 H1) as (ok2 & res2 & -> & Hres2)
  end.
  unfold bind at 1.
  match goal with |- context [announce ?what ?o ?w1] =>
    destruct (announce_line what ok2 res2 w1 Hres2) as (line2 & -> & Hl2)
  end.
  unfold print, emit. cbn [net n_req out clock rng n_clock n_rng commanded].
  intros E. inv E. cbn [out]. split; [reflexivity|]. split.
  - rewrite !requests_app, Hl1, Hl2. cbn. rewrite !app_nil_r, <- !app_assoc. reflexivity.
  - unfold prints. rewrite !filter_app, !length_app.
    assert (P : forall line, requests [line] = [] ->
                  List.length (filter (fun e => match e with
                                                | Print _ _ => true
                                                | Req _ _ => false
                                                end) [line]) = 1).
    { intros [url p|t f]; simpl; [discriminate|reflexivity]. }
    rewrite (P line1 Hl1), (P line2 Hl2). cbn. lia.
Qed.

End Bootstrap.

Lemma bootstrap_goes_on_after_rejection_witness :
  fst (BootstrapHttp.main Lite.codec (Fixture.start Fixture.rejecting)) = Ret tt
  /\ requests (out (snd (BootstrapHttp.main Lite.codec (Fixture.start Fixture.rejecting))))
     = ["http://localhost:7575/v2/commands/submit-and-wait";
        "http://localhost:7575/v2/commands/submit-and-wait"].
Proof.
  destruct (bootstrap_goes_on_after_rejection Lite.codec (Fixture.start Fixture.rejecting))
    as (H1 & H2 & _).
  - right. exists 400%Z, "INVALID_ARGUMENT", "INVALID_ARGUMENT". split; reflexivity.
  - right. exists 400%Z, "INVALID_ARGUMENT", "INVALID_ARGUMENT". split; reflexivity.
  - split; [exact H1|exact H2].
Defined.

(** ** coverage_report.py: the table *)

Section CoverageTable.
Import CoverageReport Report Traces.

Ltac inv H := inversion H; subst; clear H.

Lemma print_core_lines (results : list row) :
  forall w, exists w',
    print_core results w = (Ret tt, w')
    /\ out w' = out w ++ map core_line (filter row_core results).
Proof.
  induction results as [|[[[name p] marker] is_core] results IH]; intros w; simpl.
  - exists w. now rewrite app_nil_r.
  - destruct is_core; [|apply IH].
    unfold bind at 1, print at 1, emit.
    match goal with |- context [print_core results ?w1] =>
      destruct (IH w1) as (w' & -> & Ho)
    end.
    exists w'. split; [reflexivity|]. rewrite Ho. cbn [out]. now rewrite <- app_assoc.
Qed.

Lemma rows_table (its : list (string * json)) :
  forall results w r w',
    rows its results w = (Ret r, w') ->
    exists new,
      r = results ++ new
      /\ map row_name new = kept its
      /\ Forall consistent new
      /\ out w' = out w ++ map row_line new.
Proof.
  unfold kept.
  induction its as [|[path info] its IH]; simpl; intros results w r w' H.
  - inv H. exists []. rewrite !app_nil_r. repeat split. constructor.
  - destruct (skipped (name_of path)) eqn:Hsk; simpl.
    + apply (IH _ _ _ _ H).
    + unfold bind at 1, lift in H.
      destruct (component info) as [p|e]; [|discriminate].
      unfold bind at 1, print at 1, emit in H. cbn beta iota in H.
      apply IH in H. destruct H as (new & -> & Hn & Hc & Ho). cbn [out] in Ho.
      exists ((name_of path, p, (if in_core (name_of path) then " <<<" else ""),
               in_core (name_of path)) :: new).
      split; [now rewrite <- app_assoc|]. split; [simpl; now rewrite Hn|]. split.
      * constructor; [|exact Hc]. simpl. repeat split. exact Hsk.
      * rewrite Ho, <- app_assoc. reflexivity.
Qed.

Lemma insert_path_sorted (x : string * json) (l : list (string * json)) :
  Sorted path_not_above l ->
  Permutation (x :: l) (insert_path x l) /\ Sorted path_not_above (insert_path x l)
  /\ (forall y, HdRel path_not_above y l -> path_not_above y x ->
                HdRel path_not_above y (insert_path x l)).
Proof.
  induction l as [|y l IH]; simpl; intros Hs.
  - split; [reflexivity|]. split; [repeat constructor|]. intros y _ Hy. now constructor.
  - destruct (String.ltb (fst x) (fst y)) eqn:Hlt.
    + split; [reflexivity|]. split.
      * constructor; [exact Hs|]. constructor. unfold path_not_above.
        now apply string_ltb_asym.
      * intros z _ Hz. now constructor.
    + inversion Hs as [|? ? Hs' Hhd]; subst.
      destruct (IH Hs') as (Hp & Hsr & Hh).
      split; [|split].
      * rewrite perm_swap. now constructor.
      * constructor; [exact Hsr|]. apply Hh; [exact Hhd|exact Hlt].
      * intros z Hz _. inversion Hz; subst. now constructor.
Qed.

Lemma sorted_paths_sorted (its : list (string * json)) :
  Permutation its (sorted_paths its) /\ Sorted path_not_above (sorted_paths its).
Proof.
  unfold sorted_paths. induction its as [|x its [Hp Hs]]; simpl.
  - split; constructor.
  - destruct (insert_path_sorted x _ Hs) as (Hp' & Hs' & _).
    split; [|exact Hs']. rewrite <- Hp'. now constructor.
Qed.

Lemma main_table (data : json) (w : world) (results : list row) (w' : world) :
  main data w = (Ret results, w') ->
  exists its,
    data = JObj its
    /\ map row_name results = kept (sorted_paths its)
    /\ Forall consistent results
    /\ out w'
       = out w
         ++ [Print "{'Contract':<50} {'Stmts':>8} {'Branch':>8} {'Funcs':>8}" [];
             Print "{'-' * 78}" []]
         ++ map row_line results
         ++ [Print "{'-' * 78}" [];
             Print "\n=== 12 CORE CONTRACTS (was 0% before) ===\n" []]
         ++ map core_line (filter row_core results).
Proof.
  unfold main.
  unfold bind at 1, print at 1, emit. cbn beta iota.
  unfold bind at 1, print at 1, emit. cbn beta iota.
  unfold bind at 1, lift.
  destruct data as [| | | | |its]; try discriminate. cbn [items].
  unfold bind at 1.
  destruct (rows (sorted_paths its) [] _) as [[r|e] w1] eqn:Hr; [|discriminate].
  apply rows_table in Hr. destruct Hr as (new & Hnew & Hn & Hc & Ho).
  simpl in Hnew. subst r. cbn [out] in Ho.
  unfold bind at 1, print at 1, emit. cbn beta iota.
  unfold bind at 1, print at 1, emit. cbn beta iota.
  unfold bind at 1.
  match goal with |- context [print_core new ?w2] =>
    destruct (print_core_lines new w2) as (w3 & -> & Ho3)
  end.
  cbn [out] in Ho3. unfold ret. intros H. inv H.
  exists its. split; [reflexivity|]. split; [exact Hn|]. split; [exact Hc|].
  rewrite Ho3, Ho, <- !app_assoc. reflexivity.
Qed.

(** When coverage_report.py runs to its end its rows are the paths of
    the coverage map in ascending order, without those whose file name
    mentions [Mock] or [Test]; each row is named after its file and is
    marked and flagged exactly when that name is one of the twelve core
    contracts.  What it prints is the heading, one line for each row, and
    under the second heading the lines of the flagged rows again, in the
    same order. *)
Theorem coverage_table_rows (data : json) (w : world) (results : list row) :
  fst (main data w) = Ret results ->
  exists its,
    data = JObj its
    /\ Permutation its (sorted_paths its)
    /\ Sorted path_not_above (sorted_paths its)
    /\ map row_name results = kept (sorted_paths its)
    /\ Forall consistent results
    /\ out (snd (main data w))
       = out w
         ++ [Print "{'Contract':<50} {'Stmts':>8} {'Branch':>8} {'Funcs':>8}" [];
             Print "{'-' * 78}" []]
         ++ map row_line results
         ++ [Print "{'-' * 78}" [];
             Print "\n=== 12 CORE CONTRACTS (was 0% before) ===\n" []]
         ++ map core_line (filter row_core results).
Proof.
  intros H. destruct (main data w) as [r w'] eqn:E. cbn [fst snd] in *. subst r.
  destruct (main_table data w results w' E) as (its & Hd & Hn & Hc & Ho).
  exists its. destruct (sorted_paths_sorted its) as [Hp Hs].
  repeat (split; [assumption|]). exact Ho.
Qed.

Lemma coverage_table_rows_witness :
  exists its,
    Fixture.coverage_data = JObj its
    /\ map row_name
         [("BorrowModule", mkPercentages 0 0 0, " <<<", true);
          ("MUSD", mkPercentages (200 # 3) (100 # 2) 0, " <<<", true)]
       = kept (sorted_paths its).
Proof.
  destruct (coverage_table_rows Fixture.coverage_data (Fixture.start Fixture.refused)
              [("BorrowModule", mkPercentages 0 0 0, " <<<", true);
               ("MUSD", mkPercentages (200 # 3) (100 # 2) 0, " <<<", true)] eq_refl)
    as (its & Hd & _ & _ & Hn & _).
  exists its. split; [exact Hd|exact Hn].
Defined.

Lemma component_raises (info : json) (e : exn) :
  component info = Raise e -> e = TypeError \/ e = AttributeError.
Proof.
  unfold component. destruct (tally info) as [t|x] eqn:Ht; simpl.
  - destruct (percentages_of_value t) as (p & -> & _). discriminate.
  - intros H. inv H. now apply tally_raises in Ht.
Qed.

Lemma rows_raises (its : list (string * json)) :
  forall results w e w',
    rows its results w = (Raise e, w') -> e = TypeError \/ e = AttributeError.
Proof.
  induction its as [|[path info] its IH]; simpl; intros results w e w' H.
  - discriminate.
  - destruct (skipped (name_of path)); [apply (IH _ _ _ _ H)|].
    unfold bind at 1, lift in H.
    destruct (component info) as [p|x] eqn:Hc.
    + unfold bind at 1, print at 1, emit in H. cbn beta iota in H. apply (IH _ _ _ _ H).
    + inv H. now apply component_raises in Hc.
Qed.

(** coverage_report.py fails only on a value of the wrong type in the
    coverage map (an [AttributeError] or a [TypeError]); it never divides
    by zero and never misses a key. *)
Theorem coverage_fails_only_on_types (data : json) (w : world) (e : exn) :
  fst (main data w) = Raise e -> e = TypeError \/ e = AttributeError.
Proof.
  unfold main.
  unfold bind at 1, print at 1, emit. cbn beta iota.
  unfold bind at 1, print at 1, emit. cbn beta iota.
  unfold bind at 1, lift.
  destruct (items data) as [its|x] eqn:Hi.
  - unfold bind at 1.
    destruct (rows (sorted_paths its) [] _) as [[r|x] w1] eqn:Hr.
    + unfold bind at 1, print at 1, emit. cbn beta iota.
      unfold bind at 1, print at 1, emit. cbn beta iota.
      unfold bind at 1.
      match goal with |- context [print_core r ?w2] =>
        destruct (print_core_lines r w2) as (w3 & -> & _)
      end.
      discriminate.
    + cbn [fst]. intros H. inv H. now apply rows_raises in Hr.
  - cbn [fst]. intros H. inv H. right. destruct data; simpl in Hi; congruence.
Qed.

Lemma coverage_fails_only_on_types_witness :
  AttributeError = TypeError \/ AttributeError = AttributeError.
Proof.
  apply (coverage_fails_only_on_types (JArr []) (Fixture.start Fixture.refused)).
  reflexivity.
Defined.

(** *** A well-formed coverage map *)

Lemma count_hit_numeric (vs : list json) :
  forallb numeric vs = true -> exists n, count_hit vs = Ret n.
Proof.
  induction vs as [|v vs IH]; simpl; intros H; [now exists 0|].
  apply andb_prop in H. destruct H as [Hv Hvs]. destruct (IH Hvs) as [n ->].
  destruct v; try discriminate; simpl; eexists; reflexivity.
Qed.

Lemma hits_numeric (v : json) :
  counts v = true ->
  exists total hit,
    len v = Ret total
    /\ match total with O => Ret 0 | S _ => (vs <- values v ;; count_hit vs)%res end = Ret hit.
Proof.
  destruct v as [| | | | |m]; try discriminate. simpl. intros H.
  destruct (count_hit_numeric _ H) as [n Hn].
  exists (List.length m). destruct (List.length m); eexists; split; try reflexivity.
  exact Hn.
Qed.

Lemma branches_numeric (bls : list json) :
  forallb (fun bl => match bl with JArr l => forallb numeric l | _ => false end) bls = true ->
  (exists n, sum_len bls = Ret n) /\ (exists n, count_hit_nested bls = Ret n).
Proof.
  induction bls as [|bl bls IH]; simpl; intros H; [split; now exists 0|].
  apply andb_prop in H. destruct H as [Hb Hbs]. destruct (IH Hbs) as [[n ->] [k ->]].
  destruct bl as [| | | |l|]; try discriminate. simpl.
  destruct (count_hit_numeric l Hb) as [h ->]. simpl.
  split; eexists; reflexivity.
Qed.

Lemma field_default (check : json -> bool) (k : string) (m : list (string * json)) :
  check (JObj []) = true ->
  field_ok check k m = true ->
  exists v, get (JObj m) k (JObj []) = Ret v /\ check v = true.
Proof.
  unfold field_ok. simpl. intros Hd H.
  destruct (lookup k m) as [v|]; eexists; split; try reflexivity; assumption.
Qed.

Lemma component_well_formed (info : json) :
  well_formed info = true -> exists p, component info = Ret p.
Proof.
  destruct info as [| | | | |m]; try discriminate. unfold well_formed.
  intros H. apply andb_prop in H. destruct H as [H Hf].
  apply andb_prop in H. destruct H as [Hs Hb].
  destruct (field_default counts "s" m eq_refl Hs) as (s & Gs & Cs).
  destruct (field_default branch_counts "b" m eq_refl Hb) as (b & Gb & Cb).
  destruct (field_default counts "f" m eq_refl Hf) as (f & Gf & Cf).
  destruct (hits_numeric s Cs) as (ts & hs & Ls & Hhs).
  destruct (hits_numeric f Cf) as (tf & hf & Lf & Hhf).
  destruct b as [| | | | |bm]; try discriminate.
  destruct (branches_numeric _ Cb) as [[tb Htb] [hb Hhb]].
  unfold component, tally. rewrite Gs, Gb, Gf. cbn [rbind].
  rewrite Ls. cbn [rbind]. rewrite Hhs. cbn [rbind values].
  rewrite Htb. cbn [rbind].
  assert (Hb' : exists h, match tb with O => Ret 0
                          | S _ => count_hit_nested (map snd bm)
                          end = Ret h).
  { destruct tb; [now exists 0|]. exists hb. exact Hhb. }
  destruct Hb' as [h ->]. cbn [rbind].
  rewrite Lf. cbn [rbind]. rewrite Hhf. cbn [rbind].
  destruct (percentages_of_value (mkTallies ts hs tb h tf hf)) as (p & -> & _).
  now exists p.
Qed.

Lemma rows_well_formed (its : list (string * json)) :
  Forall (fun kv => well_formed (snd kv) = true) its ->
  forall results w, exists r w', rows its results w = (Ret r, w').
Proof.
  induction 1 as [|[path info] its Hwf _ IH]; intros results w; simpl.
  - now exists results, w.
  - destruct (skipped (name_of path)); [apply IH|].
    destruct (component_well_formed info Hwf) as [p Hp].
    unfold bind at 1, lift. rewrite Hp.
    unfold bind at 1, print at 1, emit. cbn beta iota. apply IH.
Qed.

Lemma filter_permuted {A : Type} (f : A -> bool) (l l' : list A) :
  Permutation l l' -> Permutation (filter f l) (filter f l').
Proof.
  induction 1 as [|x l l' _ IH|x y l|l l' l'' _ IH1 _ IH2]; simpl.
  - constructor.
  - destruct (f x); [now constructor|exact IH].
  - destruct (f x), (f y); try reflexivity. apply perm_swap.
  - now transitivity (filter f l').
Qed.

(** On a coverage map whose entries are well formed, that is, hit
    counts under [s] and [f] and lists of hit counts under [b], any of
    them possibly missing or empty, coverage_report.py runs to its end and
    gives one row for each path it does not skip. *)
Theorem coverage_report_completes (its : list (string * json)) (w : world) :
  Forall (fun kv => well_formed (snd kv) = true) its ->
  exists results,
    fst (main (JObj its) w) = Ret results
    /\ List.length results = List.length (kept its).
Proof.
  intros Hwf.
  destruct (sorted_paths_sorted its) as [Hperm _].
  assert (Hs : Forall (fun kv => well_formed (snd kv) = true) (sorted_paths its)).
  { rewrite Forall_forall in *. intros x Hx. apply Hwf.
    eapply Permutation_in; [symmetry; exact Hperm|exact Hx]. }
  destruct (main (JObj its) w) as [r w'] eqn:E.
  assert (Hret : exists results, r = Ret results).
  { revert E. unfold main.
    unfold bind at 1, print at 1, emit. cbn beta iota.
    unfold bind at 1, print at 1, emit. cbn beta iota.
    unfold bind at 1, lift. cbn [items].
    unfold bind at 1.
    match goal with |- context [rows ?l ?acc ?w1] =>
      destruct (rows_well_formed l Hs acc w1) as (rs & w1' & ->)
    end.
    unfold bind at 1, print at 1, emit. cbn beta iota.
    unfold bind at 1, print at 1, emit. cbn beta iota.
    unfold bind at 1.
    match goal with |- context [print_core rs ?w2] =>
      destruct (print_core_lines rs w2) as (w3 & -> & _)
    end.
    unfold ret. intros E. inv E. now exists rs. }
  destruct Hret as [results ->]. exists results. split; [reflexivity|].
  destruct (main_table _ _ _ _ E) as (its' & Hd & Hn & _). inv Hd.
  rewrite <- (length_map row_name), Hn. unfold kept.
  apply Permutation_length. apply filter_permuted, Permutation_map.
  symmetry. exact Hperm.
Qed.

End CoverageTable.

Lemma coverage_report_completes_witness :
  exists results,
    fst (CoverageReport.main Fixture.coverage_data (Fixture.start Fixture.refused))
    = Ret results
    /\ List.length results = 2.
Proof.
  apply (coverage_report_completes
           [("contracts/MUSD.sol", Fixture.coverage_info);
            ("contracts/mocks/MockOracle.sol", Fixture.coverage_info);
            ("contracts/BorrowModule.sol", JObj [])]
           (Fixture.start Fixture.refused)).
  repeat constructor.
Defined.

(** ** check-canton-wallet.py: the total *)

Section WalletTotal.
Import CheckCantonWallet Wallet.
Variable lib : codec.

Ltac inv H := inversion H; subst; clear H.

Lemma size_add_item (name : string) (it : json) (t : types) :
  size (add_item name it t) = S (size t).
Proof.
  unfold size. induction t as [|[k its] t IH]; simpl; [reflexivity|].
  destruct (String.eqb k name); simpl.
  - rewrite length_app. simpl. lia.
  - rewrite IH. lia.
Qed.

Lemma built_add_item (name : string) (it : json) (t : types) :
  built it ->
  Forall (fun g => Forall built (snd g)) t ->
  Forall (fun g => Forall built (snd g)) (add_item name it t).
Proof.
  intros Hit. induction 1 as [|[k its] t Hk Ht IH]; simpl.
  - repeat constructor. exact Hit.
  - destruct (String.eqb k name); constructor; simpl; auto.
    apply Forall_app. split; [exact Hk|]. repeat constructor. exact Hit.
Qed.

Lemma step_ours (entry : json) (t t' : types) :
  step entry t = Ret t' ->
  if ours entry then exists name it, built it /\ t' = add_item name it t else t' = t.
Proof.
  unfold step, ours.
  destruct (get entry "contractEntry" (JObj [])) as [ce|]; cbn [rbind]; [|discriminate].
  destruct (get_none ce "JsActiveContract") as [ac|]; cbn [rbind]; [|discriminate].
  destruct (truthy ac); cbn [negb]; [|intros H; inv H; reflexivity].
  destruct (get ac "createdEvent" (JObj [])) as [evt|]; cbn [rbind]; [|discriminate].
  destruct (get evt "templateId" (JStr "")) as [tid|]; cbn [rbind]; [|discriminate].
  destruct (split_colon tid) as [parts|]; cbn [rbind]; [|discriminate].
  rewrite Nat.ltb_antisym.
  destruct (3 <=? List.length parts); cbn [negb andb]; [|intros H; inv H; reflexivity].
  destruct (String.eqb (nth 0 parts "") PKG); cbn [negb]; [|intros H; inv H; reflexivity].
  destruct (get evt "createArgument" (JObj [])) as [first|]; cbn [rbind]; [|discriminate].
  destruct (if truthy first then Ret first else get evt "createArguments" (JObj []))
    as [payload|]; cbn [rbind]; [|discriminate].
  destruct (get evt "contractId" (JStr "")) as [raw|]; cbn [rbind]; [|discriminate].
  destruct (slice_to 20 raw) as [cid|]; cbn [rbind]; [|discriminate].
  destruct payload as [| | | | |p]; try discriminate.
  cbn [get_none get rbind]. intros H. inv H.
  eexists _, _. split; [|reflexivity]. eexists _, _, _. reflexivity.
Qed.

Lemma steps_ours (entries : list json) :
  forall t t',
    steps entries t = Ret t' ->
    Forall (fun g => Forall built (snd g)) t ->
    size t' = size t + List.length (filter ours entries)
    /\ Forall (fun g => Forall built (snd g)) t'.
Proof.
  induction entries as [|entry entries IH]; simpl; intros t t' H Ht.
  - inv H. split; [lia|exact Ht].
  - destruct (step entry t) as [t1|] eqn:Hs; cbn [rbind] in H; [|discriminate].
    apply step_ours in Hs. destruct (ours entry).
    + destruct Hs as (name & it & Hit & ->).
      destruct (IH _ _ H (built_add_item name it t Hit Ht)) as [Hn Hb].
      split; [|exact Hb]. rewrite Hn, size_add_item. simpl. lia.
    + subst t1. apply (IH _ _ H Ht).
Qed.

Lemma insert_type_size (x : string * list json) (t : types) :
  size (insert_type x t) = List.length (snd x) + size t
  /\ (Forall built (snd x) -> Forall (fun g => Forall built (snd g)) t ->
      Forall (fun g => Forall built (snd g)) (insert_type x t)).
Proof.
  unfold size. induction t as [|y t [IHn IHb]]; simpl.
  - split; [reflexivity|]. intros Hx _. repeat constructor. exact Hx.
  - destruct (String.ltb (fst x) (fst y)); simpl.
    + split; [reflexivity|]. intros Hx Ht. constructor; assumption.
    + split; [rewrite IHn; lia|]. intros Hx Ht. inv Ht. constructor; auto.
Qed.

Lemma sorted_types_size (t : types) :
  size (sorted_types t) = size t
  /\ (Forall (fun g => Forall built (snd g)) t ->
      Forall (fun g => Forall built (snd g)) (sorted_types t)).
Proof.
  unfold sorted_types. induction t as [|x t [IHn IHb]]; simpl.
  - split; [reflexivity|]. intros _. constructor.
  - destruct (insert_type_size x (fold_right insert_type [] t)) as [Hn Hb].
    split.
    + rewrite Hn, IHn. unfold size. simpl. reflexivity.
    + intros H. inv H. apply Hb; auto.
Qed.

Lemma print_item_built (it : json) (w : world) :
  built it -> exists w', print_item lib it w = (Ret tt, w').
Proof.
  intros (amount & cid & payload & ->). unfold print_item, item.
  unfold bind at 1, lift at 1. cbn [getitem lookup String.eqb Ascii.eqb Bool.eqb].
  unfold bind at 1, lift at 1. cbn [getitem lookup String.eqb Ascii.eqb Bool.eqb].
  destruct amount; eexists; reflexivity.
Qed.

Lemma print_items_built (its : list json) :
  Forall built its -> forall w, exists w', print_items lib its w = (Ret tt, w').
Proof.
  induction 1 as [|it its Hit _ IH]; intros w; simpl.
  - now exists w.
  - unfold bind at 1. destruct (print_item_built it w Hit) as [w1 ->]. apply IH.
Qed.

Lemma print_types_total (t : types) :
  Forall (fun g => Forall built (snd g)) t ->
  forall total w, exists w', print_types lib t total w = (Ret (total + size t), w').
Proof.
  unfold size. induction 1 as [|[tname its] t Hits _ IH]; intros total w; simpl.
  - exists w. unfold ret. now rewrite Nat.add_0_r.
  - unfold bind at 1, print at 1, emit.
    unfold bind at 1.
    match goal with |- context [print_items lib its ?w1] =>
      destruct (print_items_built its Hits w1) as [w2 ->]
    end.
    unfold bind at 1, print at 1, emit.
    match goal with |- context [print_types lib t ?n ?w3] =>
      destruct (IH n w3) as [w4 ->]
    end.
    exists w4. now rewrite Nat.add_assoc.
Qed.

(** When check-canton-wallet.py runs to its end, the total on its last
    line is the number of entries of the second answer that it lists: the
    active contracts whose template identifier has three parts or more and
    begins with the package [PKG].  Grouping by name and sorting the
    groups lose none and count none twice. *)
Theorem wallet_total_counts_package (w : world) :
  fst (main lib w) = Ret tt ->
  exists body result entries,
    net w (S (n_req w)) = Body body
    /\ loads_bytes lib body = Ret result
    /\ iter result = Ret entries
    /\ List.last (out (snd (main lib w))) (Print "" [])
       = Print "Total: {total} ble-protocol contracts in wallet"
               [count (List.length (filter ours entries))].
Proof.
  destruct (main lib w) as [r w'] eqn:E. cbn [fst snd]. intros ->. revert E.
  unfold main.
  unfold bind at 1, api at 1. unfold bind at 1, urlopen_read at 1.
  destruct (net w (n_req w)) as [raw0|]; [|discriminate].
  unfold lift at 1. destruct (loads_bytes lib raw0) as [doc|]; [|discriminate].
  unfold bind at 1, lift at 1. destruct (getitem doc "offset") as [offset|]; [|discriminate].
  unfold bind at 1, print at 1, emit. cbn [net n_req out clock rng n_clock n_rng].
  unfold bind at 1, print at 1, emit. cbn [net n_req out clock rng n_clock n_rng].
  unfold bind at 1, print at 1, emit. cbn [net n_req out clock rng n_clock n_rng].
  unfold bind at 1, api at 1. unfold bind at 1, urlopen_read at 1.
  cbn [net n_req out clock rng n_clock n_rng].
  destruct (net w (S (n_req w))) as [body|]; [|discriminate].
  unfold lift at 1. destruct (loads_bytes lib body) as [result|] eqn:Hl; [|discriminate].
  unfold bind at 1, lift at 1.
  destruct (collect result) as [by_type|] eqn:Hc; [|discriminate].
  unfold collect in Hc. destruct (iter result) as [entries|] eqn:Hi; [|discriminate].
  cbn [rbind] in Hc.
  destruct (steps_ours entries [] by_type Hc) as [Hn Hb]; [constructor|].
  destruct (sorted_types_size by_type) as [Hsn Hsb].
  unfold bind at 1.
  match goal with |- context [print_types lib ?t 0 ?w1] =>
    destruct (print_types_total t (Hsb Hb) 0 w1) as [w2 ->]
  end.
  unfold print, emit. intros E. inv E. cbn [out].
  exists body, result, entries.
  split; [reflexivity|]. split; [exact Hl|]. split; [exact Hi|].
  rewrite last_last, Hsn, Hn. reflexivity.
Qed.

(** *** The order of the groups *)

Lemma in_add_item (k name : string) (it : json) (t : types) :
  In k (map fst (add_item name it t)) -> k = name \/ In k (map fst t).
Proof.
  induction t as [|[k' its] t IH]; simpl.
  - intros [H|[]]. now left.
  - destruct (String.eqb k' name); simpl; intros [H|H]; auto.
    destruct (IH H); auto.
Qed.

Lemma add_item_names (name : string) (it : json) (t : types) :
  NoDup (map fst t) -> Forall (fun g => snd g <> []) t ->
  NoDup (map fst (add_item name it t)) /\ Forall (fun g => snd g <> []) (add_item name it t).
Proof.
  induction t as [|[k its] t IH]; simpl; intros Hd Hn.
  - split; repeat constructor; simpl; auto. discriminate.
  - inv Hd. inv Hn. destruct (String.eqb k name) eqn:E; simpl.
    + split; constructor; auto. simpl. destruct its; discriminate.
    + destruct IH as [IHd IHn]; auto. split; constructor; auto.
      intros Hin. apply in_add_item in Hin. destruct Hin as [->|Hin]; auto.
      rewrite String.eqb_refl in E. discriminate.
Qed.

Lemma steps_names (entries : list json) :
  forall t t',
    steps entries t = Ret t' ->
    NoDup (map fst t) -> Forall (fun g => snd g <> []) t ->
    NoDup (map fst t') /\ Forall (fun g => snd g <> []) t'.
Proof.
  induction entries as [|entry entries IH]; simpl; intros t t' H Hd Hn.
  - inv H. now split.
  - destruct (step entry t) as [t1|] eqn:Hs; cbn [rbind] in H; [|discriminate].
    apply step_ours in Hs. destruct (ours entry).
    + destruct Hs as (name & it & _ & ->).
      destruct (add_item_names name it t Hd Hn) as [Hd' Hn']. apply (IH _ _ H Hd' Hn').
    + subst t1. apply (IH _ _ H Hd Hn).
Qed.

Lemma insert_type_sorted (x : string * list json) (l : types) :
  Sorted name_not_above l ->
  Permutation (x :: l) (insert_type x l) /\ Sorted name_not_above (insert_type x l)
  /\ (forall y, HdRel name_not_above y l -> name_not_above y x ->
                HdRel name_not_above y (insert_type x l)).
Proof.
  induction l as [|y l IH]; simpl; intros Hs.
  - split; [reflexivity|]. split; [repeat constructor|]. intros y _ Hy. now constructor.
  - destruct (String.ltb (fst x) (fst y)) eqn:Hlt.
    + split; [reflexivity|]. split.
      * constructor; [exact Hs|]. constructor. unfold name_not_above.
        now apply string_ltb_asym.
      * intros z _ Hz. now constructor.
    + inversion Hs as [|? ? Hs' Hhd]; subst.
      destruct (IH Hs') as (Hp & Hsr & Hh).
      split; [|split].
      * rewrite perm_swap. now constructor.
      * constructor; [exact Hsr|]. apply Hh; [exact Hhd|exact Hlt].
      * intros z Hz _. inversion Hz; subst. now constructor.
Qed.

Lemma sorted_types_sorted (t : types) :
  Permutation t (sorted_types t) /\ Sorted name_not_above (sorted_types t).
Proof.
  unfold sorted_types. induction t as [|x t [Hp Hs]]; simpl.
  - split; constructor.
  - destruct (insert_type_sorted x _ Hs) as (Hp' & Hs' & _).
    split; [|exact Hs']. rewrite <- Hp'. now constructor.
Qed.

Lemma string_ltb_total (s t : string) :
  String.ltb t s = false -> s <> t -> String.ltb s t = true.
Proof.
  unfold String.ltb. intros H Hne.
  destruct (String.compare s t) eqn:E; [|reflexivity|].
  - apply String.compare_eq_iff in E. contradiction.
  - rewrite (String.compare_antisym t s), E in H. discriminate H.
Qed.

Lemma sorted_distinct (l : types) :
  Sorted name_not_above l -> NoDup (map fst l) -> Sorted ascending l.
Proof.
  induction 1 as [|x l Hs IH Hhd]; simpl; intros Hd; constructor.
  - apply IH. now inv Hd.
  - destruct Hhd as [|y l Hxy]; constructor.
    apply string_ltb_total; [exact Hxy|].
    inv Hd. intros Heq. apply H1. simpl. now left.
Qed.

(** The groups check-canton-wallet.py prints are those it collected, in
    strictly ascending order of their name, so that no name is printed
    twice; and each group holds at least one contract. *)
Theorem wallet_groups_ascending (result : json) (by_type : types) :
  collect result = Ret by_type ->
  Permutation by_type (sorted_types by_type)
  /\ Sorted ascending (sorted_types by_type)
  /\ Forall (fun g => snd g <> []) (sorted_types by_type).
Proof.
  unfold collect. destruct (iter result) as [entries|]; cbn [rbind]; [|discriminate].
  intros H.
  destruct (steps_names entries [] by_type H (NoDup_nil _) (Forall_nil _)) as [Hd Hn].
  destruct (sorted_types_sorted by_type) as [Hp Hs].
  split; [exact Hp|]. split.
  - apply sorted_distinct; [exact Hs|].
    apply (Permutation_NoDup (Permutation_map fst Hp) Hd).
  - rewrite Forall_forall in *. intros g Hg. apply Hn.
    apply (Permutation_in g (Permutation_sym Hp) Hg).
Qed.

End WalletTotal.

Lemma wallet_groups_ascending_witness :
  Permutation
    [("Mod:Token", [Wallet.item (JStr "5.0") (JStr "c2") [("amount", JStr "5.0")]]);
     ("Mod:Pool", [Wallet.item JNull (JStr "c4") [("paused", JBool false)]])]
    (CheckCantonWallet.sorted_types
       [("Mod:Token", [Wallet.item (JStr "5.0") (JStr "c2") [("amount", JStr "5.0")]]);
        ("Mod:Pool", [Wallet.item JNull (JStr "c4") [("paused", JBool false)]])])
  /\ Sorted Wallet.ascending
       (CheckCantonWallet.sorted_types
          [("Mod:Token", [Wallet.item (JStr "5.0") (JStr "c2") [("amount", JStr "5.0")]]);
           ("Mod:Pool", [Wallet.item JNull (JStr "c4") [("paused", JBool false)]])])
  /\ Forall (fun g => snd g <> [])
       (CheckCantonWallet.sorted_types
          [("Mod:Token", [Wallet.item (JStr "5.0") (JStr "c2") [("amount", JStr "5.0")]]);
           ("Mod:Pool", [Wallet.item JNull (JStr "c4") [("paused", JBool false)]])]).
Proof.
  apply (wallet_groups_ascending
           (JArr [Wallet.package_entry "Mod:Token" "c2" (JObj [("amount", JStr "5.0")]);
                  Fixture.bridge_entry;
                  Wallet.package_entry "Mod:Pool" "c4" (JObj [("paused", JBool false)])])).
  reflexivity.
Defined.

Lemma wallet_total_counts_package_witness :
  exists body result entries,
    net (Fixture.start (Fixture.serving
           (Lite.dumps (JArr [Wallet.package_entry "Mod:Token" "c2"
                                (JObj [("amount", JStr "5.0")]);
                              Fixture.bridge_entry;
                              Wallet.package_entry "Mod:Pool" "c4"
                                (JObj [("paused", JBool false)])])))) 1
    = Body body
    /\ loads_bytes Lite.codec body = Ret result
    /\ iter result = Ret entries
    /\ List.last
         (out (snd (CheckCantonWallet.main Lite.codec
                      (Fixture.start (Fixture.serving
                         (Lite.dumps (JArr [Wallet.package_entry "Mod:Token" "c2"
                                              (JObj [("amount", JStr "5.0")]);
                                            Fixture.bridge_entry;
                                            Wallet.package_entry "Mod:Pool" "c4"
                                              (JObj [("paused", JBool false)])])))))))
         (Print "" [])
       = Print "Total: {total} ble-protocol contracts in wallet"
               [CheckCantonWallet.count (List.length (filter Wallet.ours entries))].
Proof.
  apply (wallet_total_counts_package Lite.codec).
  vm_compute. reflexivity.
Defined.

(** ** check-frontend.py: the status line *)

Section FrontendStatus.
Import CheckFrontend Frontend Lines.
Variable lib : codec.

Lemma usable_dict (v : json) :
  usable v = true -> truthy v = true -> exists fields, v = JObj fields.
Proof.
  unfold usable. intros U T. rewrite T in U. simpl in U.
  destruct v as [| | | | |fields]; try discriminate. now exists fields.
Qed.

Lemma steady_ret : steady (ret tt) 0.
Proof. intros w. exists w, []. rewrite app_nil_r. repeat split. Qed.

Lemma steady_print (text : string) (fields : list json) : steady (print text fields) 1.
Proof. intros w. eexists _, [_]. unfold print, emit. cbn [out]. repeat split. Qed.

Lemma steady_lift {A : Type} (r : res A) (a : A) (k : A -> M unit) (n : nat) :
  r = Ret a -> steady (k a) n -> steady (bind (lift r) k) n.
Proof. intros -> H w. unfold bind, lift. apply H. Qed.

Lemma steady_if (b : bool) (m : M unit) (n : nat) :
  (b = true -> steady m n) -> steady (if b then m else ret tt) (if b then n else 0).
Proof. destruct b; intros H; [now apply H|apply steady_ret]. Qed.

Lemma follows_seq (m k : M unit) (a b : nat) (final : list World.event) :
  steady m a -> follows k b final -> follows (bind m (fun _ => k)) (a + b) final.
Proof.
  intros Hm Hk w. unfold bind.
  destruct (Hm w) as (w1 & l1 & -> & Ho1 & Hp1 & Hn1).
  destruct (Hk w1) as (w2 & l2 & -> & Ho2 & Hp2 & Hn2).
  exists w2, (l1 ++ l2). split; [reflexivity|]. split; [|split].
  - rewrite Ho2, Ho1, <- !app_assoc. reflexivity.
  - rewrite forallb_app, Hp1, Hp2. reflexivity.
  - rewrite length_app. lia.
Qed.

Lemma follows_lift {A : Type} (r : res A) (a : A) (k : A -> M unit) (n : nat)
    (final : list World.event) :
  r = Ret a -> follows (k a) n final -> follows (bind (lift r) k) n final.
Proof. intros -> H w. unfold bind, lift. apply H. Qed.

Lemma follows_end (t1 t2 : string) :
  follows (bind (print t1 []) (fun _ => print t2 [])) 0 [Print t1 []; Print t2 []].
Proof.
  intros w. eexists _, []. unfold bind, print, emit. cbn [out].
  split; [reflexivity|]. rewrite <- app_assoc. repeat split.
Qed.

Lemma filter_count {A : Type} (f : A -> bool) (x : A) (l : list A) :
  List.length (filter f (x :: l)) = (if f x then 1 else 0) + List.length (filter f l).
Proof. simpl. destruct (f x); reflexivity. Qed.

(** Whatever an answer of the frontend holds, check-frontend.py ends on
    the line [STATUS: Canton side is AVAILABLE!]: when the answer is a
    dict whose [tokens] have a length and whose services are dicts or
    false, the script sends its one request, prints the heading and the
    number of tokens, one line for each service that counts as true, an
    empty line and that status; so it does for an answer with no service
    at all. *)
Theorem frontend_always_available
    (w : world) (raw : string) (m : list (string * json)) (n : nat) :
  net w (n_req w) = Body raw ->
  loads_bytes lib raw = Ret (JObj m) ->
  len (field m "tokens" (JArr [])) = Ret n ->
  forallb usable (read m) = true ->
  exists lines,
    fst (main lib w) = Ret tt
    /\ out (snd (main lib w))
       = out w
         ++ [Req URL None;
             Print "=== Canton Balances API Response ===" [];
             Print "Tokens: {len(d.get('tokens', []))}" [count n]]
         ++ lines
         ++ [Print "" []; Print "STATUS: Canton side is AVAILABLE!" []]
    /\ forallb is_print lines = true
    /\ List.length lines = List.length (filter truthy (services m)).
Proof.
  intros Hnet Hload Hlen Hok.
  unfold read in Hok. cbn [forallb] in Hok.
  apply andb_prop in Hok. destruct Hok as [Ubs Hok].
  apply andb_prop in Hok. destruct Hok as [Uss Hok].
  apply andb_prop in Hok. destruct Hok as [Uep Hok].
  apply andb_prop in Hok. destruct Hok as [Ubp Hok].
  apply andb_prop in Hok. destruct Hok as [Usup _].
  destruct (main lib w) as [r w'] eqn:E. cbn [fst snd]. revert E.
  unfold main.
  unfold bind at 1, urlopen_read at 1. rewrite Hnet.
  unfold bind at 1, lift at 1. rewrite Hload.
  unfold bind at 1, print at 1, emit.
  unfold bind at 1, lift at 1. cbn [get]. fold (field m "tokens" (JArr [])).
  unfold bind at 1, lift at 1. rewrite Hlen.
  unfold bind at 1, print at 1, emit.
  match goal with |- ?tail ?w1 = _ -> _ =>
    assert (Htail : follows tail (List.length (filter truthy (services m)))
                      [Print "" []; Print "STATUS: Canton side is AVAILABLE!" []]);
    [|destruct (Htail w1) as (w2 & lines & -> & Ho & Hp & Hn)]
  end.
  - unfold services. rewrite !filter_count. cbn [filter List.length].
    eapply follows_lift; [reflexivity|]. fold (field m "bridgeService" JNull).
    apply follows_seq.
    { apply steady_if. intros T. destruct (usable_dict _ Ubs T) as [fields ->].
      eapply steady_lift; [reflexivity|]. apply steady_print. }
    eapply follows_lift; [reflexivity|]. fold (field m "stakingService" JNull).
    apply follows_seq.
    { apply steady_if. intros T. destruct (usable_dict _ Uss T) as [fields ->].
      eapply steady_lift; [reflexivity|]. eapply steady_lift; [reflexivity|].
      apply steady_print. }
    eapply follows_lift; [reflexivity|]. fold (field m "ethPoolService" JNull).
    apply follows_seq.
    { apply steady_if. intros T. destruct (usable_dict _ Uep T) as [fields ->].
      eapply steady_lift; [reflexivity|]. eapply steady_lift; [reflexivity|].
      apply steady_print. }
    eapply follows_lift; [reflexivity|]. fold (field m "boostPoolService" JNull).
    apply follows_seq.
    { apply steady_if. intros T. destruct (usable_dict _ Ubp T) as [fields ->].
      eapply steady_lift; [reflexivity|]. apply steady_print. }
    eapply follows_lift; [reflexivity|]. fold (field m "lendingService" JNull).
    apply follows_seq; [apply steady_if; intros _; apply steady_print|].
    eapply follows_lift; [reflexivity|]. fold (field m "directMintService" JNull).
    apply follows_seq; [apply steady_if; intros _; apply steady_print|].
    eapply follows_lift; [reflexivity|]. fold (field m "complianceRegistry" JNull).
    apply follows_seq; [apply steady_if; intros _; apply steady_print|].
    eapply follows_lift; [reflexivity|]. fold (field m "supplyService" (JObj [])).
    apply follows_seq.
    { apply steady_if. intros T. destruct (usable_dict _ Usup T) as [fields ->].
      eapply steady_lift; [reflexivity|]. eapply steady_lift; [reflexivity|].
      apply steady_print. }
    apply follows_end.
  - intros E. inversion E; subst; clear E. cbn [out] in Ho.
    exists lines. split; [reflexivity|]. split; [|split; assumption].
    rewrite Ho, <- !app_assoc. reflexivity.
Qed.

End FrontendStatus.

Lemma frontend_always_available_witness :
  exists lines,
    fst (CheckFrontend.main Lite.codec (Fixture.start (fun _ => Body "{}"))) = Ret tt
    /\ out (snd (CheckFrontend.main Lite.codec (Fixture.start (fun _ => Body "{}"))))
       = out (Fixture.start (fun _ => Body "{}"))
         ++ [Req CheckFrontend.URL None;
             Print "=== Canton Balances API Response ===" [];
             Print "Tokens: {len(d.get('tokens', []))}" [CheckFrontend.count 0]]
         ++ lines
         ++ [Print "" []; Print "STATUS: Canton side is AVAILABLE!" []]
    /\ forallb Lines.is_print lines = true
    /\ List.length lines = List.length (filter truthy (Frontend.services [])).
Proof.
  apply (frontend_always_available Lite.codec (Fixture.start (fun _ => Body "{}")) "{}" [] 0);
    reflexivity.
Defined.

(** ** test-canton-api.py: the two counts *)

Section ApiCounts.
Import TestCantonApi Status.

Ltac inv H := inversion H; subst; clear H.

Lemma record_counts (ev : json) (st st' : status) :
  record ev st = Ret st' ->
  List.length (mUSD_tokens st')
  = List.length (mUSD_tokens st) + (if is_token ev then 1 else 0)
  /\ List.length (directmint st')
     = List.length (directmint st) + (if is_mint ev then 1 else 0).
Proof.
  unfold record, is_token, is_mint, names.
  destruct (get ev "templateId" (JStr "")) as [tid|]; cbn [rbind]; [|discriminate].
  destruct (get ev "createArgument" (JObj [])) as [args|]; cbn [rbind]; [|discriminate].
  destruct (str_in "CantonDirectMint:CantonMUSD" tid) as [[|]|]; cbn [rbind negb andb];
    [| |discriminate].
  { destruct (get args "owner" (JStr "")); cbn [rbind]; [|discriminate].
    destruct (get args "amount" (JStr "")); cbn [rbind]; [|discriminate].
    intros H. inv H. cbn [mUSD_tokens directmint]. rewrite length_app. simpl. lia. }
  destruct (str_in "V3:BridgeService" tid) as [[|]|]; cbn [rbind negb andb];
    [| |discriminate].
  { destruct (get args "operator" (JStr "")) as [op|]; cbn [rbind]; [|discriminate].
    destruct (slice_to 40 op); cbn [rbind]; [|discriminate].
    destruct (get args "paused" (JStr "")); cbn [rbind]; [|discriminate].
    intros H. inv H. cbn [mUSD_tokens directmint]. lia. }
  destruct (str_in "CantonSMUSD:CantonStakingService" tid) as [[|]|]; cbn [rbind negb andb];
    [| |discriminate].
  { destruct (get args "totalShares" (JStr "")); cbn [rbind]; [|discriminate].
    intros H. inv H. cbn [mUSD_tokens directmint]. lia. }
  destruct (str_in "CantonETHPool:CantonETHPoolService" tid) as [[|]|];
    cbn [rbind negb andb]; [| |discriminate].
  { destruct (get args "poolCap" (JStr "")); cbn [rbind]; [|discriminate].
    intros H. inv H. cbn [mUSD_tokens directmint]. lia. }
  destruct (str_in "CantonBoostPool:CantonBoostPoolService" tid) as [[|]|];
    cbn [rbind negb andb]; [| |discriminate].
  { destruct (get args "totalLPShares" (JStr "")); cbn [rbind]; [|discriminate].
    intros H. inv H. cbn [mUSD_tokens directmint]. lia. }
  destruct (str_in "CantonLending:CantonLendingService" tid) as [[|]|];
    cbn [rbind negb andb]; [| |discriminate].
  { intros H. inv H. cbn [mUSD_tokens directmint]. lia. }
  destruct (str_in "CantonDirectMint:CantonDirectMintService" tid) as [[|]|];
    cbn [rbind]; [| |discriminate].
  { destruct (get ev "contractId" (JStr "")) as [cid|]; cbn [rbind]; [|discriminate].
    destruct (slice_to 30 cid); cbn [rbind]; [|discriminate].
    intros H. inv H. cbn [mUSD_tokens directmint]. rewrite length_app. simpl. lia. }
  intros H. inv H. lia.
Qed.

Lemma visit_items_counts (its : list (string * json)) :
  forall st st',
    visit_items its st = Ret st' ->
    let evs := flat_map (fun kv => match locate (snd kv) with Some ev => [ev] | None => [] end)
                        its in
    List.length (mUSD_tokens st')
    = List.length (mUSD_tokens st) + List.length (filter is_token evs)
    /\ List.length (directmint st')
       = List.length (directmint st) + List.length (filter is_mint evs).
Proof.
  induction its as [|[k v] its IH]; intros st st' H; cbn [visit_items flat_map snd] in *.
  - inv H. simpl. lia.
  - destruct (locate v) as [ev|].
    + destruct (record ev st) as [st1|] eqn:Hr; cbn [rbind] in H; [|discriminate].
      apply record_counts in Hr. destruct Hr as [Ht Hm].
      destruct (IH _ _ H) as [IHt IHm].
      cbn [app filter]. rewrite IHt, IHm, Ht, Hm.
      destruct (is_token ev), (is_mint ev); simpl; lia.
    + apply (IH _ _ H).
Qed.

Lemma visit_counts (entry : json) (st st' : status) :
  visit entry st = Ret st' ->
  List.length (mUSD_tokens st')
  = List.length (mUSD_tokens st) + List.length (filter is_token (located entry))
  /\ List.length (directmint st')
     = List.length (directmint st) + List.length (filter is_mint (located entry)).
Proof.
  unfold visit, located.
  destruct (get entry "contractEntry" (JObj [])) as [ce|]; cbn [rbind]; [|discriminate].
  destruct ce as [| | | | |its]; try discriminate. cbn [items rbind].
  apply visit_items_counts.
Qed.

Lemma visit_all_counts (entries : list json) :
  forall st st',
    visit_all entries st = Ret st' ->
    List.length (mUSD_tokens st')
    = List.length (mUSD_tokens st) + List.length (filter is_token (flat_map located entries))
    /\ List.length (directmint st')
       = List.length (directmint st)
         + List.length (filter is_mint (flat_map located entries)).
Proof.
  induction entries as [|entry entries IH]; intros st st' H; cbn [visit_all flat_map] in *.
  - inv H. simpl. lia.
  - destruct (visit entry st) as [st1|] eqn:Hv; cbn [rbind] in H; [|discriminate].
    apply visit_counts in Hv. destruct Hv as [Ht Hm].
    destruct (IH _ _ H) as [IHt IHm].
    rewrite !filter_app, !length_app, IHt, IHm, Ht, Hm. lia.
Qed.

(** The two numbers test-canton-api.py reports: the mUSD tokens are the
    located events whose template identifier mentions
    [CantonDirectMint:CantonMUSD], and the direct-mint services those
    that mention [CantonDirectMint:CantonDirectMintService] and none of
    the six markers tried before it. *)
Theorem api_counts_located_events (data : json) (entries : list json) (st : status) :
  iter data = Ret entries ->
  scan data = Ret st ->
  List.length (mUSD_tokens st) = List.length (filter is_token (flat_map located entries))
  /\ List.length (directmint st) = List.length (filter is_mint (flat_map located entries)).
Proof.
  unfold scan. intros -> H. cbn [rbind] in H.
  apply visit_all_counts in H. exact H.
Qed.

End ApiCounts.

Lemma api_counts_located_events_witness :
  List.length (TestCantonApi.mUSD_tokens
                 (TestCantonApi.mkStatus
                    [JObj [("owner", JStr "alice"); ("amount", JStr "7.0")]]
                    (JObj [("operator", JStr ""); ("paused", JBool false)])
                    JNull JNull JNull JNull []))
  = List.length (filter Status.is_token
                   (flat_map Status.located
                      [Shapes.entry (Shapes.wrapped "JsActiveContract" Fixture.musd_event);
                       Shapes.entry (Shapes.wrapped "party-1"
                         (Shapes.event "pkg:Minted.V3:BridgeService" "c1"
                            (JObj [("paused", JBool false)])));
                       Shapes.entry (Shapes.flat Fixture.musd_event)]))
  /\ List.length (TestCantonApi.directmint
                    (TestCantonApi.mkStatus
                       [JObj [("owner", JStr "alice"); ("amount", JStr "7.0")]]
                       (JObj [("operator", JStr ""); ("paused", JBool false)])
                       JNull JNull JNull JNull []))
     = List.length (filter Status.is_mint
                      (flat_map Status.located
                         [Shapes.entry (Shapes.wrapped "JsActiveContract" Fixture.musd_event);
                          Shapes.entry (Shapes.wrapped "party-1"
                            (Shapes.event "pkg:Minted.V3:BridgeService" "c1"
                               (JObj [("paused", JBool false)])));
                          Shapes.entry (Shapes.flat Fixture.musd_event)])).
Proof.
  apply (api_counts_located_events
           (JArr [Shapes.entry (Shapes.wrapped "JsActiveContract" Fixture.musd_event);
                  Shapes.entry (Shapes.wrapped "party-1"
                    (Shapes.event "pkg:Minted.V3:BridgeService" "c1"
                       (JObj [("paused", JBool false)])));
                  Shapes.entry (Shapes.flat Fixture.musd_event)])); reflexivity.
Defined.

(** ** coverage_report.py: the name of a contract *)

Section ContractName.
Import CoverageReport.

Lemma split_append (c : ascii) (a r : string) :
  split c (a ++ String c r) = split c a ++ split c r.
Proof.
  induction a as [|x a IH]; simpl.
  - now rewrite Ascii.eqb_refl.
  - destruct (Ascii.eqb x c); [now rewrite IH|].
    rewrite IH. destruct (split_cons c a) as (p & ps & ->). reflexivity.
Qed.

Lemma last_append {A : Type} (d : A) (l l' : list A) :
  l' <> [] -> List.last (l ++ l') d = List.last l' d.
Proof.
  intros Hl'. induction l as [|x l IH]; [reflexivity|].
  simpl. destruct (l ++ l') eqn:E; [|exact IH].
  apply app_eq_nil in E. destruct E as [_ E]. contradiction.
Qed.

Lemma split_whole (c : ascii) (s : string) :
  contains (String c "") s = false -> split c s = [s].
Proof.
  induction s as [|x s IH]; [reflexivity|].
  cbn [contains split String.prefix]. intros H.
  apply orb_false_elim in H. destruct H as [Hp Hc].
  destruct (Ascii.ascii_dec c x) as [->|Hne].
  - destruct s; discriminate Hp.
  - destruct (Ascii.eqb_spec x c) as [->|_]; [contradiction|].
    rewrite (IH Hc). reflexivity.
Qed.

Lemma contains_append (c : ascii) (s t : string) :
  contains (String c "") s = false -> contains (String c "") t = false ->
  contains (String c "") (s ++ t) = false.
Proof.
  intros Hs Ht. induction s as [|x s IH]; [exact Ht|].
  cbn [contains String.prefix append] in *.
  apply orb_false_elim in Hs. destruct Hs as [Hp Hc].
  rewrite (IH Hc), orb_false_r.
  destruct (Ascii.ascii_dec c x); [|reflexivity].
  destruct s; discriminate Hp.
Qed.

(** The text [.sol] cannot start inside a name that does not hold it and
    end in the extension that follows. *)
Lemma no_straddle (x : ascii) (b : string) :
  String.prefix ".sol" (String x b) = false ->
  String.prefix ".sol" (String x (b ++ ".sol")) = false.
Proof.
  destruct b as [|y [|z [|u b]]]; cbn [String.prefix append]; intros H;
    repeat match goal with
           | |- context [Ascii.ascii_dec ?a ?b] =>
               destruct (Ascii.ascii_dec a b); try discriminate; subst
           end;
    try reflexivity.
  revert H. cbn [String.prefix].
  repeat match goal with
         | |- context [Ascii.ascii_dec ?a ?b] =>
             destruct (Ascii.ascii_dec a b); try congruence
         end.
  destruct b; discriminate.
Qed.

Lemma remove_extension (b : string) :
  contains ".sol" b = false -> remove_all ".sol" (b ++ ".sol") = b.
Proof.
  unfold remove_all. induction b as [|x b IH]; [reflexivity|].
  intros H. change (contains ".sol" (String x b))
    with (String.prefix ".sol" (String x b) || contains ".sol" b) in H.
  apply orb_false_elim in H. destruct H as [Hp Hc].
  change ((String x b ++ ".sol")%string) with (String x (b ++ ".sol")).
  cbn [remove_from]. rewrite (no_straddle x b Hp), (IH Hc). reflexivity.
Qed.

(** For a contract file [base.sol] in any directory, where [base] holds
    no slash and not the text [.sol], the name coverage_report.py shows is
    [base]: the directories and the extension are gone. *)
Theorem coverage_name_is_base (dir base : string) :
  contains "/" base = false ->
  contains ".sol" base = false ->
  name_of (dir ++ "/" ++ base ++ ".sol") = base.
Proof.
  intros Hslash Hext. unfold name_of, last_part.
  change (("/" ++ base ++ ".sol")%string) with (String "/"%char (base ++ ".sol")).
  rewrite split_append.
  assert (Hw : split "/"%char (base ++ ".sol") = [(base ++ ".sol")%string]).
  { apply split_whole. apply contains_append; [exact Hslash|reflexivity]. }
  rewrite last_append by (rewrite Hw; discriminate).
  rewrite Hw. cbn [List.last]. now apply remove_extension.
Qed.

End ContractName.

Lemma coverage_name_is_base_witness :
  CoverageReport.name_of ("contracts/core" ++ "/" ++ "MUSD" ++ ".sol") = "MUSD".
Proof. apply (coverage_name_is_base "contracts/core" "MUSD"); reflexivity. Defined.
